(** * Telegram client AI agent: event normalisation, routing, handlers,
      chat agent, moderation service and knowledge base.

    A shallow embedding of the Python sources under [src/services] and the
    properties of the specification proved (or refuted) on it.

    Layout:
    - [Py]: the fragment of Python the sources rely on (exceptions, the
      state-and-exception monad, [str], slices, truthiness);
    - [Json]: TDLib payloads ([dict]/[list]/scalars) and their accessors;
    - [SenderInfo], [MediaInfo], [MessageEvent], [UserStatusEvent],
      [ChatActionEvent]: [services/tg/events/event.py] and [enums.py];
    - [Router]: [services/tg/events/router.py];
    - [GroupModeration], [PMReply]: the two handlers;
    - [Agent]: [services/ai/chat/agent.py];
    - [Moderation]: [services/ai/moderation/service.py];
    - [KB]: [services/knowledge_base/knowledge_base.py];
    - the definitions the properties are stated with, concrete
      collaborators to run the code on, and then the properties. *)

From Stdlib Require Import ZArith String Ascii List DecimalString QArith Lia.
From Stdlib Require DecimalPos DecimalZ DecimalFacts.
From stdpp Require Import gmap strings list fin_maps.

Set Warnings "-register-all".
Local Open Scope Z_scope.

(* ===================================================================== *)
(** * Python fragment *)
(* ===================================================================== *)

Module Py.

(** Exceptions by class.  Every constructor but the last stands for a
    subclass of [Exception]; [BaseExceptionOnly] stands for the classes that
    derive from [BaseException] directly (KeyboardInterrupt, SystemExit,
    GeneratorExit), which [except Exception] lets through. *)
Inductive exn : Type :=
| KeyError
| TypeError
| AttributeError
| NameError
| UnboundLocalError
| ValueError
| OtherException (cls : string)
| BaseExceptionOnly (cls : string).

Definition is_Exception (e : exn) : bool :=
  match e with
  | BaseExceptionOnly _ => false
  | _ => true
  end.

(** Result of running a piece of code: a value, or a raised exception. *)
Inductive outcome (A : Type) : Type :=
| Ret (a : A)
| Raise (e : exn).
Arguments Ret {A} a.
Arguments Raise {A} e.

Definition returns {A} (o : outcome A) : bool :=
  match o with Ret _ => true | Raise _ => false end.

(** Sequencing of code that touches no store. *)
Definition obind {A B} (o : outcome A) (k : A -> outcome B) : outcome B :=
  match o with
  | Ret a => k a
  | Raise e => Raise e
  end.

(** Code that reads and mutates a store [W] and may raise.  Mutations made
    before a [raise] stay, as in Python. *)
Definition M (W A : Type) : Type := W -> outcome A * W.

Definition pure {W A} (o : outcome A) : M W A := fun w => (o, w).
Definition ret {W A} (a : A) : M W A := pure (Ret a).
Definition raise {W A} (e : exn) : M W A := pure (Raise e).

Definition bind {W A B} (m : M W A) (k : A -> M W B) : M W B :=
  fun w =>
    match m w with
    | (Ret a, w') => k a w'
    | (Raise e, w') => (Raise e, w')
    end.

(** [try: body  except Exception as e: handler e] *)
Definition try_except {W A} (body : M W A) (handler : exn -> M W A) : M W A :=
  fun w =>
    match body w with
    | (Ret a, w') => (Ret a, w')
    | (Raise e, w') => if is_Exception e then handler e w' else (Raise e, w')
    end.

Definition get {W} : M W W := fun w => (Ret w, w).
Definition put {W} (w : W) : M W unit := fun _ => (Ret tt, w).
Definition modify {W} (f : W -> W) : M W unit := fun w => (Ret tt, f w).

(** A store paired with the list of calls made so far to the collaborators
    of the code under study (oldest first).  Collaborators act on [inner]
    only. *)
Record Traced (T W : Type) : Type := mkTraced { inner : W; trace : list T }.
Arguments mkTraced {T W} inner trace.
Arguments inner {T W} t.
Arguments trace {T W} t.

Definition untraced {T W} (w : W) : Traced T W := mkTraced w [].

(** Run collaborator code on the inner store. *)
Definition lift {T W A} (m : M W A) : M (Traced T W) A :=
  fun tw =>
    let '(o, w') := m (inner tw) in (o, mkTraced w' (trace tw)).

Definition record {T W} (c : T) : M (Traced T W) unit :=
  modify (fun tw => mkTraced (inner tw) (trace tw ++ [c])).

(** Call a collaborator: note the call, then run it. *)
Definition call {T W A} (c : T) (m : M W A) : M (Traced T W) A :=
  bind (record c) (fun _ => lift m).

(** ** [str] *)

(** [str(n)] for an [int]. *)
Definition str_of_int (n : Z) : string := NilZero.string_of_int (Z.to_int n).

(** [s.startswith(p)] *)
Definition startswith (s p : string) : bool := String.prefix p s.

(** [s.replace(old, new)] for a non-empty [old]: occurrences are replaced
    left to right without overlap.  [skip] counts the characters of a match
    still to be dropped. *)
Fixpoint replace_from (old new s : string) (skip : nat) : string :=
  match s with
  | EmptyString => EmptyString
  | String c s' =>
      match skip with
      | S k => replace_from old new s' k
      | O =>
          if String.prefix old s
          then (new ++ replace_from old new s' (String.length old - 1))%string
          else String c (replace_from old new s' 0)
      end
  end.

Definition replace (s old new : string) : string := replace_from old new s 0.

(** [s.lower()] on the ASCII letters. *)
Definition lower_ascii (c : ascii) : ascii :=
  let n := nat_of_ascii c in
  if ((65 <=? n)%nat && (n <=? 90)%nat)%bool then ascii_of_nat (n + 32) else c.

Fixpoint lower (s : string) : string :=
  match s with
  | EmptyString => EmptyString
  | String c s' => String (lower_ascii c) (lower s')
  end.

(** [s.strip()]: the whitespace of the ASCII range is tab, line feed,
    vertical tab, form feed, carriage return, the separators 0x1c-0x1f and
    the space. *)
Definition is_space (c : ascii) : bool :=
  let n := nat_of_ascii c in
  (((9 <=? n)%nat && (n <=? 13)%nat) || ((28 <=? n)%nat && (n <=? 32)%nat))%bool.

Fixpoint lstrip (s : string) : string :=
  match s with
  | EmptyString => EmptyString
  | String c s' => if is_space c then lstrip s' else s
  end.

Fixpoint rstrip (s : string) : string :=
  match s with
  | EmptyString => EmptyString
  | String c s' =>
      match rstrip s' with
      | EmptyString => if is_space c then EmptyString else String c EmptyString
      | r => String c r
      end
  end.

Definition strip (s : string) : string := rstrip (lstrip s).

(** The line feed of the string literals. *)
Definition nl : string := String (ascii_of_nat 10) EmptyString.

(** [sep.join(l)] *)
Fixpoint join (sep : string) (l : list string) : string :=
  match l with
  | [] => EmptyString
  | [x] => x
  | x :: l' => (x ++ sep ++ join sep l')%string
  end.

(** Truthiness of a [str]. *)
Definition str_truthy (s : string) : bool :=
  match s with EmptyString => false | _ => true end.

(** ** Slices of sequences *)

(** Clamp a slice bound as CPython's [PySlice_AdjustIndices] does for a
    step of 1: a negative bound counts from the end. *)
Definition slice_bound (len i : Z) : Z :=
  if i <? 0 then Z.max (len + i) 0 else Z.min i len.

(** [l[start:stop]] *)
Definition slice {A} (l : list A) (start stop : Z) : list A :=
  let len := Z.of_nat (length l) in
  let lo := slice_bound len start in
  let hi := slice_bound len stop in
  take (Z.to_nat (hi - lo)) (drop (Z.to_nat lo) l).

(** [l[start:]] *)
Definition slice_from {A} (l : list A) (start : Z) : list A :=
  drop (Z.to_nat (slice_bound (Z.of_nat (length l)) start)) l.

End Py.

Export Py.

Declare Scope py_scope.
Delimit Scope py_scope with py.
Notation "'let*' x ':=' c 'in' k" := (bind c (fun x => k))
  (at level 10, x name, c at level 100, k at level 200) : py_scope.
Notation "'let+' x ':=' c 'in' k" := (obind c (fun x => k))
  (at level 10, x name, c at level 100, k at level 200) : py_scope.
Local Open Scope py_scope.


(* ===================================================================== *)
(** * TDLib payloads *)
(* ===================================================================== *)

Module Json.

(** A decoded JSON value as python-telegram hands it over: [None], [bool],
    [int], [str], [list] and [dict] (distinct keys, in insertion order). *)
Inductive json : Type :=
| JNull
| JBool (b : bool)
| JInt (z : Z)
| JStr (s : string)
| JList (l : list json)
| JDict (kvs : list (string * json)).

Definition lookup_key (k : string) (kvs : list (string * json)) : option json :=
  match List.find (fun kv => String.eqb (fst kv) k) kvs with
  | Some kv => Some (snd kv)
  | None => None
  end.

(** [d.get(k, dflt)]; only a [dict] has [get]. *)
Definition py_get (d : json) (k : string) (dflt : json) : outcome json :=
  match d with
  | JDict kvs => Ret (default dflt (lookup_key k kvs))
  | _ => Raise AttributeError
  end.

(** [d[k]] with a [str] key. *)
Definition py_getitem (d : json) (k : string) : outcome json :=
  match d with
  | JDict kvs =>
      match lookup_key k kvs with
      | Some v => Ret v
      | None => Raise KeyError
      end
  | _ => Raise TypeError
  end.

(** [isinstance(j, dict)] *)
Definition is_dict (j : json) : bool :=
  match j with JDict _ => true | _ => false end.

(** [j == s] for a [str] literal [s]. *)
Definition eq_str (j : json) (s : string) : bool :=
  match j with JStr t => String.eqb t s | _ => false end.

(** [bool(j)] *)
Definition truthy (j : json) : bool :=
  match j with
  | JNull => false
  | JBool b => b
  | JInt z => negb (z =? 0)
  | JStr s => str_truthy s
  | JList l => match l with [] => false | _ => true end
  | JDict kvs => match kvs with [] => false | _ => true end
  end.

(** Reads at the type a dataclass field or an operator expects.  TDLib's
    schema fixes the type of every field read below; a value of another
    type makes the read raise [TypeError] here. *)
Definition as_int (j : json) : outcome Z :=
  match j with JInt z => Ret z | _ => Raise TypeError end.

Definition as_str (j : json) : outcome string :=
  match j with JStr s => Ret s | _ => Raise TypeError end.

Definition as_bool (j : json) : outcome bool :=
  match j with JBool b => Ret b | _ => Raise TypeError end.

Definition as_list (j : json) : outcome (list json) :=
  match j with JList l => Ret l | _ => Raise TypeError end.

(** A method of [str] called on [j]: anything else has no such attribute. *)
Definition str_receiver (j : json) : outcome string :=
  match j with JStr s => Ret s | _ => Raise AttributeError end.

End Json.

Export Json.

(* ===================================================================== *)
(** * Event model: [events/enums.py], [events/event.py] *)
(* ===================================================================== *)

(** Handle of a client object ([event.client]). *)
Definition client_ref : Type := nat.

Inductive ChatType : Type := PRIVATE | GROUP | SUPERGROUP | CHANNEL | UNKNOWN.

Definition ChatType_eqb (a b : ChatType) : bool :=
  match a, b with
  | PRIVATE, PRIVATE | GROUP, GROUP | SUPERGROUP, SUPERGROUP
  | CHANNEL, CHANNEL | UNKNOWN, UNKNOWN => true
  | _, _ => false
  end.

Module SenderInfo.
Record t : Type := mk {
  user_id : Z;
  username : option string;   (* the normaliser may leave [None] here *)
  first_name : string;
  last_name : string;
  phone : string
}.

(** [f"{self.first_name} {self.last_name}".strip()] *)
Definition full_name (s : t) : string :=
  strip (first_name s ++ " " ++ last_name s)%string.

(** ["@username"] if there is a username, else the full name, else the
    id. *)
Definition mention (s : t) : string :=
  match username s with
  | Some (String c u) => ("@" ++ String c u)%string
  | _ =>
      match full_name s with
      | EmptyString => str_of_int (user_id s)
      | name => name
      end
  end.
End SenderInfo.

Module MediaInfo.
(** The optional fields other than [caption] are copied from the TDLib
    object as they are ([JNull] is [None]). *)
Record t : Type := mk {
  media_type : string;
  file_id : json;
  file_size : json;
  mime_type : json;
  duration : json;
  width : json;
  height : json;
  thumbnail : json;
  caption : option string
}.

(** [MediaInfo(media_type=..., caption=...)] *)
Definition init (media_type : string) (caption : string) : t :=
  mk media_type JNull JNull JNull JNull JNull JNull JNull (Some caption).

(** Attribute assignments [media_info.f = v]. *)
Definition set_file_id (v : json) (m : t) : t :=
  mk (media_type m) v (file_size m) (mime_type m) (duration m) (width m)
     (height m) (thumbnail m) (caption m).
Definition set_file_size (v : json) (m : t) : t :=
  mk (media_type m) (file_id m) v (mime_type m) (duration m) (width m)
     (height m) (thumbnail m) (caption m).
Definition set_mime_type (v : json) (m : t) : t :=
  mk (media_type m) (file_id m) (file_size m) v (duration m) (width m)
     (height m) (thumbnail m) (caption m).
Definition set_duration (v : json) (m : t) : t :=
  mk (media_type m) (file_id m) (file_size m) (mime_type m) v (width m)
     (height m) (thumbnail m) (caption m).
Definition set_width (v : json) (m : t) : t :=
  mk (media_type m) (file_id m) (file_size m) (mime_type m) (duration m) v
     (height m) (thumbnail m) (caption m).
Definition set_height (v : json) (m : t) : t :=
  mk (media_type m) (file_id m) (file_size m) (mime_type m) (duration m)
     (width m) v (thumbnail m) (caption m).
End MediaInfo.

Module MessageEvent.
(** [date] and [edit_date] hold the timestamps given to
    [datetime.fromtimestamp]. *)
Record t : Type := mk {
  message_id : Z;
  chat_id : Z;
  sender_id : Z;
  sender : SenderInfo.t;
  text : string;
  raw_text : string;
  date : Z;
  edit_date : option Z;
  chat_type : ChatType;
  is_outgoing : bool;
  is_mention : bool;
  is_service : bool;
  has_media : bool;
  media : option MediaInfo.t;
  reply_to_message_id : json;
  forward_from_chat_id : json;
  client : client_ref;
  raw_event : json
}.
End MessageEvent.

Module UserStatusEvent.
Record t : Type := mk {
  user_id : Z;
  is_online : bool;
  last_seen : option Z;
  client : client_ref;
  raw_event : json
}.
End UserStatusEvent.

Module ChatActionEvent.
Record t : Type := mk {
  chat_id : Z;
  user_id : Z;
  action : string;
  client : client_ref;
  raw_event : json
}.
End ChatActionEvent.

(** [Union[MessageEvent, UserStatusEvent, ChatActionEvent]] *)
Inductive Event : Type :=
| EMessage (e : MessageEvent.t)
| EUserStatus (e : UserStatusEvent.t)
| EChatAction (e : ChatActionEvent.t).

(* ===================================================================== *)
(** * Collaborators and the store *)
(* ===================================================================== *)

(** [peer: str | int] *)
Inductive peer : Type :=
| PeerId (id : Z)
| PeerName (name : string).

(** The object [call_method] returns, once [wait()] has returned. *)
Module AsyncResult.
Record t : Type := mk {
  error : bool;
  error_info : json;
  update : json
}.
End AsyncResult.

(** [services/ai/chat/response.py] *)
Module ChatResponse.
Record t : Type := mk {
  message : string;
  should_escalate : bool;
  escalation_reason : option string;
  confidence : Q;
  language : option string
}.
Definition to_telegram_message (r : t) : string := message r.
End ChatResponse.

(** One entry of a conversation: [{"role": ..., "content": ...}]. *)
Module Turn.
Record t : Type := mk { role : string; content : string }.
End Turn.
Abbreviation turn := Turn.t.

(** [services/ai/moderation/config/moderation_config.py] *)
Module ModerationResult.
Record t : Type := mk {
  should_delete : bool;
  should_warn : bool;
  reason : option string;
  confidence : Q;
  violations : option (list string)
}.
(** [ModerationResult(should_delete=False, reason=r)] *)
Definition neutral (r : string) : t := mk false false (Some r) 0%Q None.
End ModerationResult.

(** One hit of the retriever: [{"document", "metadata", "distance"}]. *)
Module RetrievedDoc.
Record t : Type := mk {
  document : string;
  metadata : json;
  distance : Q
}.
End RetrievedDoc.

(** Calls that leave the code under study. *)
Inductive ext_call : Type :=
| GetUser (c : client_ref) (user_peer : Z)
| SendMessage (c : client_ref) (p : peer) (text : string) (parse_mode : option string)
| DeleteMessage (c : client_ref) (chat_id message_id : Z)
| CallMethod (c : client_ref) (method : string) (params : json)
| Generate (system_prompt user_message : string) (history : list turn) (rag_context : string)
| Retrieve (query : string) (top_k : Z)
| ModerateText (text : string)
| ModerateImage (image_data : list Byte.byte) (caption : option string)
| ModerateVoice (transcription : string)
| PathExists (path : string)
| ReadFile (path : string)
| LoadWhisper
| Transcribe (audio : list Byte.byte).

(** The messaging client ([services/tg/client/base.py]); [call_method]
    is the TDLib handle [client.client] that the router and the moderation
    service reach into. *)
Class BaseTelegramClient (Env : Type) : Type := {
  get_user : client_ref -> Z -> M Env json;
  send_message : client_ref -> peer -> string -> option string -> M Env json;
  delete_message : client_ref -> Z -> Z -> M Env bool;
  call_method : client_ref -> string -> json -> M Env AsyncResult.t
}.

(** [services/ai/chat/base.py] *)
Class BaseChatModel (Env : Type) : Type := {
  generate : string -> string -> list turn -> string -> M Env ChatResponse.t
}.

(** [services/ai/rag/retriever.py] *)
Class Retriever (Env : Type) : Type := {
  retrieve : string -> Z -> M Env (list RetrievedDoc.t)
}.

(** [services/ai/moderation/base.py] *)
Class BaseModerationModel (Env : Type) : Type := {
  moderate_text : string -> M Env ModerationResult.t;
  moderate_image : list Byte.byte -> option string -> M Env ModerationResult.t;
  moderate_voice : string -> M Env ModerationResult.t
}.

(** What the moderation service reaches on the local machine: [os.path],
    [open] and the Whisper package.  [transcribe] stands for writing the
    audio to a temporary file, [model.transcribe] on it and the removal of
    the file; it returns Whisper's result [dict]. *)
Class LocalMachine (Env : Type) : Type := {
  path_exists : string -> M Env bool;
  read_file : string -> M Env (list Byte.byte);
  load_whisper : M Env unit;
  transcribe : list Byte.byte -> M Env json
}.

(** The store the handlers run on: the collaborators' state [ext], the
    calls made to them so far, the chat agent's [_conversations] and whether
    the moderation service holds a loaded [_whisper_model]. *)
Record World (Env : Type) : Type := mkWorld {
  ext : Env;
  calls : list ext_call;
  _conversations : gmap Z (list turn);
  _whisper_model : bool
}.
Arguments mkWorld {Env} ext calls _conversations _whisper_model.
Arguments ext {Env} w.
Arguments calls {Env} w.
Arguments _conversations {Env} w.
Arguments _whisper_model {Env} w.

Definition initial_world {Env} (e : Env) : World Env := mkWorld e [] ∅ false.

(** Call a collaborator: note the call, then let it act on [ext]. *)
Definition ext_do {Env A} (c : ext_call) (m : M Env A) : M (World Env) A :=
  fun w =>
    let '(o, e') := m (ext w) in
    (o, mkWorld e' (calls w ++ [c]) (_conversations w) (_whisper_model w)).

(* ===================================================================== *)
(** * Event router: [services/tg/events/router.py] *)
(* ===================================================================== *)

Module Router.

(** [services/tg/events/handlers/base.py] *)
Record BaseHandler (W : Type) : Type := mkHandler {
  can_handle : Event -> M W bool;
  handle : Event -> M W unit
}.
Arguments mkHandler {W} can_handle handle.
Arguments can_handle {W} b ev.
Arguments handle {W} b ev.

(** What the router calls on its handlers; [i] is the position of the
    handler in [self.handlers]. *)
Inductive invocation : Type :=
| CanHandle (i : nat)
| Handle (i : nat).

(** [d.get(k1, {}).get(k2, dflt)] *)
Definition get2 (d : json) (k1 k2 : string) (dflt : json) : outcome json :=
  let+ o := py_get d k1 (JDict []) in py_get o k2 dflt.

(** [caption_obj.get('text', '') if isinstance(caption_obj, dict) else ''] *)
Definition caption_text (content : json) : outcome string :=
  let+ caption_obj := py_get content "caption" (JDict []) in
  if is_dict caption_obj
  then let+ c := py_get caption_obj "text" (JStr "") in as_str c
  else Ret ""%string.

(** The key of [max(sizes, key=...)]. *)
Definition size_area (s : json) : outcome Z :=
  let+ w := py_get s "width" (JInt 0) in
  let+ w := as_int w in
  let+ h := py_get s "height" (JInt 0) in
  let+ h := as_int h in
  Ret (w * h).

(** [max(l, key=key)]: the first element with the greatest key. *)
Fixpoint max_from (key : json -> outcome Z) (best : json) (best_key : Z)
    (l : list json) : outcome json :=
  match l with
  | [] => Ret best
  | x :: l' =>
      let+ k := key x in
      if best_key <? k then max_from key x k l' else max_from key best best_key l'
  end.

Definition py_max (key : json -> outcome Z) (l : list json) : outcome json :=
  match l with
  | [] => Raise ValueError
  | x :: l' => let+ k := key x in max_from key x k l'
  end.

Definition _extract_media_info (content content_type : json) : outcome MediaInfo.t :=
  let+ ct := str_receiver content_type in
  let media_type :=
    if startswith ct "message" then lower (replace ct "message" "") else "unknown"%string in
  let+ caption := caption_text content in
  let media_info := MediaInfo.init media_type caption in
  if eq_str content_type "messagePhoto" then
    let+ photo := py_get content "photo" (JDict []) in
    let+ sizes := py_get photo "sizes" (JList []) in
    if truthy sizes then
      let+ l := as_list sizes in
      let+ largest := py_max size_area l in
      let+ w := py_get largest "width" JNull in
      let+ h := py_get largest "height" JNull in
      let+ fid := get2 largest "photo" "id" JNull in
      let+ fsz := get2 largest "photo" "size" JNull in
      Ret (MediaInfo.set_file_size fsz (MediaInfo.set_file_id fid
            (MediaInfo.set_height h (MediaInfo.set_width w media_info))))
    else Ret media_info
  else if eq_str content_type "messageVideo" then
    let+ video := py_get content "video" (JDict []) in
    let+ d := py_get video "duration" JNull in
    let+ w := py_get video "width" JNull in
    let+ h := py_get video "height" JNull in
    let+ fid := get2 video "video" "id" JNull in
    let+ fsz := get2 video "video" "size" JNull in
    let+ mt := py_get video "mime_type" JNull in
    Ret (MediaInfo.set_mime_type mt (MediaInfo.set_file_size fsz
          (MediaInfo.set_file_id fid (MediaInfo.set_height h
            (MediaInfo.set_width w (MediaInfo.set_duration d media_info))))))
  else if eq_str content_type "messageVoiceNote" then
    let+ voice := py_get content "voice_note" (JDict []) in
    let+ d := py_get voice "duration" JNull in
    let+ fid := get2 voice "voice" "id" JNull in
    let+ fsz := get2 voice "voice" "size" JNull in
    let+ mt := py_get voice "mime_type" (JStr "audio/ogg") in
    Ret (MediaInfo.set_mime_type mt (MediaInfo.set_file_size fsz
          (MediaInfo.set_file_id fid (MediaInfo.set_duration d media_info))))
  else if eq_str content_type "messageAudio" then
    let+ audio := py_get content "audio" (JDict []) in
    let+ d := py_get audio "duration" JNull in
    let+ fid := get2 audio "audio" "id" JNull in
    let+ fsz := get2 audio "audio" "size" JNull in
    let+ mt := py_get audio "mime_type" JNull in
    Ret (MediaInfo.set_mime_type mt (MediaInfo.set_file_size fsz
          (MediaInfo.set_file_id fid (MediaInfo.set_duration d media_info))))
  else if eq_str content_type "messageDocument" then
    let+ doc := py_get content "document" (JDict []) in
    let+ fid := get2 doc "document" "id" JNull in
    let+ fsz := get2 doc "document" "size" JNull in
    let+ mt := py_get doc "mime_type" JNull in
    Ret (MediaInfo.set_mime_type mt (MediaInfo.set_file_size fsz
          (MediaInfo.set_file_id fid media_info)))
  else if eq_str content_type "messageSticker" then
    let+ sticker := py_get content "sticker" (JDict []) in
    let+ w := py_get sticker "width" JNull in
    let+ h := py_get sticker "height" JNull in
    let+ fid := get2 sticker "sticker" "id" JNull in
    Ret (MediaInfo.set_file_id fid (MediaInfo.set_height h
          (MediaInfo.set_width w media_info)))
  else if eq_str content_type "messageAnimation" then
    let+ animation := py_get content "animation" (JDict []) in
    let+ d := py_get animation "duration" JNull in
    let+ w := py_get animation "width" JNull in
    let+ h := py_get animation "height" JNull in
    let+ fid := get2 animation "animation" "id" JNull in
    let+ fsz := get2 animation "animation" "size" JNull in
    let+ mt := py_get animation "mime_type" JNull in
    Ret (MediaInfo.set_mime_type mt (MediaInfo.set_file_size fsz
          (MediaInfo.set_file_id fid (MediaInfo.set_height h
            (MediaInfo.set_width w (MediaInfo.set_duration d media_info))))))
  else Ret media_info.

(** The chat type as lines 150-161 of the router compute it. *)
Definition chat_type_of (chat_id : Z) : ChatType :=
  if 0 <? chat_id then PRIVATE
  else if startswith (str_of_int chat_id) "-100" then SUPERGROUP
  else if chat_id <? 0 then GROUP
  else UNKNOWN.

Section WithClient.
Context {Env : Type} `{!BaseTelegramClient Env}.

Definition _get_sender_info (sender_id : Z) (client : client_ref)
  : M (World Env) SenderInfo.t :=
  let* user_info := ext_do (GetUser client sender_id) (get_user client sender_id) in
  if negb (truthy user_info) then
    ret (SenderInfo.mk sender_id (Some ""%string)
           ("User" ++ str_of_int sender_id)%string ""%string ""%string)
  else
    let* usernames_obj := pure (py_get user_info "usernames" (JDict [])) in
    let* username :=
      pure (if is_dict usernames_obj
            then let+ u := py_get usernames_obj "editable_username" (JStr "") in
                 let+ u := as_str u in Ret (Some u)
            else Ret None) in
    if truthy user_info then
      let* fn := pure (let+ x := py_get user_info "first_name" (JStr "") in as_str x) in
      let* ln := pure (let+ x := py_get user_info "last_name" (JStr "") in as_str x) in
      let* ph := pure (let+ x := py_get user_info "phone_number" (JStr "") in as_str x) in
      ret (SenderInfo.mk sender_id username fn ln ph)
    else
      ret (SenderInfo.mk sender_id (Some ""%string) ""%string ""%string ""%string).

Definition _tdlib_to_message_event (message : json) (client : client_ref)
    (raw_update : json) : M (World Env) MessageEvent.t :=
  (* the debug line formats message['id'] and message['chat_id'] *)
  let* _ := pure (py_getitem message "id") in
  let* _ := pure (py_getitem message "chat_id") in
  let* content := pure (py_get message "content" (JDict [])) in
  let* content_type := pure (py_get content "@type" (JStr "")) in
  let* text :=
    pure (if eq_str content_type "messageText"
          then let+ t := get2 content "text" "text" (JStr "") in as_str t
          else caption_text content) in
  let* chat_id := pure (let+ c := py_getitem message "chat_id" in as_int c) in
  let chat_type := chat_type_of chat_id in
  let* sender_id :=
    pure (let+ s := get2 message "sender_id" "user_id" (JInt 0) in as_int s) in
  let* sender_info := _get_sender_info sender_id client in
  let has_media := negb (eq_str content_type "messageText") in
  let* content_type := pure (get2 message "content" "@type" (JStr "")) in
  let* media_info :=
    if has_media
    then let* m := pure (_extract_media_info content content_type) in ret (Some m)
    else ret None in
  let* message_id := pure (let+ i := py_getitem message "id" in as_int i) in
  let* date := pure (let+ d := py_getitem message "date" in as_int d) in
  let* edit_flag := pure (let+ d := py_get message "edit_date" (JInt 0) in as_int d) in
  let* edit_date :=
    if 0 <? edit_flag
    then let* d := pure (let+ d := py_getitem message "edit_date" in as_int d) in
         ret (Some d)
    else ret None in
  let* is_outgoing :=
    pure (let+ b := py_get message "is_outgoing" (JBool false) in as_bool b) in
  let* is_mention :=
    pure (let+ b := py_get message "contains_unread_mention" (JBool false) in as_bool b) in
  let* is_service :=
    pure (if truthy content_type
          then let+ s := str_receiver content_type in Ret (startswith s "messageService")
          else Ret false) in
  let* reply_to := pure (py_get message "reply_to_message_id" JNull) in
  let* forward_from := pure (get2 message "forward_info" "from_chat_id" JNull) in
  ret (MessageEvent.mk message_id chat_id sender_id sender_info text text date
         edit_date chat_type is_outgoing is_mention is_service has_media
         media_info reply_to forward_from client raw_update).

Definition _from_tdlib (update : json) (client : client_ref)
  : M (World Env) (option Event) :=
  let* update_type := pure (py_get update "@type" JNull) in
  if eq_str update_type "updateNewMessage" then
    let* message := pure (py_getitem update "message") in
    let* ev := _tdlib_to_message_event message client update in
    ret (Some (EMessage ev))
  else if eq_str update_type "updateMessageEdited" then
    let* cid := pure (py_getitem update "chat_id") in
    let* mid := pure (py_getitem update "message_id") in
    let params := JList [JStr "chat_id"; cid; JStr "message_id"; mid] in
    let* message :=
      ext_do (CallMethod client "getMessage" params)
             (call_method client "getMessage"%string params) in
    if negb (AsyncResult.error message) then
      let* ev := _tdlib_to_message_event (AsyncResult.update message) client update in
      ret (Some (EMessage ev))
    else ret None
  else if eq_str update_type "updateUserStatus" then
    let* uid := pure (let+ u := py_getitem update "user_id" in as_int u) in
    let* st := pure (get2 update "status" "@type" JNull) in
    ret (Some (EUserStatus
                 (UserStatusEvent.mk uid (eq_str st "userStatusOnline") None client update)))
  else if eq_str update_type "updateChatAction" then
    let* cid := pure (let+ c := py_getitem update "chat_id" in as_int c) in
    let* uid := pure (let+ u := get2 update "sender_id" "user_id" (JInt 0) in as_int u) in
    let* act := pure (let+ a := get2 update "action" "@type" (JStr "unknown") in as_str a) in
    ret (Some (EChatAction (ChatActionEvent.mk cid uid act client update)))
  else ret None.

(** [update] is the [Dict[str, Any]] of the signature. *)
Definition _normalize_event (update : list (string * json)) (client : client_ref)
  : M (World Env) (option Event) :=
  if bool_decide (is_Some (lookup_key "@type" update))
  then _from_tdlib (JDict update) client
  else ret None.

(** The router object: its handlers in registration order. *)
Record EventRouter : Type := mkRouter {
  handlers : list (BaseHandler (World Env))
}.

Definition __init__ : EventRouter := mkRouter [].

Definition add_handler (r : EventRouter) (h : BaseHandler (World Env)) : EventRouter :=
  mkRouter (handlers r ++ [h]).

(** The body of the [for] loop over [self.handlers], from position [i]. *)
Fixpoint route_handlers (i : nat) (hs : list (BaseHandler (World Env))) (event : Event)
  : M (Traced invocation (World Env)) unit :=
  match hs with
  | [] => ret tt
  | handler :: hs' =>
      let* _ :=
        try_except
          (let* ok := call (CanHandle i) (can_handle handler event) in
           if ok then call (Handle i) (handle handler event) else ret tt)
          (fun _ => ret tt) in
      route_handlers (S i) hs' event
  end.

Definition route (r : EventRouter) (update : list (string * json)) (client : client_ref)
  : M (Traced invocation (World Env)) unit :=
  let* event := lift (_normalize_event update client) in
  match event with
  | None => ret tt
  | Some ev => route_handlers 0 (handlers r) ev
  end.

End WithClient.
End Router.

(* ===================================================================== *)
(** * Group moderation handler:
      [services/tg/events/handlers/moderation/group_moderation.py] *)
(* ===================================================================== *)

Module GroupModeration.

Record GroupModerationHandler : Type := mk {
  monitored_groups : option (gset Z);
  send_logs_to : option peer;
  send_warnings : bool
}.

(** [monitored_groups or set()] *)
Definition or_empty_set (monitored_groups : option (gset Z)) : gset Z :=
  match monitored_groups with
  | Some s => if bool_decide (s = ∅) then ∅ else s
  | None => ∅
  end.

(** The constructor, given a moderation service. *)
Definition __init__ (monitored_groups : option (gset Z)) (send_logs_to : option peer)
    (send_warnings : bool) : GroupModerationHandler :=
  mk (Some (or_empty_set monitored_groups)) send_logs_to send_warnings.

(** The debug line reads [event.chat_type] and [event.is_outgoing] before
    the [isinstance] test, which only a [MessageEvent] has. *)
Definition can_handle (self : GroupModerationHandler) (event : Event) : outcome bool :=
  match event with
  | EMessage ev =>
      if negb (ChatType_eqb (MessageEvent.chat_type ev) GROUP) then Ret false
      else if (MessageEvent.is_outgoing ev && MessageEvent.is_service ev)%bool then Ret false
      else
        match monitored_groups self with
        | Some groups =>
            if bool_decide (Z.abs (MessageEvent.chat_id ev) ∉ groups)
            then Ret false else Ret true
        | None => Ret true
        end
  | EUserStatus _ | EChatAction _ => Raise AttributeError
  end.

End GroupModeration.

(* ===================================================================== *)
(** * Chat agent: [services/ai/chat/agent.py] *)
(* ===================================================================== *)

Module Agent.
Section WithModel.
Context {Env : Type} `{!BaseChatModel Env}.

Record ChatAgent : Type := mk {
  system_prompt : string;
  retriever : option (Retriever Env);
  max_history : Z
}.

Definition set_conversation (user_id : Z) (history : list turn) : M (World Env) unit :=
  modify (fun w => mkWorld (ext w) (calls w)
                     (<[user_id := history]> (_conversations w)) (_whisper_model w)).

(** [f"[Document {i+1}]\n{doc['document']}"] over [enumerate(documents)] *)
Definition document_block (i : nat) (doc : RetrievedDoc.t) : string :=
  ("[Document " ++ str_of_int (Z.of_nat i + 1) ++ "]" ++ nl ++ RetrievedDoc.document doc)%string.

Definition build_rag_context (documents : list RetrievedDoc.t) : string :=
  match documents with
  | [] => ""%string
  | _ => join (nl ++ nl) (imap document_block documents)
  end.

(** [history.append] acts on the list stored under [user_id] when there is
    one, and the function stores the outcome under [user_id] before it
    returns; nothing between the two can raise, so the store is written
    once here. *)
Definition generate_response (self : ChatAgent) (user_message : string) (user_id : Z)
    (clear_history : bool) : M (World Env) ChatResponse.t :=
  let* _ := if clear_history then set_conversation user_id [] else ret tt in
  let* w := get in
  let history := default [] (_conversations w !! user_id) in
  let* rag_context :=
    match retriever self with
    | Some r =>
        let* documents :=
          ext_do (Retrieve user_message 3) (@retrieve Env r user_message 3) in
        ret (build_rag_context documents)
    | None => ret ""%string
    end in
  let* response :=
    ext_do (Generate (system_prompt self) user_message history rag_context)
           (generate (system_prompt self) user_message history rag_context) in
  if negb (ChatResponse.should_escalate response) then
    let history :=
      history ++ [Turn.mk "user" user_message;
                  Turn.mk "assistant" (ChatResponse.message response)] in
    let history :=
      if max_history self * 2 <? Z.of_nat (length history)
      then slice_from history (- max_history self * 2)
      else history in
    let* _ := set_conversation user_id history in
    ret response
  else ret response.

(** The history kept for a user: [self._conversations.get(user_id, [])]. *)
Definition history_of (w : World Env) (user_id : Z) : list turn :=
  default [] (_conversations w !! user_id).

(** The store after a run of calls, each [(user_message, user_id)], with
    [clear_history] left at its default.  The caller goes on whether a call
    returned or raised. *)
Fixpoint run_calls (self : ChatAgent) (inputs : list (string * Z)) (w : World Env)
  : World Env :=
  match inputs with
  | [] => w
  | (user_message, user_id) :: rest =>
      run_calls self rest (snd (generate_response self user_message user_id false w))
  end.

End WithModel.
End Agent.

(* ===================================================================== *)
(** * Private-message reply handler:
      [services/tg/events/handlers/chat/pm_reply_handler.py] *)
(* ===================================================================== *)

Module PMReply.
Section WithCollaborators.
Context {Env : Type} `{!BaseTelegramClient Env} `{!BaseChatModel Env}.

(** [f"{x:.2f}"] for a [float]. *)
Variable format_2f : Q -> string.

Record PMReplyHandler : Type := mk {
  agent : option (@Agent.ChatAgent Env);
  monitored_users : option (gset Z);
  escalation_chat_id : option Z
}.

(** [str(x)] of an optional string inside an f-string. *)
Definition format_opt (o : option string) : string :=
  match o with Some s => s | None => "None"%string end.

Definition can_handle (self : PMReplyHandler) (event : Event) : outcome bool :=
  match event with
  | EMessage ev =>
      if negb (ChatType_eqb (MessageEvent.chat_type ev) PRIVATE) then Ret false
      else if MessageEvent.is_outgoing ev then Ret false
      else if MessageEvent.is_service ev then Ret false
      else if (negb (str_truthy (MessageEvent.text ev))
               || negb (str_truthy (strip (MessageEvent.text ev))))%bool then Ret false
      else
        match monitored_users self with
        | Some users =>
            if bool_decide (MessageEvent.sender_id ev ∉ users) then Ret false else Ret true
        | None => Ret true
        end
  | EUserStatus _ | EChatAction _ => Raise AttributeError
  end.

Definition escalation_text (ev : MessageEvent.t) (response : ChatResponse.t) : string :=
  let sender := MessageEvent.sender ev in
  ("🔔 Escalation Required" ++ nl ++ nl
   ++ "User: " ++ SenderInfo.full_name sender
   ++ " (@" ++ format_opt (SenderInfo.username sender) ++ ")" ++ nl
   ++ "User ID: " ++ str_of_int (MessageEvent.sender_id ev) ++ nl
   ++ "Chat ID: " ++ str_of_int (MessageEvent.chat_id ev) ++ nl ++ nl
   ++ "Question: " ++ MessageEvent.text ev ++ nl ++ nl
   ++ "Reason: " ++ format_opt (ChatResponse.escalation_reason response) ++ nl
   ++ "Confidence: " ++ format_2f (ChatResponse.confidence response) ++ nl ++ nl
   ++ "Auto-reply sent: " ++ ChatResponse.message response)%string.

(** [bool(self.escalation_chat_id)] *)
Definition escalation_configured (self : PMReplyHandler) : bool :=
  match escalation_chat_id self with
  | Some id => negb (id =? 0)
  | None => false
  end.

Definition handle (self : PMReplyHandler) (event : Event) : M (World Env) unit :=
  match event with
  | EMessage ev =>
      try_except
        (let* response :=
           match agent self with
           | Some a =>
               Agent.generate_response a (MessageEvent.text ev)
                 (MessageEvent.sender_id ev) false
           | None => raise AttributeError
           end in
         let* _ :=
           if ChatResponse.should_escalate response then
             match escalation_chat_id self with
             | Some id =>
                 if negb (id =? 0) then
                   let* _ :=
                     ext_do (SendMessage (MessageEvent.client ev) (PeerId id)
                               (escalation_text ev response) None)
                            (send_message (MessageEvent.client ev) (PeerId id)
                               (escalation_text ev response) None) in
                   ret tt
                 else ret tt
             | None => ret tt
             end
           else ret tt in
         let* sent_message :=
           ext_do (SendMessage (MessageEvent.client ev)
                     (PeerId (MessageEvent.chat_id ev))
                     (ChatResponse.to_telegram_message response) None)
                  (send_message (MessageEvent.client ev)
                     (PeerId (MessageEvent.chat_id ev))
                     (ChatResponse.to_telegram_message response) None) in
         ret tt)
        (fun _ => ret tt)
  | EUserStatus _ | EChatAction _ => raise AttributeError
  end.

(** The handler as the router sees it. *)
Definition as_handler (self : PMReplyHandler) : Router.BaseHandler (World Env) :=
  Router.mkHandler (fun ev => pure (can_handle self ev)) (handle self).

End WithCollaborators.
End PMReply.

(* ===================================================================== *)
(** * Moderation service: [services/ai/moderation/service.py] *)
(* ===================================================================== *)

Module Moderation.
Section WithCollaborators.
Context {Env : Type} `{!BaseTelegramClient Env} `{!BaseModerationModel Env}
        `{!LocalMachine Env}.

Definition bytes_truthy (b : option (list Byte.byte)) : bool :=
  match b with
  | Some (_ :: _) => true
  | _ => false
  end.

Definition opt_str_truthy (s : option string) : bool :=
  match s with
  | Some s => str_truthy s
  | None => false
  end.

Definition set_whisper_model (loaded : bool) : M (World Env) unit :=
  modify (fun w => mkWorld (ext w) (calls w) (_conversations w) loaded).

(** The second half of [_download_file]: read the bytes at [local_path]. *)
Definition read_local (local_path : json) : M (World Env) (option (list Byte.byte)) :=
  if truthy local_path then
    let* path := pure (as_str local_path) in
    let* there := ext_do (PathExists path) (path_exists path) in
    if there then
      let* file_bytes := ext_do (ReadFile path) (read_file path) in
      ret (Some file_bytes)
    else ret None
  else ret None.

Definition _download_file (client : client_ref) (file_id : json)
  : M (World Env) (option (list Byte.byte)) :=
  try_except
    (let get_params := JDict [("file_id"%string, file_id)] in
     let* file_result :=
       ext_do (CallMethod client "getFile" get_params)
              (call_method client "getFile"%string get_params) in
     if AsyncResult.error file_result then ret None
     else
       let file_info := AsyncResult.update file_result in
       let* local_path := pure (Router.get2 file_info "local" "path" (JStr "")) in
       let* is_downloaded :=
         pure (Router.get2 file_info "local" "is_downloading_completed" (JBool false)) in
       if (negb (truthy local_path) || negb (truthy is_downloaded))%bool then
         let params :=
           JDict [("file_id"%string, file_id); ("priority"%string, JInt 32);
                  ("synchronous"%string, JBool true)] in
         let* download_result :=
           ext_do (CallMethod client "downloadFile" params)
                  (call_method client "downloadFile"%string params) in
         if AsyncResult.error download_result then ret None
         else
           let* local_path :=
             pure (Router.get2 (AsyncResult.update download_result) "local" "path" (JStr "")) in
           read_local local_path
       else read_local local_path)
    (fun _ => ret None).

Definition _transcribe_voice (audio_data : list Byte.byte) : M (World Env) (option string) :=
  try_except
    (let* w := get in
     let* _ :=
       if negb (_whisper_model w)
       then let* _ := ext_do LoadWhisper load_whisper in set_whisper_model true
       else ret tt in
     let* result := ext_do (Transcribe audio_data) (transcribe audio_data) in
     let* text := pure (let+ t := py_getitem result "text" in str_receiver t) in
     let* _ := pure (py_get result "language" (JStr "unknown")) in
     ret (Some (strip text)))
    (fun _ => ret None).

(** [event.media.f]: [None] has no attributes. *)
Definition media_of (event : MessageEvent.t) : M (World Env) MediaInfo.t :=
  match MessageEvent.media event with
  | Some m => ret m
  | None => raise AttributeError
  end.

Definition _moderate_photo (event : MessageEvent.t) : M (World Env) ModerationResult.t :=
  try_except
    (let* media := media_of event in
     let* image_data := _download_file (MessageEvent.client event) (MediaInfo.file_id media) in
     if negb (bytes_truthy image_data) then
       if opt_str_truthy (MediaInfo.caption media) then
         (* line 82 passes the name [context], which nothing binds: the
            arguments are evaluated before the call *)
         let* context := @raise (World Env) unit NameError in
         ext_do (ModerateText (default ""%string (MediaInfo.caption media)))
                (moderate_text (default ""%string (MediaInfo.caption media)))
       else ret (ModerationResult.neutral "Failed to download media")
     else
       ext_do (ModerateImage (default [] image_data) (MediaInfo.caption media))
              (moderate_image (default [] image_data) (MediaInfo.caption media)))
    (fun _ => ret (ModerationResult.neutral "Moderation error")).

Definition _moderate_voice (event : MessageEvent.t) : M (World Env) ModerationResult.t :=
  try_except
    (let* media := media_of event in
     let* audio_data := _download_file (MessageEvent.client event) (MediaInfo.file_id media) in
     if negb (bytes_truthy audio_data) then
       if opt_str_truthy (MediaInfo.caption media) then
         ext_do (ModerateText (default ""%string (MediaInfo.caption media)))
                (moderate_text (default ""%string (MediaInfo.caption media)))
       else ret (ModerationResult.neutral "Failed to download media")
     else
       let* transcription := _transcribe_voice (default [] audio_data) in
       if negb (opt_str_truthy transcription) then
         ret (ModerationResult.neutral "Failed to transcribe voice")
       else
         ext_do (ModerateVoice (default ""%string transcription))
                (moderate_voice (default ""%string transcription)))
    (fun _ => ret (ModerationResult.neutral "Moderation error")).

Definition moderate_message (event : MessageEvent.t) : M (World Env) ModerationResult.t :=
  let no_content := ret (ModerationResult.neutral "No content to moderate") in
  if (negb (MessageEvent.has_media event) && str_truthy (MessageEvent.text event))%bool then
    ext_do (ModerateText (MessageEvent.text event)) (moderate_text (MessageEvent.text event))
  else
    match MessageEvent.has_media event, MessageEvent.media event with
    | true, Some media =>
        let media_type := MediaInfo.media_type media in
        if String.eqb media_type "photo" then _moderate_photo event
        else if (String.eqb media_type "voicenote" || String.eqb media_type "voice")%bool
        then _moderate_voice event
        else if String.eqb media_type "video" then no_content
        else if opt_str_truthy (MediaInfo.caption media) then
          ext_do (ModerateText (default ""%string (MediaInfo.caption media)))
                 (moderate_text (default ""%string (MediaInfo.caption media)))
        else no_content
    | _, _ => no_content
    end.

End WithCollaborators.
End Moderation.

(* ===================================================================== *)
(** * Knowledge base: [services/knowledge_base/knowledge_base.py] *)
(* ===================================================================== *)

Module KB.

(** A text is a sequence of characters ([len] and slices count them). *)
Section WithChar.
Context {Char : Type}.

(** [{"text": ..., "metadata": {"source_index", "chunk_index", "start", "end"}}] *)
Record Chunk : Type := mkChunk {
  text : list Char;
  source_index : Z;
  chunk_index : Z;
  start : Z;
  end_ : Z
}.

Record KnowledgeBase : Type := mk {
  chunk_size : Z;
  chunk_overlap : Z
}.

(** The [while] loop of [_chunk_texts] on one text, from the state
    [(start, chunk_idx)]: the chunks it appends.  [fuel] bounds the number
    of iterations; [None] says the loop is still running after them. *)
Fixpoint chunk_loop (fuel : nat) (self : KnowledgeBase) (idx : Z) (txt : list Char)
    (start chunk_idx : Z) : option (list Chunk) :=
  match fuel with
  | O => None
  | S fuel' =>
      let text_length := Z.of_nat (length txt) in
      if start <? text_length then
        let end_ := Z.min (start + chunk_size self) text_length in
        let chunk_text := slice txt start end_ in
        let chunk := mkChunk chunk_text idx chunk_idx start end_ in
        if end_ =? text_length then Some [chunk]
        else
          match chunk_loop fuel' self idx txt
                  (start + (chunk_size self - chunk_overlap self)) (chunk_idx + 1) with
          | Some rest => Some (chunk :: rest)
          | None => None
          end
      else Some []
  end.

(** The [for] loop over [enumerate(texts)], from index [idx]. *)
Fixpoint chunk_texts_from (fuel : nat) (self : KnowledgeBase) (idx : Z)
    (texts : list (list Char)) : option (list Chunk) :=
  match texts with
  | [] => Some []
  | txt :: rest =>
      match chunk_loop fuel self idx txt 0 0 with
      | Some cs =>
          match chunk_texts_from fuel self (idx + 1) rest with
          | Some more => Some (cs ++ more)
          | None => None
          end
      | None => None
      end
  end.

Definition _chunk_texts (fuel : nat) (self : KnowledgeBase) (texts : list (list Char))
  : option (list Chunk) :=
  chunk_texts_from fuel self 0 texts.

(** The metadata [dict] of a chunk. *)
Definition metadata_of (c : Chunk) : list (string * Z) :=
  [("source_index"%string, source_index c); ("chunk_index"%string, chunk_index c);
   ("start"%string, start c); ("end"%string, end_ c)].

(** The [VectorStore] protocol.  [exists] and [count] only read. *)
Class VectorStore (Env : Type) : Type := {
  store_add : list (list Char) -> list (list (string * Z)) -> list string -> M Env unit;
  store_clear : M Env unit;
  store_exists : Env -> bool;
  store_count : Env -> Z
}.

(** The [TextSource] protocol. *)
Class TextSource (Env : Type) : Type := {
  source_exists : M Env bool;
  source_load : M Env (list (list Char))
}.

(** Calls of [build_index] on its store and its source. *)
Inductive kb_call : Type :=
| StoreExists
| StoreCount
| StoreClear
| StoreAdd (documents : list (list Char)) (metadatas : list (list (string * Z)))
    (ids : list string)
| SourceExists
| SourceLoad.

Definition is_add_or_clear (c : kb_call) : bool :=
  match c with
  | StoreClear | StoreAdd _ _ _ => true
  | _ => false
  end.

Section WithStore.
Context {Env : Type} `{!VectorStore Env} `{!TextSource Env}.

Definition observe {A} (f : Env -> A) : M Env A := fun e => (Ret (f e), e).

(** [build_index]; the result [None] says the chunking loop was still
    running after [fuel] iterations. *)
Definition build_index (fuel : nat) (self : KnowledgeBase) (force_rebuild : bool)
  : M (Traced kb_call Env) (option Z) :=
  let* skip :=
    if negb force_rebuild then call StoreExists (observe store_exists) else ret false in
  if skip then
    let* doc_count := call StoreCount (observe store_count) in
    ret (Some doc_count)
  else
    let* _ := if force_rebuild then call StoreClear store_clear else ret tt in
    (* line 94 logs [len(text)]; [text] is a local of the function that is
       bound only at line 101 *)
    let* _ := @raise (Traced kb_call Env) unit UnboundLocalError in
    let* there := call SourceExists source_exists in
    if negb there then ret (Some 0)
    else
      let* texts := call SourceLoad source_load in
      match _chunk_texts fuel self texts with
      | None => ret None
      | Some chunks =>
          match chunks with
          | [] => ret (Some 0)
          | _ =>
              let documents := map text chunks in
              let metadatas := map metadata_of chunks in
              let ids := map (fun i => str_of_int (Z.of_nat i)) (seq 0 (length chunks)) in
              let* _ :=
                call (StoreAdd documents metadatas ids)
                     (store_add documents metadatas ids) in
              ret (Some (Z.of_nat (length chunks)))
          end
      end.

End WithStore.
End WithChar.

(** [services/knowledge_base/stores/chroma_store.py] over a collection
    that keeps its entries in a list. *)
Record Entry (Char : Type) : Type := mkEntry {
  entry_id : string;
  entry_document : list Char;
  entry_metadata : list (string * Z)
}.
Arguments mkEntry {Char} entry_id entry_document entry_metadata.

Fixpoint zip3 {A B C} (la : list A) (lb : list B) (lc : list C) : list (A * B * C) :=
  match la, lb, lc with
  | a :: la', b :: lb', c :: lc' => (a, b, c) :: zip3 la' lb' lc'
  | _, _, _ => []
  end.

#[export] Instance ChromaVectorStore {Char : Type} : VectorStore (Char := Char) (list (Entry Char)) := {
  store_add documents metadatas ids :=
    modify (fun coll =>
      coll ++ map (fun '(i, d, m) => mkEntry i d m) (zip3 ids documents metadatas));
  store_clear := put [];
  store_exists coll := 0 <? Z.of_nat (length coll);
  store_count coll := Z.of_nat (length coll)
}.

(** A source that holds its texts in memory. *)
#[export] Instance MemorySource {Char : Type} (texts : option (list (list Char)))
  : TextSource (Char := Char) (list (Entry Char)) := {
  source_exists := ret (bool_decide (is_Some texts));
  source_load := ret (default [] texts)
}.

End KB.

(* ===================================================================== *)
(** * Group moderation handler, the action:
      [GroupModerationHandler.handle] *)
(* ===================================================================== *)

Module GroupModerationAction.
Section WithCollaborators.
Context {Env : Type} `{!BaseTelegramClient Env} `{!BaseModerationModel Env}
        `{!LocalMachine Env}.

(** [f"{x:.2f}"] for a [float]. *)
Variable format_2f : Q -> string.

(** [bool(self.send_logs_to)] for a [str | int | None]. *)
Definition peer_truthy (p : option peer) : bool :=
  match p with
  | None => false
  | Some (PeerId id) => negb (id =? 0)
  | Some (PeerName n) => str_truthy n
  end.

(** [str(x)] of an optional string inside an f-string. *)
Definition format_opt (o : option string) : string :=
  match o with Some s => s | None => "None"%string end.

(** [event.media.media_type if event.has_media else 'text'] *)
Definition media_label (ev : MessageEvent.t) : outcome string :=
  if MessageEvent.has_media ev then
    match MessageEvent.media ev with
    | Some m => Ret (MediaInfo.media_type m)
    | None => Raise AttributeError
    end
  else Ret "text"%string.

Definition log_text (ev : MessageEvent.t) (result : ModerationResult.t)
    (label : string) : string :=
  let sender := MessageEvent.sender ev in
  ("🗑 <b>Message deleted</b>" ++ nl ++ nl
   ++ "🧾 <b>Message ID:</b> <code>"
   ++ str_of_int (MessageEvent.message_id ev) ++ "</code>" ++ nl
   ++ "💬 <b>Chat ID:</b> <code>"
   ++ str_of_int (MessageEvent.chat_id ev) ++ "</code>" ++ nl
   ++ "👤 <b>User:</b> " ++ SenderInfo.full_name sender
   ++ " (" ++ SenderInfo.mention sender ++ ")" ++ nl
   ++ "🆔 <b>User ID:</b> <code>"
   ++ str_of_int (MessageEvent.sender_id ev) ++ "</code>" ++ nl
   ++ "📞 <b>Phone:</b> " ++ SenderInfo.phone sender ++ nl
   ++ "📝 <b>Content:</b> «" ++ MessageEvent.text ev ++ "»" ++ nl
   ++ "🖼 <b>Media:</b> " ++ label ++ nl
   ++ "⚠️ <b>Reason:</b> " ++ format_opt (ModerationResult.reason result) ++ nl
   ++ "📊 <b>Confidence:</b> "
   ++ format_2f (ModerationResult.confidence result) ++ nl)%string.

Definition warning_text (ev : MessageEvent.t) (result : ModerationResult.t) : string :=
  ("❗️ " ++ SenderInfo.mention (MessageEvent.sender ev) ++ nl
   ++ " Your message in this chat was removed due to violation of community guidelines."
   ++ nl ++ nl
   ++ "Reason: " ++ format_opt (ModerationResult.reason result) ++ nl
   ++ "Please adhere to the rules to avoid further actions.")%string.

(** The calls [handle] makes on the client. *)
Definition delete_call (ev : MessageEvent.t) : ext_call :=
  DeleteMessage (MessageEvent.client ev) (MessageEvent.chat_id ev)
    (MessageEvent.message_id ev).

Definition log_call (ev : MessageEvent.t) (p : peer) (result : ModerationResult.t)
    (label : string) : ext_call :=
  SendMessage (MessageEvent.client ev) p (log_text ev result label) (Some "html"%string).

Definition warning_call (ev : MessageEvent.t) (result : ModerationResult.t) : ext_call :=
  SendMessage (MessageEvent.client ev) (PeerId (MessageEvent.chat_id ev))
    (warning_text ev result) (Some "html"%string).

(** [handle] has no [try]: what the service or the client raises leaves
    it. *)
Definition handle (self : GroupModeration.GroupModerationHandler) (event : Event)
  : M (World Env) unit :=
  match event with
  | EMessage ev =>
      let* result := Moderation.moderate_message ev in
      if ModerationResult.should_delete result then
        let* is_delete :=
          ext_do (delete_call ev)
                 (delete_message (MessageEvent.client ev) (MessageEvent.chat_id ev)
                    (MessageEvent.message_id ev)) in
        if is_delete then
          let* _ :=
            match GroupModeration.send_logs_to self with
            | Some p =>
                if peer_truthy (Some p) then
                  let* label := pure (media_label ev) in
                  let* _ :=
                    ext_do (log_call ev p result label)
                           (send_message (MessageEvent.client ev) p
                              (log_text ev result label) (Some "html"%string)) in
                  ret tt
                else ret tt
            | None => ret tt
            end in
          if GroupModeration.send_warnings self then
            let* _ :=
              ext_do (warning_call ev result)
                     (send_message (MessageEvent.client ev)
                        (PeerId (MessageEvent.chat_id ev))
                        (warning_text ev result) (Some "html"%string)) in
            ret tt
          else ret tt
        else ret tt
      else ret tt
  | EUserStatus _ | EChatAction _ => ret tt
  end.

End WithCollaborators.
End GroupModerationAction.

(* ===================================================================== *)
(** * TDLib client: [services/tg/client/tdlib_client.py] *)
(* ===================================================================== *)

Module TDLib.

(** ** The [str] and [dict] methods the client uses *)

Definition is_digit (c : ascii) : bool :=
  let n := nat_of_ascii c in ((48 <=? n)%nat && (n <=? 57)%nat)%bool.

(** [s.isdigit()], for a [str] of ASCII characters. *)
Definition isdigit (s : string) : bool :=
  (str_truthy s && forallb is_digit (list_ascii_of_string s))%bool.

(** [s.lstrip(c)] for a [c] of one character. *)
Fixpoint lstrip_char (c : ascii) (s : string) : string :=
  match s with
  | EmptyString => EmptyString
  | String c' s' => if Ascii.eqb c' c then lstrip_char c s' else s
  end.

(** [int(s)] for a [str] made of the character '-' and ASCII digits, the
    only strings [_resolve_peer] passes to it: an optional '-' and at least
    one digit, or [ValueError]. *)
Definition py_int (s : string) : outcome Z :=
  match NilZero.int_of_string s with
  | Some d => Ret (Z.of_int d)
  | None => Raise ValueError
  end.

(** [list(dict.fromkeys(l))]: the keys in the order of their first
    occurrence. *)
Definition fromkeys (l : list Z) : list Z :=
  fold_left (fun keys k => if bool_decide (k ∈ keys) then keys else keys ++ [k]) l [].

(** ** The library object [telegram.client.Telegram] *)

(** [call_method] stands for the call and the [wait()] after it. *)
Class Telegram (Env : Type) : Type := {
  lib_new : M Env unit;
  lib_login : M Env unit;
  lib_stop : M Env unit;
  lib_call_method : string -> json -> M Env AsyncResult.t
}.

Inductive lib_call : Type :=
| LibNew
| LibLogin
| LibStop
| LibCall (method : string) (params : json).

(** The client: whether [self.client] holds a [Telegram] object, the state
    of the library, and the calls made to it so far (oldest first). *)
Record State (Env : Type) : Type := mkState {
  lib : Env;
  client : bool;
  lib_calls : list lib_call
}.
Arguments mkState {Env} lib client lib_calls.
Arguments lib {Env} s.
Arguments client {Env} s.
Arguments lib_calls {Env} s.

Section WithLib.
Context {Env : Type} `{!Telegram Env}.

Definition lib_do {A} (c : lib_call) (m : M Env A) : M (State Env) A :=
  fun s =>
    let '(o, e') := m (lib s) in
    (o, mkState e' (client s) (lib_calls s ++ [c])).

(** [self.client.call_method(method, params)] followed by [wait()];
    [None] has no [call_method]. *)
Definition client_call_method (method : string) (params : json)
  : M (State Env) AsyncResult.t :=
  let* self := get in
  if client self then lib_do (LibCall method params) (lib_call_method method params)
  else raise AttributeError.

Definition set_client : M (State Env) unit :=
  modify (fun s => mkState (lib s) true (lib_calls s)).

Definition start : M (State Env) bool :=
  try_except
    (let* _ := lib_do LibNew lib_new in
     let* _ := set_client in
     let* _ := lib_do LibLogin lib_login in
     ret true)
    (fun _ => ret false).

Definition stop : M (State Env) bool :=
  let* self := get in
  if client self then
    let* _ := lib_do LibStop lib_stop in
    ret true
  else ret false.

(** The formats of a numeric id, lines 257-264. *)
Definition id_variants (peer_id : Z) : outcome (list Z) :=
  let+ supergroup :=
    if negb (startswith (str_of_int (Z.abs peer_id)) "100")
    then py_int ("-100" ++ str_of_int (Z.abs peer_id))
    else Ret (- Z.abs peer_id) in
  Ret (fromkeys [peer_id; Z.abs peer_id; - Z.abs peer_id; supergroup]).

Definition get_chat_params (chat_id : Z) : json :=
  JDict [("chat_id"%string, JInt chat_id)].

(** The loop of lines 266-272. *)
Fixpoint try_variants (id_variants : list Z) : M (State Env) json :=
  match id_variants with
  | [] => ret JNull
  | chat_id :: rest =>
      let* result := client_call_method "getChat" (get_chat_params chat_id) in
      if negb (AsyncResult.error result) then ret (JInt chat_id)
      else try_variants rest
  end.

Definition _resolve_numeric (peer_id : outcome Z) : M (State Env) json :=
  match peer_id with
  | Ret peer_id =>
      let* id_variants := pure (id_variants peer_id) in
      try_variants id_variants
  | Raise ValueError | Raise TypeError => ret JNull
  | Raise e => raise e
  end.

Definition _resolve_peer (p : peer) : M (State Env) json :=
  let* self := get in
  if negb (client self) then ret JNull
  else
    match p with
    | PeerName name =>
        if negb (isdigit (lstrip_char "-" name)) then
          let username := lstrip_char "@" name in
          let* result :=
            client_call_method "searchPublicChat"
              (JDict [("username"%string, JStr username)]) in
          if negb (AsyncResult.error result)
          then pure (py_get (AsyncResult.update result) "id" JNull)
          else ret JNull
        else _resolve_numeric (py_int name)
    | PeerId peer_id => _resolve_numeric (Ret peer_id)
    end.

Definition plain_text (text : string) : json :=
  JDict [("@type"%string, JStr "formattedText"); ("text"%string, JStr text);
         ("entities"%string, JList [])].

Definition input_message_text (formatted : json) : json :=
  JDict [("@type"%string, JStr "inputMessageText"); ("text"%string, formatted)].

Definition parse_type_of (parse_mode : string) : string :=
  let mode := lower parse_mode in
  if String.eqb mode "html" then "textParseModeHTML"
  else if String.eqb mode "markdown" then "textParseModeMarkdown"
  else "textParseModeMarkdown".

Definition _parse_text (text : string) (parse_mode : option string) : M (State Env) json :=
  match parse_mode with
  | Some mode =>
      if str_truthy mode then
        let* parse_result :=
          client_call_method "parseTextEntities"
            (JDict [("text"%string, JStr text);
                    ("parse_mode"%string,
                     JDict [("@type"%string, JStr (parse_type_of mode))])]) in
        if negb (AsyncResult.error parse_result)
        then ret (input_message_text (AsyncResult.update parse_result))
        else ret (input_message_text (plain_text text))
      else ret (input_message_text (plain_text text))
  | None => ret (input_message_text (plain_text text))
  end.

Definition send_params (chat_id input_message_content : json)
    (message_thread_id : option Z) : json :=
  JDict ([("chat_id"%string, chat_id);
          ("input_message_content"%string, input_message_content)]
         ++ match message_thread_id with
            | Some thread => [("message_thread_id"%string, JInt thread)]
            | None => []
            end).

Definition _send (chat_id : json) (text : string) (parse_mode : option string)
    (message_thread_id : option Z) : M (State Env) json :=
  try_except
    (let* input_message_content := _parse_text text parse_mode in
     let* result :=
       client_call_method "sendMessage"
         (send_params chat_id input_message_content message_thread_id) in
     if AsyncResult.error result then ret JNull
     else ret (AsyncResult.update result))
    (fun _ => ret JNull).

Definition send_message (p : peer) (text : string) (parse_mode : option string)
    (message_thread_id : option Z) : M (State Env) json :=
  let* self := get in
  if negb (client self) then ret JNull
  else
    let* chat_id := _resolve_peer p in
    match chat_id with
    | JNull => ret JNull
    | _ => _send chat_id text parse_mode message_thread_id
    end.

Definition delete_message (chat_id message_id : Z) (revoke : bool) : M (State Env) bool :=
  let* self := get in
  if negb (client self) then ret false
  else
    try_except
      (let* result :=
         client_call_method "deleteMessages"
           (JDict [("chat_id"%string, JInt chat_id);
                   ("message_ids"%string, JList [JInt message_id]);
                   ("revoke"%string, JBool revoke)]) in
       if AsyncResult.error result then ret false else ret true)
      (fun _ => ret false).

Definition get_user (user_peer : peer) : M (State Env) json :=
  let* self := get in
  if negb (client self) then ret JNull
  else
    try_except
      (let* user_id := _resolve_peer user_peer in
       match user_id with
       | JNull => ret JNull
       | _ =>
           let* result :=
             client_call_method "getUser" (JDict [("user_id"%string, user_id)]) in
           if AsyncResult.error result then ret JNull
           else ret (AsyncResult.update result)
       end)
      (fun _ => ret JNull).

End WithLib.
End TDLib.

(* ===================================================================== *)
(** * Client manager: [services/tg/client/manager/client_manager.py] *)
(* ===================================================================== *)

Module ClientManager.

(** The clients a manager holds, by the interface of
    [services/tg/client/base.py]. *)
Class ManagedClients (Env Client : Type) : Type := {
  client_start : Client -> M Env bool;
  client_stop : Client -> M Env bool
}.

Section WithClients.
Context {Env Client : Type} `{!ManagedClients Env Client}.

(** [self.clients]: a [dict], its items in the order of insertion. *)
Definition TelegramClientManager : Type := list (string * Client).

Definition __init__ : TelegramClientManager := [].

Definition contains (name : string) (clients : TelegramClientManager) : bool :=
  existsb (fun item => String.eqb (fst item) name) clients.

Definition add_client (name : string) (c : Client) (self : TelegramClientManager)
  : TelegramClientManager :=
  if contains name self then self else self ++ [(name, c)].

Definition get_client (name : string) (self : TelegramClientManager) : option Client :=
  match List.find (fun item => String.eqb (fst item) name) self with
  | Some item => Some (snd item)
  | None => None
  end.

(** The calls of [start_all] and [stop_all] on the clients. *)
Inductive manager_call : Type :=
| Start (name : string)
| Stop (name : string).

Fixpoint start_all (self : TelegramClientManager) : M (Traced manager_call Env) unit :=
  match self with
  | [] => ret tt
  | (name, c) :: rest =>
      let* is_success := call (Start name) (client_start c) in
      start_all rest
  end.

Fixpoint stop_all (self : TelegramClientManager) : M (Traced manager_call Env) unit :=
  match self with
  | [] => ret tt
  | (name, c) :: rest =>
      let* is_success := call (Stop name) (client_stop c) in
      stop_all rest
  end.

End WithClients.
End ClientManager.

(* ===================================================================== *)
(** * Definitions used to state the properties *)
(* ===================================================================== *)

(** The chat type in the words of the specification, its cases read in
    order: positive, then an absolute value whose decimal form starts with
    "100", then negative, then anything else. *)
Definition chat_type_spec (chat_id : Z) : ChatType :=
  if 0 <? chat_id then PRIVATE
  else if startswith (str_of_int (Z.abs chat_id)) "100" then SUPERGROUP
  else if chat_id <? 0 then GROUP
  else UNKNOWN.

(** Collaborators for running the code on concrete inputs.  Their state is
    [unit]; what they answer is fixed by the parameters. *)
Module Demo.

(** A client whose [send_message] raises for the peers [failing] selects,
    whose [get_user] knows nobody and whose TDLib calls answer with an
    error. *)
Definition client (failing : peer -> bool) : BaseTelegramClient unit := {|
  get_user _ _ := ret JNull;
  send_message _ p _ _ :=
    if failing p then raise (OtherException "ConnectionError") else ret (JDict []);
  delete_message _ _ _ := ret true;
  call_method _ _ _ := ret (AsyncResult.mk true (JStr "unavailable") JNull)
|}.

Definition reliable_client : BaseTelegramClient unit := client (fun _ => false).

(** A chat model that always gives the same answer. *)
Definition chat_model (answer : ChatResponse.t) : BaseChatModel unit := {|
  generate _ _ _ _ := ret answer
|}.

Definition plain_answer : ChatResponse.t :=
  ChatResponse.mk "hello" false None 1%Q None.

Definition escalated_answer : ChatResponse.t :=
  ChatResponse.mk "one moment" true (Some "unsure"%string) 0%Q None.

(** A moderation model that flags every text. *)
Definition flagged : ModerationResult.t :=
  ModerationResult.mk true false (Some "spam"%string) 1%Q (Some ["spam"%string]).

Definition strict_model : BaseModerationModel unit := {|
  moderate_text _ := ret flagged;
  moderate_image _ _ := ret flagged;
  moderate_voice _ := ret flagged
|}.

Definition no_files : LocalMachine unit := {|
  path_exists _ := ret false;
  read_file _ := raise (OtherException "FileNotFoundError");
  load_whisper := raise (OtherException "ImportError");
  transcribe _ := raise (OtherException "RuntimeError")
|}.

Definition w0 : World unit := initial_world tt.

(** A TDLib message of the given chat and content. *)
Definition tdlib_message (chat_id : Z) (content : json) : json :=
  JDict [("id"%string, JInt 11); ("chat_id"%string, JInt chat_id);
         ("date"%string, JInt 1700000000); ("content"%string, content)].

Definition text_content : json :=
  JDict [("@type"%string, JStr "messageText");
         ("text"%string, JDict [("text"%string, JStr "hi")])].

Definition poll_content : json :=
  JDict [("@type"%string, JStr "messagePoll")].

Definition new_message_update (message : json) : list (string * json) :=
  [("@type"%string, JStr "updateNewMessage"); ("message"%string, message)].

End Demo.

(** ** Router *)

Module RouterSpec.
Section WithStore.
Context {W : Type}.

(** Code that raises nothing but instances of [Exception]. *)
Definition raises_only_Exception {A} (m : M W A) : Prop :=
  forall w e w', m w = (Raise e, w') -> is_Exception e = true.

Definition well_behaved (h : Router.BaseHandler W) : Prop :=
  forall ev, raises_only_Exception (Router.can_handle h ev)
             /\ raises_only_Exception (Router.handle h ev).

(** Whether [handle] is reached: [can_handle] returned [True]. *)
Definition accepts (h : Router.BaseHandler W) (ev : Event) (w : W) : bool :=
  match Router.can_handle h ev w with
  | (Ret true, _) => true
  | _ => false
  end.

(** The store after the pass of one handler. *)
Definition after_pass (h : Router.BaseHandler W) (ev : Event) (w : W) : W :=
  match Router.can_handle h ev w with
  | (Ret true, w1) => snd (Router.handle h ev w1)
  | (_, w1) => w1
  end.

(** The store after the passes of the handlers, in the order of the list. *)
Fixpoint after_passes (hs : list (Router.BaseHandler W)) (ev : Event) (w : W) : W :=
  match hs with
  | [] => w
  | h :: hs' => after_passes hs' ev (after_pass h ev w)
  end.

(** For each handler in the order of the list, whether it accepted the
    event in the store its predecessors left. *)
Fixpoint answers (hs : list (Router.BaseHandler W)) (ev : Event) (w : W) : list bool :=
  match hs with
  | [] => []
  | h :: hs' => accepts h ev w :: answers hs' ev (after_pass h ev w)
  end.

End WithStore.

(** The calls of one pass: [can_handle], then [handle] if it accepted. *)
Definition pass_calls (i : nat) (accepted : bool) : list Router.invocation :=
  Router.CanHandle i :: (if accepted then [Router.Handle i] else []).

(** The calls of consecutive passes, from position [i] on. *)
Fixpoint passes (i : nat) (accepted : list bool) : list Router.invocation :=
  match accepted with
  | [] => []
  | b :: rest => pass_calls i b ++ passes (S i) rest
  end.

Definition invocation_eqb (a b : Router.invocation) : bool :=
  match a, b with
  | Router.CanHandle i, Router.CanHandle j => Nat.eqb i j
  | Router.Handle i, Router.Handle j => Nat.eqb i j
  | _, _ => false
  end.

(** How often the router made the call [c]. *)
Definition times (c : Router.invocation) (tr : list Router.invocation) : nat :=
  length (List.filter (invocation_eqb c) tr).

End RouterSpec.

(** Handlers and a router to run [route] on. *)
Module DemoRouter.

#[local] Existing Instance Demo.reliable_client.

(** Accepts every event and fails on it. *)
Definition raising_handler : Router.BaseHandler (World unit) :=
  Router.mkHandler (fun _ => ret true)
                   (fun _ => raise (OtherException "RuntimeError")).

(** Accepts nothing. *)
Definition declining_handler : Router.BaseHandler (World unit) :=
  Router.mkHandler (fun _ => ret false) (fun _ => ret tt).

(** A stand-in for the formatting of a [float] with two decimals. *)
Definition format_2f (q : Q) : string := "0.00"%string.

Definition agent : @Agent.ChatAgent unit :=
  Agent.mk "You are a helpful assistant." None 10.

(** The private-message handler over an agent that always answers "hello". *)
Definition pm_handler : Router.BaseHandler (World unit) :=
  PMReply.as_handler (BaseChatModel0 := Demo.chat_model Demo.plain_answer)
    format_2f (PMReply.mk (Some agent) None None).

Definition router : Router.EventRouter :=
  fold_left Router.add_handler [raising_handler; declining_handler; pm_handler]
    Router.__init__.

(** A private text message from chat 7. *)
Definition update : list (string * json) :=
  Demo.new_message_update (Demo.tdlib_message 7 Demo.text_content).

End DemoRouter.

(** A private message, and a reply handler that escalates to chat 999. *)
Module DemoPM.

Definition sender : SenderInfo.t :=
  SenderInfo.mk 7 (Some "ann"%string) "Ann"%string "Lee"%string ""%string.

Definition event : MessageEvent.t :=
  MessageEvent.mk 11 7 7 sender "where is my order?" "where is my order?"
    1700000000 None PRIVATE false false false false None JNull JNull 0%nat JNull.

Definition handler : @PMReply.PMReplyHandler unit :=
  PMReply.mk (Some DemoRouter.agent) None (Some 999).

(** The escalation chat cannot be reached. *)
Definition escalation_down (p : peer) : bool :=
  match p with
  | PeerId id => id =? 999
  | PeerName _ => false
  end.

(** [handle] on the event, with an agent that escalates. *)
Definition run (failing : peer -> bool) : outcome unit * World unit :=
  PMReply.handle (BaseTelegramClient0 := Demo.client failing)
    (BaseChatModel0 := Demo.chat_model Demo.escalated_answer)
    DemoRouter.format_2f handler (EMessage event) Demo.w0.

End DemoPM.

(** A photo with a caption whose file cannot be fetched. *)
Module DemoModeration.

Definition photo (caption : string) : MediaInfo.t :=
  MediaInfo.set_file_id (JInt 1234) (MediaInfo.init "photo" caption).

Definition photo_event (caption : string) : MessageEvent.t :=
  MessageEvent.mk 11 (-42) 7 DemoPM.sender caption caption 1700000000 None GROUP
    false false false true (Some (photo caption)) JNull JNull 0%nat JNull.

(** [moderate_message] with a client whose TDLib calls fail, so that the
    download yields no bytes, and a model that would flag any text. *)
Definition run (caption : string) : outcome ModerationResult.t * World unit :=
  Moderation.moderate_message (BaseTelegramClient0 := Demo.reliable_client)
    (BaseModerationModel0 := Demo.strict_model) (LocalMachine0 := Demo.no_files)
    (photo_event caption) Demo.w0.

Definition download : outcome (option (list Byte.byte)) * World unit :=
  Moderation._download_file (BaseTelegramClient0 := Demo.reliable_client)
    (LocalMachine0 := Demo.no_files) 0%nat (JInt 1234) Demo.w0.

End DemoModeration.

(** The history [generate_response] keeps of [history]: the last
    [max_history * 2] entries, as lines 101-102 of the agent cut it. *)
Definition kept_history (max_history : Z) (history : list turn) : list turn :=
  if max_history * 2 <? Z.of_nat (length history)
  then slice_from history (- max_history * 2)
  else history.

(** Agents to run, and a store in which user 7 already has one exchange. *)
Module DemoAgent.

(** An agent told to keep no history. *)
Definition forgetful : @Agent.ChatAgent unit :=
  Agent.mk "You are a helpful assistant." None 0.

Definition after_calls (answer : ChatResponse.t) (self : @Agent.ChatAgent unit)
    (inputs : list (string * Z)) : World unit :=
  Agent.run_calls (BaseChatModel0 := Demo.chat_model answer) self inputs Demo.w0.

Definition one_exchange : list turn :=
  [Turn.mk "user" "hi"; Turn.mk "assistant" "hello"].

Definition w1 : World unit := mkWorld tt [] {[ 7 := one_exchange ]} false.

End DemoAgent.

(** ** Knowledge base *)

Module KBSpec.
Section WithChar.
Context {Char : Type}.

(** The distance between the starts of consecutive chunks. *)
Definition stride (self : KB.KnowledgeBase) : Z :=
  KB.chunk_size self - KB.chunk_overlap self.

(** The configurations with which the scripts build a knowledge base:
    an overlap that is not negative and smaller than the window. *)
Definition well_configured (self : KB.KnowledgeBase) : Prop :=
  0 <= KB.chunk_overlap self < KB.chunk_size self.

(** What chunk number [j] of the text [txt] of source [idx] records, when
    the first chunk of the list has number [k0] and starts at [start0]. *)
Definition chunk_ok (self : KB.KnowledgeBase) (idx : Z) (txt : list Char)
    (k0 start0 : Z) (j : nat) (c : KB.Chunk (Char := Char)) : Prop :=
  KB.source_index c = idx
  /\ KB.chunk_index c = k0 + Z.of_nat j
  /\ KB.start c = start0 + Z.of_nat j * stride self
  /\ KB.end_ c = Z.min (KB.start c + KB.chunk_size self) (Z.of_nat (length txt))
  /\ KB.text c = slice txt (KB.start c) (KB.end_ c)
  /\ Z.of_nat (length (KB.text c)) = KB.end_ c - KB.start c
  /\ 0 < Z.of_nat (length (KB.text c)) <= KB.chunk_size self.

(** Put the text together again from the chunks and their recorded spans:
    of each chunk, take what lies past the end of the one before it. *)
Fixpoint reassemble_from (covered : Z) (cs : list (KB.Chunk (Char := Char))) : list Char :=
  match cs with
  | [] => []
  | c :: rest =>
      drop (Z.to_nat (covered - KB.start c)) (KB.text c) ++ reassemble_from (KB.end_ c) rest
  end.

Definition reassemble (cs : list (KB.Chunk (Char := Char))) : list Char :=
  reassemble_from 0 cs.

(** The chunks [cs] of the text [txt] of source [idx]: each is the slice
    at its recorded span, at most [chunk_size] long; consecutive starts
    differ by the stride and the next chunk starts [chunk_overlap] before
    the end of its predecessor; the spans run from 0 to the end of the
    text, which they put together again; a text that is not empty and fits
    the window gives one chunk, the empty text none. *)
Definition chunks_cover (self : KB.KnowledgeBase) (idx : Z) (txt : list Char)
    (cs : list (KB.Chunk (Char := Char))) : Prop :=
  (forall j c, cs !! j = Some c -> chunk_ok self idx txt 0 0 j c)
  /\ (forall j c c', cs !! j = Some c -> cs !! S j = Some c' ->
        KB.start c' = KB.start c + stride self
        /\ KB.start c' = KB.end_ c - KB.chunk_overlap self)
  /\ (txt <> [] ->
      exists c0 cl, head cs = Some c0 /\ KB.start c0 = 0
                    /\ last cs = Some cl /\ KB.end_ cl = Z.of_nat (length txt))
  /\ reassemble cs = txt
  /\ (txt <> [] -> Z.of_nat (length txt) <= KB.chunk_size self -> length cs = 1%nat)
  /\ (txt = [] -> cs = []).

End WithChar.
End KBSpec.

(** A store with two entries, and texts to chunk. *)
Module DemoKB.

Definition kb : KB.KnowledgeBase := KB.mk 4 1.

Definition chars (s : string) : list ascii := list_ascii_of_string s.

Definition stored : list (KB.Entry ascii) :=
  [KB.mkEntry "0" (chars "abcd") [("source_index"%string, 0)];
   KB.mkEntry "1" (chars "defg") [("source_index"%string, 0)]].

Definition build (force_rebuild : bool) (tw : Traced KB.kb_call (list (KB.Entry ascii)))
  : outcome (option Z) * Traced KB.kb_call (list (KB.Entry ascii)) :=
  KB.build_index (VectorStore0 := KB.ChromaVectorStore)
    (TextSource0 := KB.MemorySource (Some [chars "abcdefgh"]))
    10 kb force_rebuild tw.

End DemoKB.

(** The knowledge base of the scripts: windows of 500 with an overlap of 50. *)
Module DemoChunks.

Definition kb500 : KB.KnowledgeBase := KB.mk 500 50.

(** A knowledge base whose overlap equals its window. *)
Definition stalled : KB.KnowledgeBase := KB.mk 4 4.

Definition alphabet : list ascii := DemoKB.chars "abcdefgh".

End DemoChunks.

(** ** Further definitions for the properties of the router *)

(** The update kinds [_from_tdlib] has a branch for. *)
Definition recognised_update_type (t : json) : bool :=
  (eq_str t "updateNewMessage" || eq_str t "updateMessageEdited"
   || eq_str t "updateUserStatus" || eq_str t "updateChatAction")%bool.


Module DemoUpdates.

(** An update of a kind the router knows nothing about. *)
Definition unknown : list (string * json) :=
  [("@type"%string, JStr "updateChatTitle"); ("chat_id"%string, JInt (-42))].

(** A new-message update that lacks its message. *)
Definition truncated : list (string * json) :=
  [("@type"%string, JStr "updateNewMessage")].

(** An edit notification. *)
Definition edited : list (string * json) :=
  [("@type"%string, JStr "updateMessageEdited"); ("chat_id"%string, JInt (-42));
   ("message_id"%string, JInt 11)].

(** A photo in three sizes, the second and third of the same area. *)
Definition size (w h id : Z) : json :=
  JDict [("width"%string, JInt w); ("height"%string, JInt h);
         ("photo"%string, JDict [("id"%string, JInt id); ("size"%string, JInt (w * h))])].

Definition photo_content : json :=
  JDict [("@type"%string, JStr "messagePhoto");
         ("caption"%string, JDict [("text"%string, JStr "look")]);
         ("photo"%string,
          JDict [("sizes"%string, JList [size 90 60 1; size 320 200 2; size 200 320 3])])].

(** A service message: somebody joined the group. *)
Definition join_content : json :=
  JDict [("@type"%string, JStr "messageServiceChatAddMembers")].

Definition normalise (chat_id : Z) (content : json)
  : outcome MessageEvent.t * World unit :=
  Router._tdlib_to_message_event (BaseTelegramClient0 := Demo.reliable_client)
    (Demo.tdlib_message chat_id content) 0%nat JNull Demo.w0.

End DemoUpdates.

(** ** Further definitions: collaborators that raise nothing but
       instances of [Exception] *)

Module Behaviour.
Section WithEnv.
Context {Env : Type}.

Definition client_ok (C : BaseTelegramClient Env) : Prop :=
  (forall c u, RouterSpec.raises_only_Exception (get_user c u))
  /\ (forall c p t pm, RouterSpec.raises_only_Exception (send_message c p t pm))
  /\ (forall c ch m, RouterSpec.raises_only_Exception (delete_message c ch m))
  /\ (forall c meth ps, RouterSpec.raises_only_Exception (call_method c meth ps)).

Definition chat_model_ok (C : BaseChatModel Env) : Prop :=
  forall sp um h rc, RouterSpec.raises_only_Exception (generate sp um h rc).

Definition retriever_ok (R : Retriever Env) : Prop :=
  forall q k, RouterSpec.raises_only_Exception (@retrieve Env R q k).

Definition moderation_model_ok (C : BaseModerationModel Env) : Prop :=
  (forall t, RouterSpec.raises_only_Exception (moderate_text t))
  /\ (forall b c, RouterSpec.raises_only_Exception (moderate_image b c))
  /\ (forall t, RouterSpec.raises_only_Exception (moderate_voice t)).

Definition machine_ok (C : LocalMachine Env) : Prop :=
  (forall p, RouterSpec.raises_only_Exception (path_exists p))
  /\ (forall p, RouterSpec.raises_only_Exception (read_file p))
  /\ RouterSpec.raises_only_Exception load_whisper
  /\ (forall a, RouterSpec.raises_only_Exception (transcribe a)).

End WithEnv.
End Behaviour.

(** A group message the moderation model flags, and handlers for it. *)
Module DemoGroup.

Definition event : MessageEvent.t :=
  MessageEvent.mk 11 (-42) 7 DemoPM.sender "buy now" "buy now" 1700000000 None GROUP
    false false false false None JNull JNull 0%nat JNull.

(** Logs go to chat 555; warnings are on. *)
Definition handler : GroupModeration.GroupModerationHandler :=
  GroupModeration.mk (Some {[ 42 ]}) (Some (PeerId 555)) true.

(** A client that cannot delete. *)
Definition read_only_client : BaseTelegramClient unit := {|
  get_user _ _ := ret JNull;
  send_message _ _ _ _ := ret (JDict []);
  delete_message _ _ _ := ret false;
  call_method _ _ _ := ret (AsyncResult.mk true (JStr "unavailable") JNull)
|}.

Definition run (C : BaseTelegramClient unit) : outcome unit * World unit :=
  GroupModerationAction.handle (BaseTelegramClient0 := C)
    (BaseModerationModel0 := Demo.strict_model) (LocalMachine0 := Demo.no_files)
    DemoRouter.format_2f handler (EMessage event) Demo.w0.

End DemoGroup.

(** The agent of [main.py]: three exchanges are kept. *)
Module DemoAgent3.

Definition agent : @Agent.ChatAgent unit :=
  Agent.mk "You are a helpful assistant." None 3.

Definition five_questions : list (string * Z) :=
  [("one"%string, 7); ("two"%string, 7); ("three"%string, 7); ("four"%string, 7);
   ("five"%string, 7)].



End DemoAgent3.

(** Code without a store that raises nothing but instances of
    [Exception]. *)
Definition raises_Exception_only {A} (o : outcome A) : Prop :=
  forall e, o = Raise e -> is_Exception e = true.

(** A voice note with a caption, a machine that holds the file "/tmp/a.jpg"
    and a client that knows this file as fetched. *)
Module DemoFiles.

Definition fetched_file : json :=
  JDict [("local"%string,
          JDict [("path"%string, JStr "/tmp/a.jpg");
                 ("is_downloading_completed"%string, JBool true)])].

Definition file_client : BaseTelegramClient unit := {|
  get_user _ _ := ret JNull;
  send_message _ _ _ _ := ret (JDict []);
  delete_message _ _ _ := ret true;
  call_method _ _ _ := ret (AsyncResult.mk false JNull fetched_file)
|}.

Definition jpeg : list Byte.byte := [Byte.xff; Byte.xd8; Byte.xff].

Definition disk : LocalMachine unit := {|
  path_exists p := ret (String.eqb p "/tmp/a.jpg");
  read_file _ := ret jpeg;
  load_whisper := ret tt;
  transcribe _ := ret (JDict [("text"%string, JStr " hello there ")])
|}.

Definition voice (caption : string) : MediaInfo.t :=
  MediaInfo.set_file_id (JInt 77) (MediaInfo.init "voicenote" caption).

Definition voice_event (caption : string) : MessageEvent.t :=
  MessageEvent.mk 12 (-42) 7 DemoPM.sender caption caption 1700000000 None GROUP
    false false false true (Some (voice caption)) JNull JNull 0%nat JNull.

Definition video_event : MessageEvent.t :=
  MessageEvent.mk 13 (-42) 7 DemoPM.sender "watch this" "watch this" 1700000000 None
    GROUP false false false true (Some (MediaInfo.init "video" "watch this"))
    JNull JNull 0%nat JNull.

End DemoFiles.

(** ** TDLib client and client manager *)

Module TDLibSpec.
Section WithLib.
Context {Env : Type} {Telegram0 : TDLib.Telegram Env}.

Definition get_chat_call (chat_id : Z) : TDLib.lib_call :=
  TDLib.LibCall "getChat" (TDLib.get_chat_params chat_id).

(** A library that answers [getChat] by the chat id alone: without an
    error for the ids [known] selects, with one for the others. *)
Definition answers_by_id (known : Z -> bool) : Prop :=
  forall chat_id e, exists r e',
    TDLib.lib_call_method "getChat" (TDLib.get_chat_params chat_id) e = (Ret r, e')
    /\ AsyncResult.error r = negb (known chat_id).

(** The ids up to the first one [known] selects, that one included. *)
Fixpoint asked (known : Z -> bool) (ids : list Z) : list Z :=
  match ids with
  | [] => []
  | chat_id :: rest => chat_id :: (if known chat_id then [] else asked known rest)
  end.

(** A library whose calls raise nothing but instances of [Exception]. *)
Definition lib_ok : Prop :=
  RouterSpec.raises_only_Exception TDLib.lib_new
  /\ RouterSpec.raises_only_Exception TDLib.lib_login
  /\ RouterSpec.raises_only_Exception TDLib.lib_stop
  /\ (forall method params,
        RouterSpec.raises_only_Exception (TDLib.lib_call_method method params)).

End WithLib.
End TDLibSpec.

Module ClientManagerSpec.
Section WithClients.
Context {Env Client : Type} {ManagedClients0 : ClientManager.ManagedClients Env Client}.

(** The manager after the calls [add_client(name, client)] for the items
    of [adds], in this order. *)
Definition add_all (adds : list (string * Client))
  : ClientManager.TelegramClientManager (Client := Client) :=
  fold_left (fun self item => ClientManager.add_client (fst item) (snd item) self) adds
    ClientManager.__init__.

(** Clients whose [start] returns, with [True] or with [False]. *)
Definition start_returns : Prop :=
  forall (c : Client) e, exists b e', ClientManager.client_start c e = (Ret b, e').

End WithClients.
End ClientManagerSpec.

(** A library that knows the chats [known] selects and accepts every other
    call; its [login] fails when [login_fails]. *)
Module DemoTDLib.

Definition library (known : Z -> bool) (login_fails : bool) : TDLib.Telegram unit := {|
  TDLib.lib_new := ret tt;
  TDLib.lib_login := if login_fails then raise (OtherException "RuntimeError") else ret tt;
  TDLib.lib_stop := ret tt;
  TDLib.lib_call_method method params :=
    if String.eqb method "getChat" then
      match params with
      | JDict [(_, JInt chat_id)] =>
          ret (AsyncResult.mk (negb (known chat_id)) JNull params)
      | _ => ret (AsyncResult.mk true JNull JNull)
      end
    else ret (AsyncResult.mk false JNull (JDict [("id"%string, JInt 1)]))
|}.

(** Only the basic group -42 is known. *)
Definition group_only (chat_id : Z) : bool := chat_id =? -42.

Definition started : TDLib.State unit := TDLib.mkState tt true [].
Definition fresh : TDLib.State unit := TDLib.mkState tt false [].

(** Two accounts; the second fails to start. *)
Definition accounts : ClientManager.ManagedClients unit bool := {|
  ClientManager.client_start c := ret c;
  ClientManager.client_stop c := ret c
|}.

Definition adds : list (string * bool) :=
  [("main"%string, true); ("backup"%string, false); ("main"%string, false)].

End DemoTDLib.

(* ===================================================================== *)
(** * Properties *)
(* ===================================================================== *)

(** ** The Python fragment on examples *)

Example str_of_int_examples :
  (str_of_int 0, str_of_int (-1001234567890), str_of_int 42)
  = ("0", "-1001234567890", "42")%string.
Proof. reflexivity. Qed.

Example replace_lower_example :
  lower (replace "messageVoiceNote" "message" "") = "voicenote"%string.
Proof. reflexivity. Qed.

Example slice_examples :
  (slice [1;2;3;4;5] 1 3, slice_from [1;2;3;4;5] (-2), slice_from [1;2;3;4;5] (-0))
  = ([2;3], [4;5], [1;2;3;4;5]).
Proof. reflexivity. Qed.

Example strip_example : strip "  a b  " = "a b"%string.
Proof. reflexivity. Qed.

(** ** The monad *)

Lemma pure_inv {W A} (o : outcome A) (w w' : W) (r : outcome A) :
  pure o w = (r, w') -> o = r /\ w' = w.
Proof. unfold pure. intros H. inversion H. auto. Qed.

Lemma bind_ret_inv {W A B} (m : M W A) (k : A -> M W B) (w w' : W) (b : B) :
  bind m k w = (Ret b, w') ->
  exists a w1, m w = (Ret a, w1) /\ k a w1 = (Ret b, w').
Proof.
  unfold bind. destruct (m w) as [[a | e] w1]; intros H.
  - exists a, w1. auto.
  - discriminate.
Qed.

Lemma obind_ret_inv {A B} (o : outcome A) (k : A -> outcome B) (b : B) :
  obind o k = Ret b -> exists a, o = Ret a /\ k a = Ret b.
Proof. destruct o as [a | e]; simpl; intros H; [eauto | discriminate]. Qed.

(** Peel the first statement off a sequence that returned. *)
Tactic Notation "bind_step" hyp(H) "as" ident(a) ident(Hm) :=
  let w := fresh "w" in
  apply bind_ret_inv in H as (a & w & Hm & H); cbv beta zeta in H.

Tactic Notation "bind_step" hyp(H) :=
  let a := fresh "v" in
  let Hm := fresh "Hm" in
  bind_step H as a Hm.

(** ** Normaliser *)

Lemma chat_type_of_spec (chat_id : Z) :
  Router.chat_type_of chat_id = chat_type_spec chat_id.
Proof.
  unfold Router.chat_type_of, chat_type_spec.
  destruct chat_id as [| p | p]; try reflexivity.
Qed.

Example chat_type_of_examples :
  map Router.chat_type_of [5; 1005; -1001234567890; -100; -42; -10; 0]
  = [PRIVATE; PRIVATE; SUPERGROUP; SUPERGROUP; GROUP; GROUP; UNKNOWN].
Proof. reflexivity. Qed.

Section NormaliserFacts.
Context {Env : Type} `{!BaseTelegramClient Env}.

(** What a returned [_tdlib_to_message_event] fixes about the fields the
    properties below talk about. *)
Lemma tdlib_to_message_event_inv (message : json) (client : client_ref) (raw : json)
    (w w' : World Env) (ev : MessageEvent.t) :
  Router._tdlib_to_message_event message client raw w = (Ret ev, w') ->
  exists content content_type,
    py_get message "content" (JDict []) = Ret content /\
    py_get content "@type" (JStr "") = Ret content_type /\
    py_getitem message "chat_id" = Ret (JInt (MessageEvent.chat_id ev)) /\
    MessageEvent.chat_type ev = Router.chat_type_of (MessageEvent.chat_id ev) /\
    MessageEvent.has_media ev = negb (eq_str content_type "messageText") /\
    (if MessageEvent.has_media ev
     then exists m, Router._extract_media_info content content_type = Ret m
                    /\ MessageEvent.media ev = Some m
     else MessageEvent.media ev = None).
Proof.
  intros H. unfold Router._tdlib_to_message_event in H.
  bind_step H. bind_step H.
  bind_step H as content Hcontent. apply pure_inv in Hcontent as [Hcontent _].
  bind_step H as ctype Hctype. apply pure_inv in Hctype as [Hctype _].
  bind_step H.
  bind_step H as cid Hcid. apply pure_inv in Hcid as [Hcid _].
  bind_step H. bind_step H.
  bind_step H as ctype2 Hctype2. apply pure_inv in Hctype2 as [Hctype2 _].
  bind_step H as media Hmedia.
  do 9 bind_step H.
  apply pure_inv in H as [H _]. injection H as <-. simpl.
  apply obind_ret_inv in Hcid as (c & Hc & Hint).
  destruct c; try discriminate. injection Hint as ->.
  assert (ctype2 = ctype) as ->.
  { unfold Router.get2 in Hctype2. rewrite Hcontent in Hctype2. simpl in Hctype2.
    congruence. }
  exists content, ctype. repeat split; auto.
  destruct (negb (eq_str ctype "messageText")).
  - bind_step Hmedia as m Hx. apply pure_inv in Hx as [Hx _].
    apply pure_inv in Hmedia as [Hy _]. injection Hy as <-. eauto.
  - apply pure_inv in Hmedia as [Hy _]. injection Hy as <-. reflexivity.
Qed.

(** C1.  A TDLib message that the normaliser turns into a [MessageEvent]
    gets its [chat_type] from its [chat_id] alone, by the cases of the
    specification read in order: a positive id is PRIVATE; otherwise an id
    whose absolute value starts with "100" in decimal is SUPERGROUP;
    otherwise a negative id is GROUP; anything else is UNKNOWN. *)
Theorem chat_type_from_chat_id (message : json) (client : client_ref) (raw : json)
    (w w' : World Env) (ev : MessageEvent.t) :
  Router._tdlib_to_message_event message client raw w = (Ret ev, w') ->
  py_getitem message "chat_id" = Ret (JInt (MessageEvent.chat_id ev)) /\
  MessageEvent.chat_type ev = chat_type_spec (MessageEvent.chat_id ev) /\
  (0 < MessageEvent.chat_id ev -> MessageEvent.chat_type ev = PRIVATE) /\
  (MessageEvent.chat_id ev <= 0 ->
   startswith (str_of_int (Z.abs (MessageEvent.chat_id ev))) "100" = true ->
   MessageEvent.chat_type ev = SUPERGROUP) /\
  (MessageEvent.chat_id ev < 0 ->
   startswith (str_of_int (Z.abs (MessageEvent.chat_id ev))) "100" = false ->
   MessageEvent.chat_type ev = GROUP) /\
  (MessageEvent.chat_id ev = 0 -> MessageEvent.chat_type ev = UNKNOWN).
Proof.
  intros H.
  destruct (tdlib_to_message_event_inv _ _ _ _ _ _ H)
    as (content & ctype & _ & _ & Hcid & Htype & _).
  rewrite Htype, chat_type_of_spec. unfold chat_type_spec.
  repeat split; auto.
  - intros Hpos. apply Z.ltb_lt in Hpos. now rewrite Hpos.
  - intros Hle Hpre. rewrite Hpre.
    destruct (0 <? MessageEvent.chat_id ev) eqn:E; [apply Z.ltb_lt in E; lia | reflexivity].
  - intros Hneg Hpre. rewrite Hpre.
    destruct (0 <? MessageEvent.chat_id ev) eqn:E; [apply Z.ltb_lt in E; lia |].
    apply Z.ltb_lt in Hneg. now rewrite Hneg.
  - intros ->. reflexivity.
Qed.

(** C9.  On every [MessageEvent] the normaliser produces, [has_media] says
    whether [media] is set: it is true exactly when the content type is not
    [messageText], and then [media] holds the [MediaInfo] that
    [_extract_media_info] built; otherwise [media] is [None]. *)
Theorem has_media_iff_media (message : json) (client : client_ref) (raw : json)
    (w w' : World Env) (ev : MessageEvent.t) :
  Router._tdlib_to_message_event message client raw w = (Ret ev, w') ->
  MessageEvent.has_media ev = bool_decide (is_Some (MessageEvent.media ev)) /\
  exists content_type,
    Router.get2 message "content" "@type" (JStr "") = Ret content_type /\
    MessageEvent.has_media ev = negb (eq_str content_type "messageText") /\
    (eq_str content_type "messageText" = false ->
     exists m, MessageEvent.media ev = Some m) /\
    (eq_str content_type "messageText" = true -> MessageEvent.media ev = None).
Proof.
  intros H.
  destruct (tdlib_to_message_event_inv _ _ _ _ _ _ H)
    as (content & ctype & Hcontent & Hctype & _ & _ & Hhas & Hmedia).
  split.
  - destruct (MessageEvent.has_media ev).
    + destruct Hmedia as (m & _ & ->). reflexivity.
    + rewrite Hmedia. reflexivity.
  - exists ctype. split; [| split; [exact Hhas | split]].
    + unfold Router.get2. rewrite Hcontent. exact Hctype.
    + intros E. rewrite E in Hhas. simpl in Hhas. rewrite Hhas in Hmedia.
      destruct Hmedia as (m & _ & ->). eauto.
    + intros E. rewrite E in Hhas. simpl in Hhas. rewrite Hhas in Hmedia. exact Hmedia.
Qed.

End NormaliserFacts.

(** A content type that is a string always gets a [MediaInfo] once the
    caption is read, recognised or not: an unrecognised one carries the
    media type derived from its name and the caption alone. *)
Lemma extract_media_info_unrecognised (content : json) (ct caption : string) :
  Router.caption_text content = Ret caption ->
  existsb (String.eqb ct)
    ["messagePhoto"; "messageVideo"; "messageVoiceNote"; "messageAudio";
     "messageDocument"; "messageSticker"; "messageAnimation"]%string = false ->
  Router._extract_media_info content (JStr ct)
  = Ret (MediaInfo.init
           (if startswith ct "message" then lower (replace ct "message" "")
            else "unknown"%string) caption).
Proof.
  intros Hcap Hnot. unfold Router._extract_media_info. simpl.
  rewrite Hcap. simpl.
  simpl in Hnot. repeat (apply orb_false_elim in Hnot as [? Hnot]).
  repeat match goal with E : String.eqb _ _ = false |- _ => rewrite E; clear E end.
  reflexivity.
Qed.

(** Witness of C1: a supergroup message. *)
Lemma chat_type_from_chat_id_witness :
  exists ev w',
    Router._tdlib_to_message_event (BaseTelegramClient0 := Demo.reliable_client)
      (Demo.tdlib_message (-1001234567890) Demo.text_content) 0%nat JNull Demo.w0
    = (Ret ev, w')
    /\ MessageEvent.chat_id ev = -1001234567890
    /\ MessageEvent.chat_type ev = SUPERGROUP.
Proof.
  eexists. eexists. split; [vm_compute; reflexivity |]. split; [reflexivity |].
  refine (proj1 (proj2 (proj2 (proj2
    (chat_type_from_chat_id (BaseTelegramClient0 := Demo.reliable_client)
       (Demo.tdlib_message (-1001234567890) Demo.text_content) 0%nat JNull Demo.w0
       _ _ eq_refl)))) _ _); [vm_compute; discriminate | reflexivity].
Defined.

(** Witness of C9: a poll, which no branch of [_extract_media_info]
    recognises, still carries a [MediaInfo]. *)
Lemma has_media_iff_media_witness :
  exists ev w',
    Router._tdlib_to_message_event (BaseTelegramClient0 := Demo.reliable_client)
      (Demo.tdlib_message (-42) Demo.poll_content) 0%nat JNull Demo.w0
    = (Ret ev, w')
    /\ MessageEvent.has_media ev = bool_decide (is_Some (MessageEvent.media ev))
    /\ MessageEvent.has_media ev = true.
Proof.
  eexists. eexists. split; [vm_compute; reflexivity |]. split; [| reflexivity].
  exact (proj1 (has_media_iff_media (BaseTelegramClient0 := Demo.reliable_client)
    (Demo.tdlib_message (-42) Demo.poll_content) 0%nat JNull Demo.w0 _ _ eq_refl)).
Defined.

(** ** Group moderation handler *)

(** C2.  A handler built without an allow-list ([monitored_groups=None])
    keeps the empty set the constructor puts in its place, and the test
    [abs(chat_id) not in self.monitored_groups] then turns every message
    away: [can_handle] returns [False], also for a group message that is
    not both outgoing and service. *)
Theorem can_handle_without_allow_list (send_logs_to : option peer) (send_warnings : bool)
    (ev : MessageEvent.t) :
  GroupModeration.can_handle
    (GroupModeration.__init__ None send_logs_to send_warnings) (EMessage ev)
  = Ret false.
Proof.
  unfold GroupModeration.can_handle, GroupModeration.__init__. simpl.
  destruct (negb (ChatType_eqb (MessageEvent.chat_type ev) GROUP)); [reflexivity |].
  destruct (MessageEvent.is_outgoing ev && MessageEvent.is_service ev)%bool;
    [reflexivity |].
  rewrite bool_decide_eq_true_2; [reflexivity | set_solver].
Qed.

(** The same on one input: an incoming message of the basic group -42. *)
Example group_minus_42_turned_away :
  let sender := SenderInfo.mk 7 (Some "ann"%string) "Ann"%string ""%string ""%string in
  let ev := MessageEvent.mk 11 (-42) 7 sender "hi" "hi" 1700000000 None GROUP
              false false false false None JNull JNull 0%nat JNull in
  GroupModeration.can_handle (GroupModeration.__init__ None None false) (EMessage ev)
  = Ret false.
Proof. vm_compute. reflexivity. Qed.

(** The test of [can_handle] lets every group through when the attribute
    is [None]; the constructor never leaves it so. *)
Lemma can_handle_attribute_none (sl : option peer) (sw : bool) (ev : MessageEvent.t) :
  MessageEvent.chat_type ev = GROUP ->
  (MessageEvent.is_outgoing ev && MessageEvent.is_service ev)%bool = false ->
  GroupModeration.can_handle (GroupModeration.mk None sl sw) (EMessage ev) = Ret true.
Proof.
  intros Ht Hf. unfold GroupModeration.can_handle. rewrite Ht, Hf. reflexivity.
Qed.

(** With an allow-list that is not empty, a group passes exactly when the
    absolute value of its id is listed. *)
Lemma can_handle_with_allow_list (groups : gset Z) (sl : option peer) (sw : bool)
    (ev : MessageEvent.t) :
  groups <> ∅ ->
  MessageEvent.chat_type ev = GROUP ->
  (MessageEvent.is_outgoing ev && MessageEvent.is_service ev)%bool = false ->
  GroupModeration.can_handle (GroupModeration.__init__ (Some groups) sl sw) (EMessage ev)
  = Ret (bool_decide (Z.abs (MessageEvent.chat_id ev) ∈ groups)).
Proof.
  intros Hne Ht Hf. unfold GroupModeration.can_handle, GroupModeration.__init__.
  simpl. rewrite Ht, Hf. simpl.
  rewrite (bool_decide_eq_false_2 (groups = ∅)) by exact Hne.
  destruct (decide (Z.abs (MessageEvent.chat_id ev) ∈ groups)) as [Hin | Hout].
  - rewrite bool_decide_eq_false_2 by (intros Hx; exact (Hx Hin)).
    now rewrite bool_decide_eq_true_2.
  - rewrite bool_decide_eq_true_2 by exact Hout.
    now rewrite bool_decide_eq_false_2.
Qed.

(** ** Router *)

Section TracedFacts.
Context {T W : Type}.

Lemma call_run {A} (c : T) (m : M W A) (tw : Traced T W) :
  call c m tw
  = (fst (m (inner tw)), mkTraced (snd (m (inner tw))) (trace tw ++ [c])).
Proof.
  unfold call, bind, record, modify, lift. simpl.
  destruct (m (inner tw)) as [o w']. reflexivity.
Qed.

Lemma lift_run {A} (m : M W A) (tw : Traced T W) :
  lift m tw = (fst (m (inner tw)), mkTraced (snd (m (inner tw))) (trace tw)).
Proof. unfold lift. destruct (m (inner tw)) as [o w']. reflexivity. Qed.

End TracedFacts.

Section RouterFacts.
Context {Env : Type} `{!BaseTelegramClient Env}.
Import RouterSpec.

(** One turn of the loop returns, whatever the handler did, having called
    [can_handle] once and [handle] at most once. *)
Lemma pass_run (i : nat) (h : Router.BaseHandler (World Env)) (ev : Event)
    (tw : Traced Router.invocation (World Env)) :
  well_behaved h ->
  try_except
    (let* ok := call (Router.CanHandle i) (Router.can_handle h ev) in
     if ok then call (Router.Handle i) (Router.handle h ev) else ret tt)
    (fun _ => ret tt) tw
  = (Ret tt, mkTraced (after_pass h ev (inner tw))
               (trace tw ++ pass_calls i (accepts h ev (inner tw)))).
Proof.
  intros Hwb. destruct (Hwb ev) as [Hcan Hhandle].
  unfold try_except, bind, accepts, after_pass, pass_calls.
  rewrite call_run.
  destruct (Router.can_handle h ev (inner tw)) as [[[|] | e] w1] eqn:Ecan; simpl.
  - rewrite call_run. simpl.
    destruct (Router.handle h ev w1) as [[[] | e] w2] eqn:Eh; simpl.
    + now rewrite <- app_assoc.
    + rewrite (Hhandle _ _ _ Eh). unfold ret, pure. now rewrite <- app_assoc.
  - reflexivity.
  - rewrite (Hcan _ _ _ Ecan). reflexivity.
Qed.

Lemma route_handlers_run (hs : list (Router.BaseHandler (World Env))) (i : nat) (ev : Event)
    (tw : Traced Router.invocation (World Env)) :
  Forall well_behaved hs ->
  Router.route_handlers i hs ev tw
  = (Ret tt, mkTraced (after_passes hs ev (inner tw))
               (trace tw ++ passes i (answers hs ev (inner tw)))).
Proof.
  intros Hall. revert i tw.
  induction Hall as [| h hs Hh Hall IH]; intros i tw.
  - simpl. rewrite app_nil_r. destruct tw; reflexivity.
  - cbn [Router.route_handlers after_passes answers passes].
    unfold bind at 1. fold (@bind (Traced Router.invocation (World Env))).
    rewrite (pass_run i h ev tw Hh).
    rewrite IH. simpl. now rewrite <- app_assoc.
Qed.

Lemma answers_length (hs : list (Router.BaseHandler (World Env))) (ev : Event) (w : World Env) :
  length (answers hs ev w) = length hs.
Proof. revert w. induction hs as [| h hs IH]; intros w; simpl; [| rewrite IH]; reflexivity. Qed.

End RouterFacts.

Lemma times_app (c : Router.invocation) (a b : list Router.invocation) :
  RouterSpec.times c (a ++ b) = (RouterSpec.times c a + RouterSpec.times c b)%nat.
Proof. unfold RouterSpec.times. now rewrite List.filter_app, length_app. Qed.

(** In the calls of consecutive passes every position has its [can_handle]
    once, and its [handle] once or never as the handler answered. *)
Lemma times_passes (accepted : list bool) (k i : nat) :
  (k <= i < k + length accepted)%nat ->
  RouterSpec.times (Router.CanHandle i) (RouterSpec.passes k accepted) = 1%nat
  /\ RouterSpec.times (Router.Handle i) (RouterSpec.passes k accepted)
     = (if nth (i - k) accepted false then 1 else 0)%nat.
Proof.
  assert (Hout : forall bs k', (i < k')%nat ->
            RouterSpec.times (Router.CanHandle i) (RouterSpec.passes k' bs) = 0%nat
            /\ RouterSpec.times (Router.Handle i) (RouterSpec.passes k' bs) = 0%nat).
  { induction bs as [| b bs IH]; intros k' Hlt; [now split |].
    cbn [RouterSpec.passes]. rewrite !times_app.
    destruct (IH (S k') ltac:(lia)) as [-> ->].
    unfold RouterSpec.pass_calls, RouterSpec.times. simpl.
    assert (E : Nat.eqb i k' = false) by (apply Nat.eqb_neq; lia).
    destruct b; simpl; rewrite ?E; simpl; now split. }
  revert k. induction accepted as [| b bs IH]; intros k Hk; simpl in Hk; [lia |].
  cbn [RouterSpec.passes]. rewrite !times_app.
  destruct (decide (i = k)) as [-> | Hne].
  - destruct (Hout bs (S k) ltac:(lia)) as [-> ->].
    replace (k - k)%nat with 0%nat by lia.
    unfold RouterSpec.pass_calls, RouterSpec.times. simpl.
    destruct b; simpl; rewrite ?Nat.eqb_refl; simpl; now split.
  - destruct (IH (S k) ltac:(lia)) as [-> ->].
    replace (i - k)%nat with (S (i - S k)) by lia.
    unfold RouterSpec.pass_calls, RouterSpec.times. simpl.
    assert (E : Nat.eqb i k = false) by (apply Nat.eqb_neq; lia).
    destruct b; simpl; rewrite ?E; simpl; now split.
Qed.

Section RouteTheorem.
Context {Env : Type} `{!BaseTelegramClient Env}.
Import RouterSpec.

(** Handlers sit in [self.handlers] in the order of their registration. *)
Lemma handlers_in_registration_order (hs : list (Router.BaseHandler (World Env))) :
  Router.handlers (fold_left Router.add_handler hs Router.__init__) = hs.
Proof.
  assert (G : forall r, Router.handlers (fold_left Router.add_handler hs r)
                        = Router.handlers r ++ hs).
  { induction hs as [| h hs IH]; intros r; simpl; [now rewrite app_nil_r |].
    rewrite IH. simpl. now rewrite <- app_assoc. }
  now rewrite G.
Qed.

(** C3.  For an update that normalises to an event and handlers that raise
    nothing but instances of [Exception], [route] returns without raising;
    it goes through the handlers in registration order, calls [can_handle]
    of every one of them exactly once, and [handle] once when [can_handle]
    returned [True] and never otherwise -- also after a handler before it
    has raised. *)
Theorem route_runs_every_handler (r : Router.EventRouter)
    (update : list (string * json)) (client : client_ref) (w w1 : World Env) (ev : Event) :
  Router._normalize_event update client w = (Ret (Some ev), w1) ->
  Forall well_behaved (Router.handlers r) ->
  let accepted := answers (Router.handlers r) ev w1 in
  Router.route r update client (untraced w)
  = (Ret tt, mkTraced (after_passes (Router.handlers r) ev w1) (passes 0 accepted))
  /\ length accepted = length (Router.handlers r)
  /\ forall i, (i < length (Router.handlers r))%nat ->
       times (Router.CanHandle i) (passes 0 accepted) = 1%nat
       /\ times (Router.Handle i) (passes 0 accepted)
          = (if nth i accepted false then 1 else 0)%nat.
Proof.
  intros Hnorm Hall accepted. split; [| split].
  - unfold Router.route, bind. rewrite lift_run.
    unfold untraced. cbn [inner trace]. rewrite Hnorm. cbn [fst snd].
    now rewrite (route_handlers_run _ _ _ _ Hall).
  - apply answers_length.
  - intros i Hi.
    destruct (times_passes accepted 0 i) as [Hc Hh].
    { unfold accepted. rewrite answers_length. lia. }
    rewrite Nat.sub_0_r in Hh. now split.
Qed.

End RouteTheorem.

Lemma demo_handlers_well_behaved :
  Forall RouterSpec.well_behaved (Router.handlers DemoRouter.router).
Proof.
  repeat constructor.
  - intros w e w' H. discriminate.
  - intros w e w' H. inversion H. reflexivity.
  - intros w e w' H. discriminate.
  - intros w e w' H. discriminate.
  - intros w e w' H. cbn in H. unfold pure in H.
    destruct (PMReply.can_handle _ _) as [b | e'] eqn:E; inversion H; subst.
    unfold PMReply.can_handle in E.
    repeat match type of E with
           | context [match ?x with _ => _ end] => destruct x; try discriminate
           end;
      inversion E; reflexivity.
  - intros w e w' H. cbn in H. destruct ev as [m | u | a].
    + unfold PMReply.handle, try_except, bind in H. cbn in H. discriminate.
    + inversion H. reflexivity.
    + inversion H. reflexivity.
Qed.

(** Witness of C3: the first handler raises in [handle], the second
    declines, the third replies; all three are asked, in this order. *)
Lemma route_runs_every_handler_witness :
  let run :=
    Router.route (BaseTelegramClient0 := Demo.reliable_client)
      DemoRouter.router DemoRouter.update 0%nat (untraced Demo.w0) in
  fst run = Ret tt
  /\ trace (snd run)
     = [Router.CanHandle 0; Router.Handle 0; Router.CanHandle 1;
        Router.CanHandle 2; Router.Handle 2].
Proof.
  intros run. subst run.
  destruct (route_runs_every_handler (BaseTelegramClient0 := Demo.reliable_client)
              DemoRouter.router DemoRouter.update 0%nat Demo.w0 _ _ eq_refl
              demo_handlers_well_behaved) as [Hrun _].
  rewrite Hrun. split; [reflexivity | vm_compute; reflexivity].
Defined.

(** [except Exception] lets an exception that derives from [BaseException]
    alone leave [route]; the handlers after the one that raised it are not
    asked. *)
Example route_lets_system_exit_through :
  let exiting :=
    Router.mkHandler (W := World unit) (fun _ => ret true)
      (fun _ => raise (BaseExceptionOnly "SystemExit")) in
  let run :=
    Router.route (BaseTelegramClient0 := Demo.reliable_client)
      (Router.mkRouter [exiting; DemoRouter.declining_handler])
      DemoRouter.update 0%nat (untraced Demo.w0) in
  fst run = Raise (BaseExceptionOnly "SystemExit")
  /\ trace (snd run) = [Router.CanHandle 0; Router.Handle 0].
Proof. split; reflexivity. Qed.

(** ** Private-message reply handler *)

Lemma ext_do_run {Env A} (c : ext_call) (m : M Env A) (w : World Env) :
  ext_do c m w
  = (fst (m (ext w)),
     mkWorld (snd (m (ext w))) (calls w ++ [c]) (_conversations w) (_whisper_model w)).
Proof. unfold ext_do. destruct (m (ext w)) as [o e']. reflexivity. Qed.

Lemma try_except_store {W A} (body : M W A) (a : A) (w : W) :
  snd (try_except body (fun _ => ret a) w) = snd (body w).
Proof.
  unfold try_except. destruct (body w) as [[x | e] w']; [reflexivity |].
  destruct (is_Exception e); reflexivity.
Qed.

Section PMReplyFacts.
Context {Env : Type} `{!BaseTelegramClient Env} `{!BaseChatModel Env}.
Variable format_2f : Q -> string.

(** C4, as amended.  When the agent has returned its response and the
    escalation notification, if one is due, returns -- whatever it returns,
    [None] for a failed delivery included -- the last thing [handle] does
    is to send the reply text to the originating chat, escalated or not. *)
Theorem reply_sent_when_notification_returns (self : PMReply.PMReplyHandler)
    (ev : MessageEvent.t) (a : Agent.ChatAgent) (response : ChatResponse.t)
    (w w1 : World Env) :
  PMReply.agent self = Some a ->
  Agent.generate_response a (MessageEvent.text ev) (MessageEvent.sender_id ev) false w
  = (Ret response, w1) ->
  (forall id,
     ChatResponse.should_escalate response = true ->
     PMReply.escalation_chat_id self = Some id -> id <> 0 ->
     returns (fst (send_message (MessageEvent.client ev) (PeerId id)
                     (PMReply.escalation_text format_2f ev response) None (ext w1)))
     = true) ->
  last (calls (snd (PMReply.handle format_2f self (EMessage ev) w)))
  = Some (SendMessage (MessageEvent.client ev) (PeerId (MessageEvent.chat_id ev))
            (ChatResponse.to_telegram_message response) None).
Proof.
  intros Hagent Hgen Hnote.
  unfold PMReply.handle. rewrite try_except_store, Hagent.
  unfold bind at 1. rewrite Hgen.
  unfold bind at 1.
  destruct (ChatResponse.should_escalate response) eqn:Esc.
  - destruct (PMReply.escalation_chat_id self) as [id |] eqn:Eid.
    + destruct (id =? 0) eqn:Ez; simpl.
      * unfold bind. rewrite ext_do_run. simpl.
        destruct (fst _); simpl; apply last_snoc.
      * apply Z.eqb_neq in Ez. specialize (Hnote id eq_refl eq_refl Ez).
        unfold bind at 1. rewrite ext_do_run.
        destruct (fst (send_message _ _ _ _ (ext w1))) as [r | e]; [| discriminate].
        simpl. unfold bind. rewrite ext_do_run. simpl.
        destruct (fst _); simpl; apply last_snoc.
    + simpl. unfold bind. rewrite ext_do_run. simpl.
      destruct (fst _); simpl; apply last_snoc.
  - simpl. unfold bind. rewrite ext_do_run. simpl.
    destruct (fst _); simpl; apply last_snoc.
Qed.

(** When the notification raises, the [except] clause of [handle] takes
    over: the notification is the last call made and [handle] returns. *)
Lemma notification_exception_skips_reply (self : PMReply.PMReplyHandler)
    (ev : MessageEvent.t) (a : Agent.ChatAgent) (response : ChatResponse.t)
    (w w1 : World Env) (id : Z) (e : exn) (env' : Env) :
  PMReply.agent self = Some a ->
  Agent.generate_response a (MessageEvent.text ev) (MessageEvent.sender_id ev) false w
  = (Ret response, w1) ->
  ChatResponse.should_escalate response = true ->
  PMReply.escalation_chat_id self = Some id -> id <> 0 ->
  send_message (MessageEvent.client ev) (PeerId id)
    (PMReply.escalation_text format_2f ev response) None (ext w1) = (Raise e, env') ->
  is_Exception e = true ->
  PMReply.handle format_2f self (EMessage ev) w
  = (Ret tt,
     mkWorld env'
       (calls w1 ++ [SendMessage (MessageEvent.client ev) (PeerId id)
                       (PMReply.escalation_text format_2f ev response) None])
       (_conversations w1) (_whisper_model w1)).
Proof.
  intros Hagent Hgen Hesc Hid Hnz Hsend Hexc.
  unfold PMReply.handle, try_except. rewrite Hagent.
  unfold bind at 1. rewrite Hgen.
  unfold bind at 1. rewrite Hesc, Hid.
  apply Z.eqb_neq in Hnz. rewrite Hnz. cbn [negb].
  unfold bind at 1. rewrite ext_do_run, Hsend. cbn [fst snd].
  rewrite Hexc. reflexivity.
Qed.

End PMReplyFacts.

(** Counterexample to C4 as stated: the agent escalates, the escalation
    chat is configured, sending the notification raises -- and [handle]
    returns having made no call that sends anything to the originating
    chat. *)
Lemma escalation_failure_blocks_reply :
  ChatResponse.should_escalate Demo.escalated_answer = true
  /\ PMReply.escalation_configured DemoPM.handler = true
  /\ fst (send_message (BaseTelegramClient := Demo.client DemoPM.escalation_down)
            0%nat (PeerId 999)
            (PMReply.escalation_text DemoRouter.format_2f DemoPM.event Demo.escalated_answer)
            None tt)
     = Raise (OtherException "ConnectionError")
  /\ fst (DemoPM.run DemoPM.escalation_down) = Ret tt
  /\ forall text parse_mode,
       ~ In (SendMessage 0%nat (PeerId (MessageEvent.chat_id DemoPM.event)) text parse_mode)
            (calls (snd (DemoPM.run DemoPM.escalation_down))).
Proof.
  repeat split; try reflexivity.
  intros text parse_mode Hin. vm_compute in Hin.
  destruct Hin as [H | [H | []]]; discriminate.
Qed.

(** Witness of C4 as amended: with a client that delivers, the escalated
    answer is sent to chat 7 after the notification. *)
Lemma reply_sent_when_notification_returns_witness :
  last (calls (snd (DemoPM.run (fun _ => false))))
  = Some (SendMessage 0%nat (PeerId 7) "one moment" None).
Proof.
  exact (reply_sent_when_notification_returns
           (BaseTelegramClient0 := Demo.reliable_client)
           (BaseChatModel0 := Demo.chat_model Demo.escalated_answer)
           DemoRouter.format_2f DemoPM.handler DemoPM.event DemoRouter.agent
           Demo.escalated_answer Demo.w0 _ eq_refl eq_refl
           (fun id _ _ _ => eq_refl)).
Defined.

(** ** Moderation service *)

Section ModerationFacts.
Context {Env : Type} `{!BaseTelegramClient Env} `{!BaseModerationModel Env}
        `{!LocalMachine Env}.

(** A photo whose download yields no bytes and that has no caption gets
    the neutral result "Failed to download media". *)
Lemma moderate_photo_without_caption (ev : MessageEvent.t) (m : MediaInfo.t)
    (data : option (list Byte.byte)) (w w1 : World Env) :
  MessageEvent.has_media ev = true ->
  MessageEvent.media ev = Some m ->
  MediaInfo.media_type m = "photo"%string ->
  Moderation._download_file (MessageEvent.client ev) (MediaInfo.file_id m) w = (Ret data, w1) ->
  Moderation.bytes_truthy data = false ->
  Moderation.opt_str_truthy (MediaInfo.caption m) = false ->
  Moderation.moderate_message ev w
  = (Ret (ModerationResult.neutral "Failed to download media"), w1).
Proof.
  intros Hhas Hmedia Htype Hdl Hdata Hcap.
  unfold Moderation.moderate_message. rewrite Hhas, Hmedia, Htype. simpl.
  unfold Moderation._moderate_photo, try_except, bind, Moderation.media_of.
  rewrite Hmedia. simpl. rewrite Hdl, Hdata, Hcap. reflexivity.
Qed.

(** With a caption, the same photo gets the neutral result "Moderation
    error": reading the unbound name [context] raises before
    [moderate_text] is called, and the [except] clause answers. *)
Lemma moderate_photo_with_caption (ev : MessageEvent.t) (m : MediaInfo.t)
    (data : option (list Byte.byte)) (w w1 : World Env) :
  MessageEvent.has_media ev = true ->
  MessageEvent.media ev = Some m ->
  MediaInfo.media_type m = "photo"%string ->
  Moderation._download_file (MessageEvent.client ev) (MediaInfo.file_id m) w = (Ret data, w1) ->
  Moderation.bytes_truthy data = false ->
  Moderation.opt_str_truthy (MediaInfo.caption m) = true ->
  Moderation.moderate_message ev w
  = (Ret (ModerationResult.neutral "Moderation error"), w1).
Proof.
  intros Hhas Hmedia Htype Hdl Hdata Hcap.
  unfold Moderation.moderate_message. rewrite Hhas, Hmedia, Htype. simpl.
  unfold Moderation._moderate_photo, try_except, bind, Moderation.media_of.
  rewrite Hmedia. simpl. rewrite Hdl, Hdata, Hcap. reflexivity.
Qed.

(** The voice path does fall back to the caption. *)
Lemma moderate_voice_with_caption (ev : MessageEvent.t) (m : MediaInfo.t)
    (data : option (list Byte.byte)) (c : string) (w w1 : World Env) :
  MessageEvent.has_media ev = true ->
  MessageEvent.media ev = Some m ->
  MediaInfo.media_type m = "voicenote"%string ->
  Moderation._download_file (MessageEvent.client ev) (MediaInfo.file_id m) w = (Ret data, w1) ->
  Moderation.bytes_truthy data = false ->
  MediaInfo.caption m = Some c -> str_truthy c = true ->
  returns (fst (moderate_text c (ext w1))) = true ->
  Moderation.moderate_message ev w = ext_do (ModerateText c) (moderate_text c) w1.
Proof.
  intros Hhas Hmedia Htype Hdl Hdata Hcap Hc Hret.
  unfold Moderation.moderate_message. rewrite Hhas, Hmedia, Htype. simpl.
  unfold Moderation._moderate_voice, try_except, bind, Moderation.media_of.
  rewrite Hmedia. simpl. rewrite Hdl, Hdata, Hcap. simpl. rewrite Hc.
  rewrite ext_do_run in *. simpl.
  destruct (fst (moderate_text c (ext w1))); [reflexivity | discriminate].
Qed.

End ModerationFacts.

(** C5 on the code.  A photo with the caption "buy now" whose download
    yields no bytes: [moderate_text] would flag the caption, and
    [moderate_message] answers "Moderation error" with [should_delete]
    false, never having called [moderate_text].  Without a caption the
    answer is "Failed to download media". *)
Theorem photo_fallback_on_failed_download :
  fst DemoModeration.download = Ret None
  /\ fst (moderate_text (BaseModerationModel := Demo.strict_model) "buy now" tt)
     = Ret Demo.flagged
  /\ fst (DemoModeration.run "buy now") = Ret (ModerationResult.neutral "Moderation error")
  /\ (forall text, ~ In (ModerateText text) (calls (snd (DemoModeration.run "buy now"))))
  /\ fst (DemoModeration.run "") = Ret (ModerationResult.neutral "Failed to download media").
Proof.
  repeat split; try reflexivity.
  intros text Hin. vm_compute in Hin. destruct Hin as [H | []]. discriminate.
Qed.

(** ** Chat agent *)

Lemma kept_history_length (max_history : Z) (history : list turn) :
  1 <= max_history ->
  Z.of_nat (length (kept_history max_history history)) <= max_history * 2.
Proof.
  intros Hpos. unfold kept_history.
  destruct (max_history * 2 <? Z.of_nat (length history)) eqn:E.
  - apply Z.ltb_lt in E. unfold slice_from, slice_bound.
    replace (- max_history * 2 <? 0) with true by (symmetry; apply Z.ltb_lt; lia).
    rewrite length_drop. lia.
  - apply Z.ltb_ge in E. exact E.
Qed.

Section AgentFacts.
Context {Env : Type} `{!BaseChatModel Env}.

Lemma generate_response_clear (self : Agent.ChatAgent) (user_message : string)
    (user_id : Z) (w : World Env) :
  Agent.generate_response self user_message user_id true w
  = Agent.generate_response self user_message user_id false
      (mkWorld (ext w) (calls w) (<[user_id := []]> (_conversations w)) (_whisper_model w)).
Proof. reflexivity. Qed.

(** The conversations a call without a wipe leaves: those it found when it
    raised or escalated, and otherwise those with the exchange appended to
    the user's history and the result cut. *)
Lemma generate_response_keep (self : Agent.ChatAgent) (user_message : string)
    (user_id : Z) (w : World Env) :
  let run := Agent.generate_response self user_message user_id false w in
  match fst run with
  | Ret response =>
      _conversations (snd run)
      = if ChatResponse.should_escalate response then _conversations w
        else <[user_id :=
                 kept_history (Agent.max_history self)
                   (default [] (_conversations w !! user_id)
                    ++ [Turn.mk "user" user_message;
                        Turn.mk "assistant" (ChatResponse.message response)])]>
               (_conversations w)
  | Raise _ => _conversations (snd run) = _conversations w
  end.
Proof.
  unfold Agent.generate_response, Agent.set_conversation, kept_history.
  cbv zeta. unfold bind, modify, ret, pure, get.
  destruct (Agent.retriever self) as [r |].
  - rewrite ext_do_run. cbn [fst snd].
    destruct (retrieve user_message 3 (ext w)) as [[docs | e] e1]; cbn [fst snd];
      [| reflexivity].
    rewrite ext_do_run. cbn [fst snd ext calls _conversations _whisper_model].
    destruct (generate _ _ _ _ e1) as [[response | e] e2]; cbn [fst snd]; [| reflexivity].
    destruct (ChatResponse.should_escalate response) eqn:E;
      cbn [negb fst snd _conversations]; rewrite E; reflexivity.
  - rewrite ext_do_run. cbn [fst snd ext calls _conversations _whisper_model].
    destruct (generate _ _ _ _ (ext w)) as [[response | e] e2]; cbn [fst snd];
      [| reflexivity].
    destruct (ChatResponse.should_escalate response) eqn:E;
      cbn [negb fst snd _conversations]; rewrite E; reflexivity.
Qed.

(** A call that returns has called the model last, with the history it
    found for the user. *)
Lemma generate_response_model_call (self : Agent.ChatAgent) (user_message : string)
    (user_id : Z) (w : World Env) :
  forall response w',
    Agent.generate_response self user_message user_id false w = (Ret response, w') ->
    exists rag_context,
      last (calls w')
      = Some (Generate (Agent.system_prompt self) user_message
                (default [] (_conversations w !! user_id)) rag_context).
Proof.
  unfold Agent.generate_response, Agent.set_conversation.
  cbv zeta. unfold bind, modify, ret, pure, get.
  intros response w'.
  destruct (Agent.retriever self) as [r |].
  - rewrite ext_do_run. cbn [fst snd].
    destruct (retrieve user_message 3 (ext w)) as [[docs | e] e1]; cbn [fst snd];
      [| discriminate].
    rewrite ext_do_run. cbn [fst snd ext calls _conversations _whisper_model].
    destruct (generate _ _ _ _ e1) as [[resp | e] e2]; cbn [fst snd]; [| discriminate].
    destruct (ChatResponse.should_escalate resp); cbn [negb]; intros H;
      injection H as _ <-; eexists; cbn [calls]; apply last_snoc.
  - rewrite ext_do_run. cbn [fst snd ext calls _conversations _whisper_model].
    destruct (generate _ _ _ _ (ext w)) as [[resp | e] e2]; cbn [fst snd];
      [| discriminate].
    destruct (ChatResponse.should_escalate resp); cbn [negb]; intros H;
      injection H as _ <-; eexists; cbn [calls]; apply last_snoc.
Qed.

(** The same for either value of [clear_history]; [base] is what the
    optional wipe leaves. *)
Lemma generate_response_conversations (self : Agent.ChatAgent) (user_message : string)
    (user_id : Z) (clear_history : bool) (w : World Env) :
  let base :=
    if clear_history then <[user_id := []]> (_conversations w) else _conversations w in
  let run := Agent.generate_response self user_message user_id clear_history w in
  match fst run with
  | Ret response =>
      _conversations (snd run)
      = if ChatResponse.should_escalate response then base
        else <[user_id :=
                 kept_history (Agent.max_history self)
                   (default [] (base !! user_id)
                    ++ [Turn.mk "user" user_message;
                        Turn.mk "assistant" (ChatResponse.message response)])]> base
  | Raise _ => _conversations (snd run) = base
  end.
Proof.
  destruct clear_history.
  - cbv zeta. rewrite generate_response_clear.
    pose proof (generate_response_keep self user_message user_id
                  (mkWorld (ext w) (calls w) (<[user_id := []]> (_conversations w))
                     (_whisper_model w))) as H.
    cbv zeta in H. cbn [_conversations] in H. exact H.
  - apply generate_response_keep.
Qed.

(** A call that does not wipe and whose response escalates leaves every
    history as it was. *)
Lemma escalated_call_keeps_conversations (self : Agent.ChatAgent) (user_message : string)
    (user_id : Z) (w w' : World Env) (response : ChatResponse.t) :
  Agent.generate_response self user_message user_id false w = (Ret response, w') ->
  ChatResponse.should_escalate response = true ->
  _conversations w' = _conversations w.
Proof.
  intros Hrun Hesc.
  pose proof (generate_response_conversations self user_message user_id false w) as H.
  cbv zeta in H. rewrite Hrun in H. cbn [fst snd] in H. now rewrite Hesc in H.
Qed.

(** With [max_history] at least 1, a call keeps every history within
    [max_history * 2] entries. *)
Lemma generate_response_bounded (self : Agent.ChatAgent) (user_message : string)
    (user_id : Z) (clear_history : bool) (w : World Env) :
  1 <= Agent.max_history self ->
  (forall u, Z.of_nat (length (Agent.history_of w u)) <= Agent.max_history self * 2) ->
  forall u,
    Z.of_nat (length (Agent.history_of
                        (snd (Agent.generate_response self user_message user_id
                                clear_history w)) u))
    <= Agent.max_history self * 2.
Proof.
  intros Hpos Hinv u.
  pose proof (generate_response_conversations self user_message user_id clear_history w) as H.
  cbv zeta in H.
  assert (Hbase : forall v,
            Z.of_nat (length (default [] ((if clear_history
                                           then <[user_id := []]> (_conversations w)
                                           else _conversations w) !! v)))
            <= Agent.max_history self * 2).
  { intros v. destruct clear_history; [| apply Hinv].
    destruct (decide (user_id = v)) as [-> | Hne].
    - rewrite lookup_insert_eq. simpl. lia.
    - rewrite lookup_insert_ne by exact Hne. apply Hinv. }
  unfold Agent.history_of.
  destruct (fst (Agent.generate_response self user_message user_id clear_history w))
    as [response | e]; rewrite H; [| apply Hbase].
  destruct (ChatResponse.should_escalate response); [apply Hbase |].
  destruct (decide (user_id = u)) as [-> | Hne].
  - rewrite lookup_insert_eq. simpl. now apply kept_history_length.
  - rewrite lookup_insert_ne by exact Hne. apply Hbase.
Qed.

Lemma run_calls_bounded (self : Agent.ChatAgent) (inputs : list (string * Z))
    (w : World Env) :
  1 <= Agent.max_history self ->
  (forall u, Z.of_nat (length (Agent.history_of w u)) <= Agent.max_history self * 2) ->
  forall u,
    Z.of_nat (length (Agent.history_of (Agent.run_calls self inputs w) u))
    <= Agent.max_history self * 2.
Proof.
  intros Hpos. revert w.
  induction inputs as [| [user_message user_id] rest IH]; intros w Hinv; [exact Hinv |].
  simpl. apply IH. now apply generate_response_bounded.
Qed.

(** C10.  A call with [clear_history=True] hands the model an empty
    history, and when the response escalates the user's history is the
    empty list after the call: it differs from the history before the call
    whenever that one was not empty. *)
Theorem clear_history_then_escalation (self : Agent.ChatAgent) (user_message : string)
    (user_id : Z) (w w' : World Env) (response : ChatResponse.t) :
  Agent.generate_response self user_message user_id true w = (Ret response, w') ->
  ChatResponse.should_escalate response = true ->
  _conversations w' !! user_id = Some []
  /\ Agent.history_of w' user_id = []
  /\ (exists rag_context,
        last (calls w')
        = Some (Generate (Agent.system_prompt self) user_message [] rag_context))
  /\ (Agent.history_of w user_id <> [] ->
      Agent.history_of w' user_id <> Agent.history_of w user_id).
Proof.
  intros Hrun Hesc.
  pose proof (generate_response_conversations self user_message user_id true w) as H.
  cbv zeta in H. rewrite Hrun in H. cbn [fst snd] in H. rewrite Hesc in H.
  assert (Hempty : Agent.history_of w' user_id = []).
  { unfold Agent.history_of. rewrite H, lookup_insert_eq. reflexivity. }
  split; [rewrite H; apply lookup_insert_eq |].
  split; [exact Hempty |].
  split; [| intros Hne; rewrite Hempty; congruence].
  rewrite generate_response_clear in Hrun.
  pose proof (generate_response_model_call self user_message user_id _ _ _ Hrun)
    as [rag Hlast].
  exists rag. rewrite Hlast. cbn [_conversations]. now rewrite lookup_insert_eq.
Qed.

End AgentFacts.

(** C6 on the code.  An agent built with [max_history=0] cuts with
    [history[-0:]], which is the whole list: after one answered call the
    user's history has 2 entries, after three it has 6, against a bound of
    [max_history * 2 = 0]. *)
Theorem history_unbounded_for_zero_max_history :
  Agent.max_history DemoAgent.forgetful * 2 = 0
  /\ length (Agent.history_of
               (DemoAgent.after_calls Demo.plain_answer DemoAgent.forgetful
                  [("hi"%string, 7)]) 7) = 2%nat
  /\ length (Agent.history_of
               (DemoAgent.after_calls Demo.plain_answer DemoAgent.forgetful
                  [("hi"%string, 7); ("and?"%string, 7); ("so?"%string, 7)]) 7) = 6%nat.
Proof. repeat split; vm_compute; reflexivity. Qed.

(** Witness of C10: user 7 has one exchange on record; a call that wipes
    and escalates leaves the empty list. *)
Lemma clear_history_then_escalation_witness :
  Agent.history_of DemoAgent.w1 7 = DemoAgent.one_exchange
  /\ Agent.history_of
       (snd (Agent.generate_response (BaseChatModel0 := Demo.chat_model Demo.escalated_answer)
               DemoRouter.agent "help" 7 true DemoAgent.w1)) 7 = [].
Proof.
  split; [reflexivity |].
  exact (proj1 (proj2 (clear_history_then_escalation
           (BaseChatModel0 := Demo.chat_model Demo.escalated_answer)
           DemoRouter.agent "help" 7 DemoAgent.w1 _ Demo.escalated_answer
           eq_refl eq_refl))).
Defined.

(** ** Knowledge base: the index *)

Section IndexFacts.
Context {Char Env : Type} {VectorStore0 : KB.VectorStore (Char := Char) Env}
        {TextSource0 : KB.TextSource (Char := Char) Env}.

(** Without the force flag [build_index] leaves the store as it is and
    calls neither [add] nor [clear], whatever the store holds: it returns
    the count of a store that has documents and raises on line 94
    otherwise. *)
Lemma build_index_without_force (fuel : nat) (self : KB.KnowledgeBase)
    (tw : Traced KB.kb_call Env) :
  KB.build_index fuel self false tw
  = if KB.store_exists (inner tw)
    then (Ret (Some (KB.store_count (inner tw))),
          mkTraced (inner tw) (trace tw ++ [KB.StoreExists; KB.StoreCount]))
    else (Raise UnboundLocalError, mkTraced (inner tw) (trace tw ++ [KB.StoreExists])).
Proof.
  unfold KB.build_index. cbn [negb]. unfold bind at 1. rewrite call_run.
  unfold KB.observe. cbn [fst snd].
  destruct (KB.store_exists (inner tw)).
  - unfold bind, ret, pure. rewrite call_run. cbn [fst snd inner trace].
    now rewrite <- app_assoc.
  - reflexivity.
Qed.

(** C7.  Without the force flag, on a store that already holds documents,
    [build_index] returns the count of the store after asking the store
    whether it exists and for its count -- it calls neither [add] nor
    [clear] and leaves the store as it is; and whatever the store holds, a
    second call without the flag leaves the store, and with it the count,
    as the first call left it. *)
Theorem build_index_idempotent (fuel : nat) (self : KB.KnowledgeBase)
    (tw : Traced KB.kb_call Env) :
  KB.store_exists (inner tw) = true ->
  KB.build_index fuel self false tw
  = (Ret (Some (KB.store_count (inner tw))),
     mkTraced (inner tw) (trace tw ++ [KB.StoreExists; KB.StoreCount]))
  /\ forallb (fun c => negb (KB.is_add_or_clear (Char := Char) c)) [KB.StoreExists; KB.StoreCount] = true
  /\ (forall tw0 : Traced KB.kb_call Env,
        let first := snd (KB.build_index fuel self false tw0) in
        let second := snd (KB.build_index fuel self false first) in
        inner second = inner first
        /\ KB.store_count (inner second) = KB.store_count (inner first)
        /\ exists new, trace second = trace first ++ new
                       /\ forallb (fun c => negb (KB.is_add_or_clear (Char := Char) c)) new = true).
Proof.
  intros Hex. split; [| split; [reflexivity |]].
  - rewrite build_index_without_force, Hex. reflexivity.
  - intros tw0 first second.
    assert (Hstep : forall t, inner (snd (KB.build_index fuel self false t)) = inner t
              /\ exists new, trace (snd (KB.build_index fuel self false t)) = trace t ++ new
                             /\ forallb (fun c => negb (KB.is_add_or_clear (Char := Char) c)) new = true).
    { intros t. rewrite build_index_without_force.
      destruct (KB.store_exists (inner t)); cbn [snd inner trace]; split; eauto. }
    destruct (Hstep first) as [Hinner Htrace]. fold second in Hinner, Htrace.
    split; [exact Hinner | split; [now rewrite Hinner | exact Htrace]].
Qed.

End IndexFacts.

(** Witness of C7: a store with two entries. *)
Lemma build_index_idempotent_witness :
  DemoKB.build false (untraced DemoKB.stored)
  = (Ret (Some 2), mkTraced DemoKB.stored [KB.StoreExists; KB.StoreCount]).
Proof.
  exact (proj1 (build_index_idempotent
                  (VectorStore0 := KB.ChromaVectorStore)
                  (TextSource0 := KB.MemorySource (Some [DemoKB.chars "abcdefgh"]))
                  10 DemoKB.kb (untraced DemoKB.stored) eq_refl)).
Defined.

(** On an empty store, and with the force flag, the call raises before it
    reads the source; with the flag it has cleared the store by then. *)
Example build_index_raises :
  DemoKB.build false (untraced [])
  = (Raise UnboundLocalError, mkTraced [] [KB.StoreExists])
  /\ DemoKB.build true (untraced DemoKB.stored)
     = (Raise UnboundLocalError, mkTraced [] [KB.StoreClear]).
Proof. split; reflexivity. Qed.

(** ** Knowledge base: chunking *)

Section SliceFacts.
Context {A : Type}.
Implicit Types l : list A.

Lemma slice_in_range l (lo hi : Z) :
  0 <= lo <= hi -> hi <= Z.of_nat (length l) ->
  slice l lo hi = take (Z.to_nat (hi - lo)) (drop (Z.to_nat lo) l).
Proof.
  intros Hlo Hhi. unfold slice, slice_bound.
  replace (lo <? 0) with false by (symmetry; apply Z.ltb_ge; lia).
  replace (hi <? 0) with false by (symmetry; apply Z.ltb_ge; lia).
  now rewrite !Z.min_l by lia.
Qed.

Lemma slice_length l (lo hi : Z) :
  0 <= lo <= hi -> hi <= Z.of_nat (length l) ->
  Z.of_nat (length (slice l lo hi)) = hi - lo.
Proof.
  intros Hlo Hhi. rewrite slice_in_range by assumption.
  rewrite length_take, length_drop. lia.
Qed.

(** What a slice holds past [c], followed by the rest of the list. *)
Lemma drop_slice_app l (lo c hi : Z) :
  0 <= lo <= c -> c <= hi -> hi <= Z.of_nat (length l) ->
  drop (Z.to_nat (c - lo)) (slice l lo hi) ++ drop (Z.to_nat hi) l
  = drop (Z.to_nat c) l.
Proof.
  intros Hlo Hc Hhi. rewrite slice_in_range by lia.
  replace (Z.to_nat (hi - lo)) with (Z.to_nat (c - lo) + Z.to_nat (hi - c))%nat by lia.
  rewrite <- take_drop_commute, drop_drop.
  replace (Z.to_nat lo + Z.to_nat (c - lo))%nat with (Z.to_nat c) by lia.
  replace (Z.to_nat hi) with (Z.to_nat c + Z.to_nat (hi - c))%nat by lia.
  rewrite <- drop_drop. apply take_drop.
Qed.

End SliceFacts.

Section ChunkFacts.
Context {Char : Type}.
Import KBSpec.

Variable self : KB.KnowledgeBase.
Hypothesis Hconf : well_configured self.

(** The loop on one text, entered at [start] with [fuel] for the part of
    the text that is left. *)
Lemma chunk_loop_from (idx : Z) (txt : list Char) (fuel : nat) :
  forall start k,
    0 <= start ->
    (Z.to_nat (Z.of_nat (length txt) - start) < fuel)%nat ->
    exists cs : list (KB.Chunk (Char := Char)),
      KB.chunk_loop fuel self idx txt start k = Some cs
      /\ (forall j c, cs !! j = Some c -> chunk_ok self idx txt k start j c)
      /\ (forall j c, cs !! j = Some c -> (S j < length cs)%nat ->
            KB.end_ c = KB.start c + KB.chunk_size self)
      /\ (start < Z.of_nat (length txt) ->
          exists cl, last cs = Some cl /\ KB.end_ cl = Z.of_nat (length txt))
      /\ (Z.of_nat (length txt) <= start -> cs = [])
      /\ (forall covered,
            start <= covered ->
            covered <= Z.max start (Z.min (start + KB.chunk_size self)
                                          (Z.of_nat (length txt))) ->
            reassemble_from covered cs = drop (Z.to_nat covered) txt)
      /\ (start < Z.of_nat (length txt) ->
          Z.of_nat (length txt) <= start + KB.chunk_size self ->
          length cs = 1%nat).
Proof.
  unfold well_configured in Hconf.
  induction fuel as [| fuel IH]; intros start k Hstart Hfuel; [lia |].
  cbn [KB.chunk_loop].
  set (n := Z.of_nat (length txt)) in *.
  destruct (start <? n) eqn:Elt.
  - apply Z.ltb_lt in Elt.
    set (e := Z.min (start + KB.chunk_size self) n).
    set (c0 := KB.mkChunk (slice txt start e) idx k start e).
    assert (Hc0 : chunk_ok self idx txt k start 0 c0).
    { unfold chunk_ok, c0. cbn [KB.source_index KB.chunk_index KB.start KB.end_ KB.text].
      fold n. fold e.
      assert (Hlen : Z.of_nat (length (slice txt start e)) = e - start)
        by (apply slice_length; unfold e; fold n; lia).
      repeat split; try reflexivity; try lia; rewrite Hlen; unfold e; lia. }
    destruct (e =? n) eqn:Eend.
    + apply Z.eqb_eq in Eend. exists [c0]. split; [reflexivity |].
      split; [| split; [| split; [| split; [| split]]]].
      * intros [| j] c Hj; [injection Hj as <-; exact Hc0 | discriminate].
      * intros [| j] c Hj Hlt; simpl in Hlt; lia.
      * intros _. exists c0. split; [reflexivity | exact Eend].
      * lia.
      * intros covered Hlo Hhi. cbn [reassemble_from KB.start KB.text KB.end_ c0].
        rewrite app_nil_r. rewrite Eend.
        rewrite <- (drop_slice_app txt start covered n) by (fold n; lia).
        rewrite (drop_ge txt (Z.to_nat n)) by (unfold n; lia).
        now rewrite app_nil_r.
      * reflexivity.
    + apply Z.eqb_neq in Eend.
      assert (He : e = start + KB.chunk_size self) by (unfold e in *; lia).
      destruct (IH (start + (KB.chunk_size self - KB.chunk_overlap self)) (k + 1))
        as (rest & -> & Hok & Hfull & Hlast & _ & Hre & _); [lia | fold n; lia |].
      fold n in Hlast, Hre.
      destruct Hlast as (cl & Hcl & Hclend); [unfold e in *; lia |].
      exists (c0 :: rest). split; [reflexivity |].
      split; [| split; [| split; [| split; [| split]]]].
      * intros [| j] c Hj; [injection Hj as <-; exact Hc0 |].
        destruct (Hok j c Hj) as (H1 & H2 & H3 & H4 & H5 & H6 & H7).
        unfold chunk_ok. repeat split; try assumption; try lia.
        rewrite H3. unfold stride. lia.
      * intros [| j] c Hj Hlt.
        -- injection Hj as <-. exact He.
        -- apply (Hfull j c Hj). simpl in Hlt. lia.
      * intros _. exists cl. split; [| exact Hclend].
        rewrite last_cons, Hcl. reflexivity.
      * lia.
      * intros covered Hlo Hhi. cbn [reassemble_from KB.start KB.text KB.end_ c0].
        rewrite (Hre e) by (unfold e in *; lia).
        apply drop_slice_app; unfold e in *; fold n; lia.
      * unfold e in *. lia.
  - apply Z.ltb_ge in Elt. exists []. split; [reflexivity |].
    split; [| split; [| split; [| split; [| split]]]];
      try (intros [| j] c Hj; discriminate); try lia; try reflexivity.
    intros covered Hlo Hhi. cbn [reassemble_from].
    symmetry. apply drop_ge. unfold n in *. lia.
Qed.

(** The chunks of one text, from its beginning. *)
Lemma chunk_loop_cover (idx : Z) (txt : list Char) (fuel : nat) :
  (length txt < fuel)%nat ->
  exists cs : list (KB.Chunk (Char := Char)),
    KB.chunk_loop fuel self idx txt 0 0 = Some cs /\ chunks_cover self idx txt cs.
Proof.
  intros Hfuel.
  destruct (chunk_loop_from idx txt fuel 0 0)
    as (cs & Hrun & Hok & Hfull & Hlast & Hnil & Hre & Hone); [lia | lia |].
  exists cs. split; [exact Hrun |].
  assert (Hn : txt <> [] -> 0 < Z.of_nat (length txt)).
  { destruct txt; [congruence | simpl; lia]. }
  unfold chunks_cover. split; [exact Hok | split; [| split; [| split; [| split]]]].
  - intros j c c' Hj Hj'.
    destruct (Hok j c Hj) as (_ & _ & Hs & _).
    destruct (Hok (S j) c' Hj') as (_ & _ & Hs' & _).
    assert (Hend : KB.end_ c = KB.start c + KB.chunk_size self).
    { apply (Hfull j c Hj). apply lookup_lt_Some in Hj'. exact Hj'. }
    unfold stride in *. lia.
  - intros Hne. destruct (Hlast (Hn Hne)) as (cl & Hcl & Hclend).
    destruct cs as [| c0 rest]; [discriminate |].
    exists c0, cl. destruct (Hok 0%nat c0 eq_refl) as (_ & _ & Hs & _).
    repeat split; [lia | exact Hcl | exact Hclend].
  - unfold reassemble. rewrite Hre by (unfold well_configured in Hconf; lia).
    reflexivity.
  - intros Hne Hfit. apply Hone; [now apply Hn | lia].
  - intros ->. apply Hnil. simpl. lia.
Qed.

Lemma chunk_texts_from_cover (fuel : nat) (texts : list (list Char)) :
  (forall txt, txt ∈ texts -> (length txt < fuel)%nat) ->
  forall idx : nat,
  exists per_text : list (list (KB.Chunk (Char := Char))),
    KB.chunk_texts_from fuel self (Z.of_nat idx) texts = Some (concat per_text)
    /\ length per_text = length texts
    /\ forall i txt cs,
         texts !! i = Some txt -> per_text !! i = Some cs ->
         chunks_cover self (Z.of_nat (idx + i)) txt cs.
Proof.
  induction texts as [| txt rest IH]; intros Hfuel idx.
  - exists []. split; [reflexivity | split; [reflexivity |]].
    intros i t c Hi. discriminate.
  - destruct (chunk_loop_cover (Z.of_nat idx) txt fuel) as (cs & Hcs & Hcover).
    { apply Hfuel. left. }
    destruct (IH (fun t Ht => Hfuel t (list_elem_of_further _ _ _ Ht)) (S idx))
      as (per_rest & Hrest & Hlen & Hall).
    exists (cs :: per_rest). cbn [KB.chunk_texts_from].
    rewrite Hcs. replace (Z.of_nat idx + 1) with (Z.of_nat (S idx)) by lia.
    rewrite Hrest. split; [reflexivity | split; [simpl; now rewrite Hlen |]].
    intros i t c Ht Hc. destruct i as [| i'].
    + injection Ht as <-. injection Hc as <-. now rewrite Nat.add_0_r.
    + replace (idx + S i')%nat with (S idx + i')%nat by lia. now apply Hall.
Qed.

End ChunkFacts.

(** C8, as amended.  With an overlap that is not negative and smaller
    than the window, [_chunk_texts] returns; the chunks come source by
    source, and those of each source cover its text: every chunk is the
    slice at its recorded offsets and at most [chunk_size] long,
    consecutive starts differ by [chunk_size - chunk_overlap] and overlap
    by [chunk_overlap], the spans put the text together again, and a text
    that is not empty and no longer than [chunk_size] gives exactly one
    chunk -- the empty text gives none. *)
Theorem chunk_texts_cover {Char : Type} (self : KB.KnowledgeBase) (fuel : nat)
    (texts : list (list Char)) :
  KBSpec.well_configured self ->
  (forall txt, txt ∈ texts -> (length txt < fuel)%nat) ->
  exists per_text : list (list (KB.Chunk (Char := Char))),
    KB._chunk_texts fuel self texts = Some (concat per_text)
    /\ length per_text = length texts
    /\ forall i txt cs,
         texts !! i = Some txt -> per_text !! i = Some cs ->
         KBSpec.chunks_cover self (Z.of_nat i) txt cs.
Proof.
  intros Hconf Hfuel.
  exact (chunk_texts_from_cover self Hconf fuel texts Hfuel 0).
Qed.

(** Counterexample to C8 as stated: the empty text is shorter than the
    window of 500 and yields no chunk at all. *)
Lemma empty_text_yields_no_chunk :
  Z.of_nat (length (@nil ascii)) < KB.chunk_size DemoChunks.kb500
  /\ KB._chunk_texts 10 DemoChunks.kb500 [@nil ascii] = Some []
  /\ ~ (exists c, KB._chunk_texts 10 DemoChunks.kb500 [@nil ascii] = Some [c]).
Proof.
  split; [reflexivity | split; [reflexivity |]].
  intros [c Hc]. discriminate.
Qed.

(** Witness of C8 as amended: windows of 4 with an overlap of 1 over
    "abcdefgh". *)
Lemma chunk_texts_cover_witness :
  exists per_text,
    KB._chunk_texts 10 DemoKB.kb [DemoChunks.alphabet] = Some (concat per_text)
    /\ length per_text = 1%nat
    /\ forall i txt cs,
         [DemoChunks.alphabet] !! i = Some txt -> per_text !! i = Some cs ->
         KBSpec.chunks_cover DemoKB.kb (Z.of_nat i) txt cs.
Proof.
  apply (chunk_texts_cover DemoKB.kb 10 [DemoChunks.alphabet]).
  - unfold KBSpec.well_configured. simpl. lia.
  - intros txt Hin. apply list_elem_of_singleton in Hin as ->. simpl. lia.
Defined.

Example chunk_texts_example :
  KB._chunk_texts 10 DemoKB.kb [DemoChunks.alphabet; DemoKB.chars "xy"]
  = Some [KB.mkChunk (DemoKB.chars "abcd") 0 0 0 4;
          KB.mkChunk (DemoKB.chars "defg") 0 1 3 7;
          KB.mkChunk (DemoKB.chars "gh") 0 2 6 8;
          KB.mkChunk (DemoKB.chars "xy") 1 0 0 2].
Proof. reflexivity. Qed.

(** With an overlap as large as the window the loop never leaves its
    first window: no amount of fuel lets it finish. *)
Lemma chunk_loop_stalls (fuel : nat) (k : Z) :
  KB.chunk_loop fuel DemoChunks.stalled 0 DemoChunks.alphabet 0 k = None.
Proof.
  revert k. induction fuel as [| fuel IH]; intros k; [reflexivity |].
  change (KB.chunk_loop (S fuel) DemoChunks.stalled 0 DemoChunks.alphabet 0 k)
    with (match KB.chunk_loop fuel DemoChunks.stalled 0 DemoChunks.alphabet 0 (k + 1) with
          | Some rest =>
              Some (KB.mkChunk (slice DemoChunks.alphabet 0 4) 0 k 0 4 :: rest)
          | None => None
          end).
  now rewrite (IH (k + 1)).
Qed.

(* ===================================================================== *)
(** * Further properties of the normaliser and the router *)
(* ===================================================================== *)

(** Peel a statement that touches no store. *)
Tactic Notation "pure_step" hyp(H) "as" ident(a) ident(Hm) :=
  bind_step H as a Hm;
  let Hw := fresh "Hw" in
  apply pure_inv in Hm as [Hm Hw]; subst.

Lemma extract_media_info_caption (content content_type : json) (m : MediaInfo.t) :
  Router._extract_media_info content content_type = Ret m ->
  exists c, Router.caption_text content = Ret c /\ MediaInfo.caption m = Some c.
Proof.
  unfold Router._extract_media_info. intros H.
  apply obind_ret_inv in H as (ct & _ & H).
  apply obind_ret_inv in H as (c & Hc & H).
  exists c. split; [exact Hc |].
  repeat match type of H with
         | (if ?b then _ else _) = Ret _ => destruct b
         | obind _ _ = Ret _ =>
             let x := fresh "x" in
             let Hx := fresh "Hx" in
             apply obind_ret_inv in H as (x & Hx & H)
         end;
    try (injection H as <-; reflexivity).
Qed.

Section SenderFacts.
Context {Env : Type} `{!BaseTelegramClient Env}.


(** Everything a returned [_tdlib_to_message_event] fixes. *)
Lemma tdlib_to_message_event_fields (message : json) (client : client_ref) (raw : json)
    (w w' : World Env) (ev : MessageEvent.t) :
  Router._tdlib_to_message_event message client raw w = (Ret ev, w') ->
  exists content content_type,
    py_get message "content" (JDict []) = Ret content
    /\ py_get content "@type" (JStr "") = Ret content_type
    /\ (if eq_str content_type "messageText"
        then let+ t := Router.get2 content "text" "text" (JStr "") in as_str t
        else Router.caption_text content) = Ret (MessageEvent.text ev)
    /\ MessageEvent.raw_text ev = MessageEvent.text ev
    /\ (let+ s := Router.get2 message "sender_id" "user_id" (JInt 0) in as_int s)
       = Ret (MessageEvent.sender_id ev)
    /\ Router._get_sender_info (MessageEvent.sender_id ev) client w
       = (Ret (MessageEvent.sender ev), w')
    /\ MessageEvent.has_media ev = negb (eq_str content_type "messageText")
    /\ (if MessageEvent.has_media ev
        then exists m, Router._extract_media_info content content_type = Ret m
                       /\ MessageEvent.media ev = Some m
        else MessageEvent.media ev = None)
    /\ (if truthy content_type
        then let+ s := str_receiver content_type in Ret (startswith s "messageService")
        else Ret false) = Ret (MessageEvent.is_service ev)
    /\ (let+ i := py_getitem message "id" in as_int i) = Ret (MessageEvent.message_id ev)
    /\ (forall d, MessageEvent.edit_date ev = Some d -> 0 < d)
    /\ MessageEvent.client ev = client
    /\ MessageEvent.raw_event ev = raw.
Proof.
  intros H. unfold Router._tdlib_to_message_event in H.
  pure_step H as i0 Hi0. pure_step H as c0 Hc0.
  pure_step H as content Hcontent. pure_step H as ctype Hctype.
  pure_step H as text Htext. pure_step H as cid Hcid.
  pure_step H as sid Hsid.
  bind_step H as sender Hsender.
  pure_step H as ctype2 Hctype2.
  bind_step H as media Hmedia.
  assert (ctype2 = ctype) as ->.
  { unfold Router.get2 in Hctype2. rewrite Hcontent in Hctype2. simpl in Hctype2.
    congruence. }
  assert (Hmedia' :
            w1 = w0 /\
            if negb (eq_str ctype "messageText")
            then exists m, Router._extract_media_info content ctype = Ret m
                           /\ media = Some m
            else media = None).
  { destruct (negb (eq_str ctype "messageText")).
    - pure_step Hmedia as m Hx. apply pure_inv in Hmedia as [Hy ->].
      injection Hy as <-. eauto.
    - apply pure_inv in Hmedia as [Hy ->]. injection Hy as <-. auto. }
  destruct Hmedia' as [-> Hmedia']. clear Hmedia.
  pure_step H as mid Hmid. pure_step H as date Hdate.
  pure_step H as flag Hflag.
  bind_step H as edit Hedit.
  assert (Hedit' : w1 = w0 /\ forall d, edit = Some d -> 0 < d).
  { destruct (0 <? flag) eqn:Eflag.
    - pure_step Hedit as d Hd. apply pure_inv in Hedit as [Hy ->].
      injection Hy as <-. split; [reflexivity |]. intros d' Hd'. injection Hd' as <-.
      apply Z.ltb_lt in Eflag.
      apply obind_ret_inv in Hd as (x & Hx & Hd).
      apply obind_ret_inv in Hflag as (y & Hy & Hflag).
      unfold py_getitem, py_get in *. destruct message; try discriminate.
      destruct (lookup_key "edit_date" kvs); [| discriminate].
      injection Hx as <-. injection Hy as <-. simpl in Hd, Hflag. congruence.
    - apply pure_inv in Hedit as [Hy ->]. injection Hy as <-.
      split; [reflexivity | discriminate]. }
  destruct Hedit' as [-> Hedit']. clear Hedit.
  pure_step H as out Hout. pure_step H as mention Hmention.
  pure_step H as service Hservice.
  pure_step H as reply Hreply. pure_step H as fwd Hfwd.
  apply pure_inv in H as [H ->]. injection H as <-. simpl.
  exists content, ctype. repeat split; auto.
Qed.

End SenderFacts.

Section EventFacts.
Context {Env : Type} `{!BaseTelegramClient Env}.

(** X1.  Body text and caption share one field: [raw_text] equals [text];
    on a message with media the caption recorded in [media] is [text]; on a
    plain text message [text] is the text of the body. *)
Theorem message_event_text_is_caption (message : json) (client : client_ref)
    (raw : json) (w w' : World Env) (ev : MessageEvent.t) :
  Router._tdlib_to_message_event message client raw w = (Ret ev, w') ->
  MessageEvent.raw_text ev = MessageEvent.text ev
  /\ (MessageEvent.has_media ev = true ->
      exists m, MessageEvent.media ev = Some m
                /\ MediaInfo.caption m = Some (MessageEvent.text ev))
  /\ (MessageEvent.has_media ev = false ->
      exists content,
        py_get message "content" (JDict []) = Ret content
        /\ Router.get2 content "text" "text" (JStr "") = Ret (JStr (MessageEvent.text ev))).
Proof.
  intros H.
  destruct (tdlib_to_message_event_fields _ _ _ _ _ _ H)
    as (content & ctype & Hcontent & Hctype & Htext & Hraw & _ & _ & Hhas & Hmedia & _).
  split; [exact Hraw | split].
  - intros Hm. rewrite Hm in Hmedia. destruct Hmedia as (m & Hext & Hsome).
    exists m. split; [exact Hsome |].
    destruct (extract_media_info_caption _ _ _ Hext) as (c & Hc & Hcap).
    rewrite Hm in Hhas. destruct (eq_str ctype "messageText"); [discriminate |].
    congruence.
  - intros Hm. exists content. split; [exact Hcontent |].
    rewrite Hm in Hhas. destruct (eq_str ctype "messageText"); [| discriminate].
    apply obind_ret_inv in Htext as (t & Ht & Hstr).
    destruct t; try discriminate. injection Hstr as <-. exact Ht.
Qed.


(** X3.  A service message counts as a message with media: whenever
    [is_service] is set, so is [has_media], and [media] is there. *)
Theorem service_message_has_media (message : json) (client : client_ref)
    (raw : json) (w w' : World Env) (ev : MessageEvent.t) :
  Router._tdlib_to_message_event message client raw w = (Ret ev, w') ->
  MessageEvent.is_service ev = true ->
  MessageEvent.has_media ev = true /\ exists m, MessageEvent.media ev = Some m.
Proof.
  intros H Hservice.
  destruct (tdlib_to_message_event_fields _ _ _ _ _ _ H)
    as (content & ctype & _ & _ & _ & _ & _ & _ & Hhas & Hmedia & Hsvc & _).
  rewrite Hservice in Hsvc.
  assert (Hnot : eq_str ctype "messageText" = false).
  { destruct (truthy ctype); [| discriminate].
    destruct ctype as [| | | s | |]; try discriminate.
    simpl in Hsvc. injection Hsvc as Hpre. simpl.
    destruct (String.eqb s "messageText") eqn:E; [| reflexivity].
    apply String.eqb_eq in E. subst s. discriminate. }
  rewrite Hnot in Hhas. simpl in Hhas. rewrite Hhas in Hmedia.
  destruct Hmedia as (m & _ & Hm). eauto.
Qed.

End EventFacts.

(** The element [max] picks is in the list, and no key exceeds its key. *)
Lemma max_from_spec (key : json -> outcome Z) (l : list json) :
  forall best best_key r,
    key best = Ret best_key ->
    Router.max_from key best best_key l = Ret r ->
    In r (best :: l)
    /\ exists rk, key r = Ret rk
                  /\ forall x, In x (best :: l) -> exists kx, key x = Ret kx /\ kx <= rk.
Proof.
  induction l as [| x l IH]; intros best bk r Hbest Hmax.
  - injection Hmax as <-. split; [now left |].
    exists bk. split; [exact Hbest |].
    intros y [<- | []]. exists bk. split; [exact Hbest | lia].
  - cbn [Router.max_from] in Hmax.
    apply obind_ret_inv in Hmax as (k & Hk & Hmax).
    destruct (bk <? k) eqn:E.
    + apply Z.ltb_lt in E.
      destruct (IH x k r Hk Hmax) as (Hin & rk & Hrk & Hall).
      split; [destruct Hin as [<- | Hin]; [right; now left | right; now right] |].
      exists rk. split; [exact Hrk |].
      intros y [<- | [<- | Hy]].
      * destruct (Hall x (or_introl eq_refl)) as (kx & Hkx & Hle).
        exists bk. split; [exact Hbest |]. rewrite Hk in Hkx. injection Hkx as <-. lia.
      * apply Hall. now left.
      * apply Hall. now right.
    + apply Z.ltb_ge in E.
      destruct (IH best bk r Hbest Hmax) as (Hin & rk & Hrk & Hall).
      split; [destruct Hin as [<- | Hin]; [now left | right; now right] |].
      exists rk. split; [exact Hrk |].
      intros y [<- | [<- | Hy]].
      * apply Hall. now left.
      * destruct (Hall best (or_introl eq_refl)) as (kb & Hkb & Hle).
        exists k. split; [exact Hk |]. rewrite Hbest in Hkb. injection Hkb as <-. lia.
      * apply Hall. now right.
Qed.

(** X4.  Of a photo the normaliser records the size variant of the
    largest area: the recorded width, height, file id and file size are
    those of one variant of [sizes], and no variant has a larger
    [width * height]. *)
Theorem photo_takes_largest_size (content photo : json) (sizes : list json)
    (m : MediaInfo.t) :
  Router._extract_media_info content (JStr "messagePhoto") = Ret m ->
  py_get content "photo" (JDict []) = Ret photo ->
  py_get photo "sizes" (JList []) = Ret (JList sizes) ->
  sizes <> [] ->
  exists largest area,
    In largest sizes
    /\ Router.size_area largest = Ret area
    /\ (forall s, In s sizes -> exists a, Router.size_area s = Ret a /\ a <= area)
    /\ py_get largest "width" JNull = Ret (MediaInfo.width m)
    /\ py_get largest "height" JNull = Ret (MediaInfo.height m)
    /\ Router.get2 largest "photo" "id" JNull = Ret (MediaInfo.file_id m)
    /\ Router.get2 largest "photo" "size" JNull = Ret (MediaInfo.file_size m).
Proof.
  intros H Hphoto Hsizes Hne. unfold Router._extract_media_info in H.
  cbn [str_receiver obind] in H.
  apply obind_ret_inv in H as (c & Hc & H).
  change (eq_str (JStr "messagePhoto") "messagePhoto") with true in H. cbv iota in H.
  rewrite Hphoto in H. cbn [obind] in H. rewrite Hsizes in H. cbn [obind] in H.
  destruct sizes as [| s0 rest]; [congruence |].
  cbn [truthy as_list obind] in H.
  apply obind_ret_inv in H as (largest & Hmax & H).
  unfold Router.py_max in Hmax.
  apply obind_ret_inv in Hmax as (k0 & Hk0 & Hmax).
  destruct (max_from_spec _ _ _ _ _ Hk0 Hmax) as (Hin & area & Harea & Hall).
  apply obind_ret_inv in H as (wd & Hwd & H).
  apply obind_ret_inv in H as (ht & Hht & H).
  apply obind_ret_inv in H as (fid & Hfid & H).
  apply obind_ret_inv in H as (fsz & Hfsz & H).
  injection H as <-.
  exists largest, area. repeat split; auto.
Qed.

(** Witness of X1 to X4: the photo of the examples has the caption "look"
    and is recorded at 320 by 200, the first of its two largest sizes. *)
Lemma message_event_text_is_caption_witness :
  exists ev w',
    DemoUpdates.normalise (-42) DemoUpdates.photo_content = (Ret ev, w')
    /\ MessageEvent.raw_text ev = MessageEvent.text ev
    /\ MessageEvent.text ev = "look"%string.
Proof.
  eexists. eexists. split; [vm_compute; reflexivity |]. split; [| reflexivity].
  exact (proj1 (message_event_text_is_caption
                  (BaseTelegramClient0 := Demo.reliable_client)
                  (Demo.tdlib_message (-42) DemoUpdates.photo_content)
                  0%nat JNull Demo.w0 _ _ eq_refl)).
Defined.


Lemma service_message_has_media_witness :
  exists ev w',
    DemoUpdates.normalise (-42) DemoUpdates.join_content = (Ret ev, w')
    /\ MessageEvent.has_media ev = true.
Proof.
  eexists. eexists. split; [vm_compute; reflexivity |].
  exact (proj1 (service_message_has_media
                  (BaseTelegramClient0 := Demo.reliable_client)
                  (Demo.tdlib_message (-42) DemoUpdates.join_content)
                  0%nat JNull Demo.w0 _ _ eq_refl eq_refl)).
Defined.

Lemma photo_takes_largest_size_witness :
  exists m largest,
    Router._extract_media_info DemoUpdates.photo_content (JStr "messagePhoto") = Ret m
    /\ In largest [DemoUpdates.size 90 60 1; DemoUpdates.size 320 200 2;
                   DemoUpdates.size 200 320 3]
    /\ py_get largest "width" JNull = Ret (MediaInfo.width m)
    /\ MediaInfo.width m = JInt 320.
Proof.
  destruct (photo_takes_largest_size DemoUpdates.photo_content _ _ _
              eq_refl eq_refl eq_refl ltac:(discriminate))
    as (largest & area & Hin & _ & _ & Hw & _).
  eexists. exists largest. split; [reflexivity |].
  split; [exact Hin | split; [exact Hw | reflexivity]].
Defined.

Section RouteEdgeFacts.
Context {Env : Type} `{!BaseTelegramClient Env}.

(** X5.  An update without a ["@type"], or of a kind [_from_tdlib] has no
    branch for, is dropped: [route] returns, asks no handler and calls no
    collaborator. *)
Theorem route_drops_unrecognised_update (r : Router.EventRouter)
    (update : list (string * json)) (client : client_ref) (w : World Env) :
  (forall t, lookup_key "@type" update = Some t -> recognised_update_type t = false) ->
  Router.route r update client (untraced w) = (Ret tt, untraced w).
Proof.
  intros Hkind.
  assert (Hnorm : Router._normalize_event update client w = (Ret None, w)).
  { unfold Router._normalize_event.
    destruct (lookup_key "@type" update) as [t |] eqn:Et.
    - rewrite bool_decide_eq_true_2 by eauto.
      specialize (Hkind t eq_refl). unfold recognised_update_type in Hkind.
      repeat (apply orb_false_elim in Hkind as [Hkind ?]).
      unfold Router._from_tdlib, bind. cbn [py_get pure]. rewrite Et.
      change (default JNull (Some t)) with t.
      repeat match goal with E : eq_str t _ = false |- _ => rewrite E; clear E end.
      reflexivity.
    - rewrite bool_decide_eq_false_2; [reflexivity |].
      intros [x Hx]. discriminate. }
  unfold Router.route, bind. rewrite lift_run. unfold untraced. cbn [inner trace].
  rewrite Hnorm. reflexivity.
Qed.

(** X6.  [route] does not guard the normaliser: an exception raised while
    the update is normalised leaves [route], and no handler is asked. *)
Theorem route_propagates_normalisation_error (r : Router.EventRouter)
    (update : list (string * json)) (client : client_ref) (w w1 : World Env) (e : exn) :
  Router._normalize_event update client w = (Raise e, w1) ->
  Router.route r update client (untraced w) = (Raise e, untraced w1).
Proof.
  intros Hnorm. unfold Router.route, bind. rewrite lift_run.
  unfold untraced. cbn [inner trace]. rewrite Hnorm. reflexivity.
Qed.

(** X7.  An edit notification is rebuilt from the message fetched anew
    with one [getMessage] call: when the call reports an error the update
    is dropped, and otherwise the event is the one of the fetched message,
    with the notification as its raw event. *)
Theorem edited_message_is_refetched (update : list (string * json))
    (client : client_ref) (w : World Env) (cid mid : json)
    (fetched : AsyncResult.t) (env' : Env) :
  lookup_key "@type" update = Some (JStr "updateMessageEdited") ->
  lookup_key "chat_id" update = Some cid ->
  lookup_key "message_id" update = Some mid ->
  let params := JList [JStr "chat_id"; cid; JStr "message_id"; mid] in
  call_method client "getMessage" params (ext w) = (Ret fetched, env') ->
  let w1 := mkWorld env' (calls w ++ [CallMethod client "getMessage" params])
              (_conversations w) (_whisper_model w) in
  Router._normalize_event update client w
  = if AsyncResult.error fetched then (Ret None, w1)
    else match Router._tdlib_to_message_event (AsyncResult.update fetched) client
                 (JDict update) w1 with
         | (Ret ev, w2) => (Ret (Some (EMessage ev)), w2)
         | (Raise e, w2) => (Raise e, w2)
         end.
Proof.
  intros Htype Hcid Hmid params Hcall w1.
  unfold Router._normalize_event. rewrite bool_decide_eq_true_2 by (rewrite Htype; eauto).
  unfold Router._from_tdlib. unfold bind at 1. cbn [py_get pure]. rewrite Htype.
  change (default JNull (Some (JStr "updateMessageEdited")))
    with (JStr "updateMessageEdited").
  change (eq_str (JStr "updateMessageEdited") "updateNewMessage") with false.
  change (eq_str (JStr "updateMessageEdited") "updateMessageEdited") with true.
  cbv iota. unfold bind at 1. cbn [py_getitem pure]. rewrite Hcid.
  unfold bind at 1. cbn [pure]. rewrite Hmid.
  unfold bind at 1. rewrite ext_do_run. fold params. rewrite Hcall. cbn [fst snd].
  fold w1. destruct (AsyncResult.error fetched); cbn [negb]; [reflexivity |].
  unfold bind. destruct (Router._tdlib_to_message_event _ _ _ w1) as [[ev | e] w2];
    reflexivity.
Qed.

End RouteEdgeFacts.

Lemma route_drops_unrecognised_update_witness :
  Router.route (BaseTelegramClient0 := Demo.reliable_client) DemoRouter.router
    DemoUpdates.unknown 0%nat (untraced Demo.w0)
  = (Ret tt, untraced Demo.w0).
Proof.
  apply (route_drops_unrecognised_update (BaseTelegramClient0 := Demo.reliable_client)).
  intros t Ht. injection Ht as <-. reflexivity.
Defined.

(** A new-message update without its message makes [route] raise
    [KeyError]. *)
Lemma route_propagates_normalisation_error_witness :
  Router.route (BaseTelegramClient0 := Demo.reliable_client) DemoRouter.router
    DemoUpdates.truncated 0%nat (untraced Demo.w0)
  = (Raise KeyError, untraced Demo.w0).
Proof.
  exact (route_propagates_normalisation_error
           (BaseTelegramClient0 := Demo.reliable_client) DemoRouter.router
           DemoUpdates.truncated 0%nat Demo.w0 Demo.w0 KeyError eq_refl).
Defined.

(** The client of the examples answers every TDLib call with an error:
    the edit is dropped after one call. *)
Lemma edited_message_is_refetched_witness :
  Router._normalize_event (BaseTelegramClient0 := Demo.reliable_client)
    DemoUpdates.edited 0%nat Demo.w0
  = (Ret None,
     mkWorld tt [CallMethod 0%nat "getMessage"
                   (JList [JStr "chat_id"; JInt (-42); JStr "message_id"; JInt 11])]
       ∅ false).
Proof.
  exact (edited_message_is_refetched (BaseTelegramClient0 := Demo.reliable_client)
           DemoUpdates.edited 0%nat Demo.w0 (JInt (-42)) (JInt 11)
           (AsyncResult.mk true (JStr "unavailable") JNull) tt
           eq_refl eq_refl eq_refl eq_refl).
Defined.

(* ===================================================================== *)
(** * Further properties of the handlers *)
(* ===================================================================== *)



Lemma pm_can_handle_scope {Env : Type} (pm : @PMReply.PMReplyHandler Env)
    (ev : MessageEvent.t) :
  PMReply.can_handle pm (EMessage ev) = Ret true ->
  MessageEvent.chat_type ev = PRIVATE.
Proof.
  unfold PMReply.can_handle.
  destruct (MessageEvent.chat_type ev); cbn [ChatType_eqb negb];
    try discriminate; reflexivity.
Qed.

Section HandlerScopeFacts.
Context {Env : Type} `{!BaseTelegramClient Env}.

(** X9.  On the events the normaliser produces the two handlers never
    meet: the private-message handler accepts only positive chat ids, the
    group handler only negative ones whose decimal form does not start
    with "-100" -- a supergroup is never moderated -- and no event is
    accepted by both. *)
Theorem handlers_split_by_chat_id (message : json) (client : client_ref) (raw : json)
    (w w' : World Env) (ev : MessageEvent.t)
    (pm : @PMReply.PMReplyHandler Env) (gm : GroupModeration.GroupModerationHandler) :
  Router._tdlib_to_message_event message client raw w = (Ret ev, w') ->
  (PMReply.can_handle pm (EMessage ev) = Ret true -> 0 < MessageEvent.chat_id ev)
  /\ (GroupModeration.can_handle gm (EMessage ev) = Ret true ->
      MessageEvent.chat_id ev < 0
      /\ startswith (str_of_int (MessageEvent.chat_id ev)) "-100" = false)
  /\ ~ (PMReply.can_handle pm (EMessage ev) = Ret true
        /\ GroupModeration.can_handle gm (EMessage ev) = Ret true).
Proof.
  intros H.
  destruct (tdlib_to_message_event_inv _ _ _ _ _ _ H)
    as (content & ctype & _ & _ & _ & Htype & _).
  assert (Hpm : PMReply.can_handle pm (EMessage ev) = Ret true ->
                MessageEvent.chat_type ev = PRIVATE).
  { apply pm_can_handle_scope. }
  assert (Hgm : GroupModeration.can_handle gm (EMessage ev) = Ret true ->
                MessageEvent.chat_type ev = GROUP).
  { unfold GroupModeration.can_handle.
    destruct (MessageEvent.chat_type ev); cbn [ChatType_eqb negb];
      try discriminate; reflexivity. }
  unfold Router.chat_type_of in Htype.
  split; [| split].
  - intros Hc. apply Hpm in Hc. rewrite Hc in Htype.
    destruct (0 <? MessageEvent.chat_id ev) eqn:E; [now apply Z.ltb_lt in E |].
    destruct (startswith _ _); [discriminate |].
    destruct (MessageEvent.chat_id ev <? 0); discriminate.
  - intros Hc. apply Hgm in Hc. rewrite Hc in Htype.
    destruct (0 <? MessageEvent.chat_id ev); [discriminate |].
    destruct (startswith _ _); [discriminate |].
    destruct (MessageEvent.chat_id ev <? 0) eqn:E; [| discriminate].
    apply Z.ltb_lt in E. auto.
  - intros [Hc1 Hc2]. apply Hpm in Hc1. apply Hgm in Hc2. congruence.
Qed.

End HandlerScopeFacts.

(** Witness of X9: a message of the supergroup -1001234567890 is accepted
    by neither handler's chat-type test. *)
Lemma handlers_split_by_chat_id_witness :
  exists ev w',
    DemoUpdates.normalise (-1001234567890) Demo.text_content = (Ret ev, w')
    /\ (GroupModeration.can_handle (GroupModeration.mk None None false) (EMessage ev)
        = Ret true ->
        MessageEvent.chat_id ev < 0
        /\ startswith (str_of_int (MessageEvent.chat_id ev)) "-100" = false).
Proof.
  eexists. eexists. split; [vm_compute; reflexivity |].
  exact (proj1 (proj2 (handlers_split_by_chat_id
                  (BaseTelegramClient0 := Demo.reliable_client)
                  (Demo.tdlib_message (-1001234567890) Demo.text_content)
                  0%nat JNull Demo.w0 _ _ DemoPM.handler
                  (GroupModeration.mk None None false) eq_refl))).
Defined.

(** ** Code that raises nothing but instances of [Exception] *)

Section RaisesOnly.
Context {W : Type}.
Import RouterSpec.

Lemma roe_pure {A} (o : outcome A) :
  (forall e, o = Raise e -> is_Exception e = true) ->
  raises_only_Exception (W := W) (pure o).
Proof. intros Ho w e w' H. apply pure_inv in H as [H _]. now apply Ho. Qed.

Lemma roe_ret {A} (a : A) : raises_only_Exception (W := W) (ret a).
Proof. intros w e w' H. discriminate. Qed.

Lemma roe_raise {A} (e : exn) :
  is_Exception e = true -> raises_only_Exception (W := W) (@raise W A e).
Proof. intros He w e' w' H. inversion H. now subst. Qed.

Lemma roe_bind {A B} (m : M W A) (k : A -> M W B) :
  raises_only_Exception m -> (forall a, raises_only_Exception (k a)) ->
  raises_only_Exception (bind m k).
Proof.
  intros Hm Hk w e w' H. unfold bind in H.
  destruct (m w) as [[a | e0] w1] eqn:E.
  - exact (Hk a _ _ _ H).
  - injection H as <- <-. exact (Hm _ _ _ E).
Qed.

Lemma roe_try_except {A} (body : M W A) (handler : exn -> M W A) :
  raises_only_Exception body -> (forall e, raises_only_Exception (handler e)) ->
  raises_only_Exception (try_except body handler).
Proof.
  intros Hb Hh w e w' H. unfold try_except in H.
  destruct (body w) as [[a | e0] w1] eqn:E; [discriminate |].
  rewrite (Hb _ _ _ E) in H. exact (Hh _ _ _ _ H).
Qed.

(** A guarded block whose [except] clause returns a value always returns. *)
Lemma try_except_returns {A} (body : M W A) (a : A) (w : W) :
  raises_only_Exception body ->
  exists r, fst (try_except body (fun _ => ret a) w) = Ret r.
Proof.
  intros Hb. unfold try_except.
  destruct (body w) as [[x | e] w1] eqn:E; [eauto |].
  rewrite (Hb _ _ _ E). eauto.
Qed.

Lemma roe_modify (f : W -> W) : raises_only_Exception (modify f).
Proof. intros w e w' H. discriminate. Qed.

Lemma roe_get : raises_only_Exception (@get W).
Proof. intros w e w' H. discriminate. Qed.

End RaisesOnly.

Lemma roe_ext_do {Env A} (c : ext_call) (m : M Env A) :
  RouterSpec.raises_only_Exception m ->
  RouterSpec.raises_only_Exception (ext_do c m).
Proof.
  intros Hm w e w' H. rewrite ext_do_run in H.
  destruct (m (ext w)) as [o e1] eqn:E. cbn [fst snd] in H.
  injection H as -> _. exact (Hm _ _ _ E).
Qed.

(** The accessors of TDLib payloads raise [KeyError], [TypeError] or
    [AttributeError]. *)
Lemma roe_outcome_json {A} (o : outcome A) :
  (forall e, o = Raise e -> e = KeyError \/ e = TypeError \/ e = AttributeError
                            \/ e = ValueError) ->
  forall e, o = Raise e -> is_Exception e = true.
Proof. intros Ho e He. destruct (Ho e He) as [-> | [-> | [-> | ->]]]; reflexivity. Qed.

Section AgentRaises.
Context {Env : Type} `{!BaseChatModel Env}.
Import RouterSpec.

Lemma generate_response_raises_only (self : Agent.ChatAgent) (user_message : string)
    (user_id : Z) (clear_history : bool) :
  Behaviour.chat_model_ok _ ->
  (forall r, Agent.retriever self = Some r -> Behaviour.retriever_ok r) ->
  raises_only_Exception (Agent.generate_response self user_message user_id clear_history).
Proof.
  intros Hmodel Hretr. unfold Agent.generate_response, Agent.set_conversation.
  apply roe_bind; [destruct clear_history; [apply roe_modify | apply roe_ret] |].
  intros _. apply roe_bind; [apply roe_get |]. intros w0.
  apply roe_bind.
  - destruct (Agent.retriever self) as [r |] eqn:Er; [| apply roe_ret].
    apply roe_bind; [apply roe_ext_do, (Hretr r eq_refl) | intros docs; apply roe_ret].
  - intros rag. apply roe_bind; [apply roe_ext_do, Hmodel |].
    intros response. destruct (negb (ChatResponse.should_escalate response));
      [| apply roe_ret].
    apply roe_bind; [apply roe_modify | intros _; apply roe_ret].
Qed.

End AgentRaises.

Section PMReplyMore.
Context {Env : Type} `{!BaseTelegramClient Env} `{!BaseChatModel Env}.
Variable format_2f : Q -> string.
Import RouterSpec.

(** X10.  With collaborators that raise nothing but instances of
    [Exception], [handle] returns on every message, whatever the agent,
    the retriever or the client did: nothing of it reaches the router. *)
Theorem pm_handle_never_raises (self : PMReply.PMReplyHandler) (ev : MessageEvent.t)
    (w : World Env) :
  Behaviour.client_ok _ ->
  Behaviour.chat_model_ok _ ->
  (forall a r, PMReply.agent self = Some a -> Agent.retriever a = Some r ->
               Behaviour.retriever_ok r) ->
  fst (PMReply.handle format_2f self (EMessage ev) w) = Ret tt.
Proof.
  intros (_ & Hsend & _) Hmodel Hretr. unfold PMReply.handle.
  destruct (try_except_returns
              (let* response :=
                 match PMReply.agent self with
                 | Some a =>
                     Agent.generate_response a (MessageEvent.text ev)
                       (MessageEvent.sender_id ev) false
                 | None => raise AttributeError
                 end in
               let* _ :=
                 if ChatResponse.should_escalate response then
                   match PMReply.escalation_chat_id self with
                   | Some id =>
                       if negb (id =? 0) then
                         let* _ :=
                           ext_do (SendMessage (MessageEvent.client ev) (PeerId id)
                                     (PMReply.escalation_text format_2f ev response) None)
                                  (send_message (MessageEvent.client ev) (PeerId id)
                                     (PMReply.escalation_text format_2f ev response) None) in
                         ret tt
                       else ret tt
                   | None => ret tt
                   end
                 else ret tt in
               let* sent_message :=
                 ext_do (SendMessage (MessageEvent.client ev)
                           (PeerId (MessageEvent.chat_id ev))
                           (ChatResponse.to_telegram_message response) None)
                        (send_message (MessageEvent.client ev)
                           (PeerId (MessageEvent.chat_id ev))
                           (ChatResponse.to_telegram_message response) None) in
               ret tt) tt w) as [[] Hr]; [| exact Hr].
  apply roe_bind.
  - destruct (PMReply.agent self) as [a |] eqn:Ea; [| now apply roe_raise].
    apply generate_response_raises_only; [exact Hmodel | exact (fun r => Hretr a r eq_refl)].
  - intros response. apply roe_bind.
    + destruct (ChatResponse.should_escalate response); [| apply roe_ret].
      destruct (PMReply.escalation_chat_id self) as [id |]; [| apply roe_ret].
      destruct (negb (id =? 0)); [| apply roe_ret].
      apply roe_bind; [apply roe_ext_do, Hsend | intros _; apply roe_ret].
    + intros _. apply roe_bind; [apply roe_ext_do, Hsend | intros _; apply roe_ret].
Qed.

(** X11.  A response that does not escalate, or an escalation without a
    configured destination, makes [handle] send exactly one message after
    the agent has answered: the reply, to the originating chat. *)
Theorem pm_handle_sends_reply_only (self : PMReply.PMReplyHandler)
    (ev : MessageEvent.t) (a : Agent.ChatAgent) (response : ChatResponse.t)
    (w w1 : World Env) :
  PMReply.agent self = Some a ->
  Agent.generate_response a (MessageEvent.text ev) (MessageEvent.sender_id ev) false w
  = (Ret response, w1) ->
  ChatResponse.should_escalate response = false
  \/ PMReply.escalation_configured self = false ->
  calls (snd (PMReply.handle format_2f self (EMessage ev) w))
  = calls w1 ++ [SendMessage (MessageEvent.client ev) (PeerId (MessageEvent.chat_id ev))
                   (ChatResponse.message response) None].
Proof.
  intros Hagent Hgen Hquiet.
  unfold PMReply.handle. rewrite try_except_store, Hagent.
  unfold bind at 1. rewrite Hgen. unfold bind at 1.
  assert (Hskip :
    (if ChatResponse.should_escalate response then
       match PMReply.escalation_chat_id self with
       | Some id =>
           if negb (id =? 0) then
             let* _ :=
               ext_do (SendMessage (MessageEvent.client ev) (PeerId id)
                         (PMReply.escalation_text format_2f ev response) None)
                      (send_message (MessageEvent.client ev) (PeerId id)
                         (PMReply.escalation_text format_2f ev response) None) in
             ret tt
           else ret tt
       | None => ret tt
       end
     else ret tt) w1 = (Ret tt, w1)).
  { destruct Hquiet as [-> | Hconf]; [reflexivity |].
    destruct (ChatResponse.should_escalate response); [| reflexivity].
    unfold PMReply.escalation_configured in Hconf.
    destruct (PMReply.escalation_chat_id self) as [id |]; [| reflexivity].
    rewrite Hconf. reflexivity. }
  rewrite Hskip. unfold bind. rewrite ext_do_run. cbn [fst snd].
  destruct (fst _); reflexivity.
Qed.

End PMReplyMore.

Lemma demo_client_ok (failing : peer -> bool) : Behaviour.client_ok (Demo.client failing).
Proof.
  repeat split; intros; intros w e w' H; try discriminate.
  cbn in H. destruct (failing p); [| discriminate].
  inversion H. reflexivity.
Qed.

Lemma demo_chat_model_ok (answer : ChatResponse.t) :
  Behaviour.chat_model_ok (Demo.chat_model answer).
Proof. intros sp um h rc w e w' H. discriminate. Qed.

(** Witness of X10: the notification raises, and [handle] returns. *)
Lemma pm_handle_never_raises_witness :
  fst (DemoPM.run DemoPM.escalation_down) = Ret tt.
Proof.
  apply (pm_handle_never_raises (BaseTelegramClient0 := Demo.client DemoPM.escalation_down)
           (BaseChatModel0 := Demo.chat_model Demo.escalated_answer)).
  - apply demo_client_ok.
  - apply demo_chat_model_ok.
  - intros a r Ha Hr. injection Ha as <-. discriminate.
Defined.

(** Witness of X11: an answer that does not escalate. *)
Lemma pm_handle_sends_reply_only_witness :
  calls (snd (PMReply.handle (BaseTelegramClient0 := Demo.reliable_client)
                (BaseChatModel0 := Demo.chat_model Demo.plain_answer)
                DemoRouter.format_2f DemoPM.handler (EMessage DemoPM.event) Demo.w0))
  = [Generate "You are a helpful assistant." "where is my order?" [] "";
     SendMessage 0%nat (PeerId 7) "hello" None].
Proof.
  exact (pm_handle_sends_reply_only (BaseTelegramClient0 := Demo.reliable_client)
           (BaseChatModel0 := Demo.chat_model Demo.plain_answer)
           DemoRouter.format_2f DemoPM.handler DemoPM.event DemoRouter.agent
           Demo.plain_answer Demo.w0 _ eq_refl eq_refl (or_introl eq_refl)).
Defined.

(** ** Group moderation: the action *)



Section GroupActionFacts.
Context {Env : Type} `{!BaseTelegramClient Env} `{!BaseModerationModel Env}
        `{!LocalMachine Env}.
Variable format_2f : Q -> string.

(** X13.  The handler sends nothing unless the message was deleted: when
    the verdict is to keep the message it calls the client not at all, and
    when the deletion does not return [True] the deletion is its only
    call -- no log entry, no warning. *)
Theorem group_handle_sends_only_after_delete
    (self : GroupModeration.GroupModerationHandler) (ev : MessageEvent.t)
    (result : ModerationResult.t) (w w1 : World Env) :
  Moderation.moderate_message ev w = (Ret result, w1) ->
  ModerationResult.should_delete result = false
  \/ fst (delete_message (MessageEvent.client ev) (MessageEvent.chat_id ev)
            (MessageEvent.message_id ev) (ext w1)) <> Ret true ->
  calls (snd (GroupModerationAction.handle format_2f self (EMessage ev) w))
  = calls w1 ++ (if ModerationResult.should_delete result
                 then [GroupModerationAction.delete_call ev] else []).
Proof.
  intros Hmod Hquiet. unfold GroupModerationAction.handle.
  unfold bind at 1. rewrite Hmod.
  destruct (ModerationResult.should_delete result).
  - destruct Hquiet as [Hx | Hdel]; [discriminate |].
    unfold bind at 1. rewrite ext_do_run.
    destruct (delete_message _ _ _ (ext w1)) as [[[|] | e] e1]; cbn [fst snd] in *;
      try reflexivity.
    congruence.
  - cbn. now rewrite app_nil_r.
Qed.

(** X14.  After a deletion that succeeded, with a log destination and
    warnings configured, the handler sends the log entry and then the
    warning into the chat of the message, both as HTML, in this order. *)
Theorem group_handle_logs_then_warns
    (self : GroupModeration.GroupModerationHandler) (ev : MessageEvent.t)
    (result : ModerationResult.t) (w w1 : World Env) (p : peer) (label : string)
    (e2 e3 : Env) (sent : json) :
  Moderation.moderate_message ev w = (Ret result, w1) ->
  ModerationResult.should_delete result = true ->
  delete_message (MessageEvent.client ev) (MessageEvent.chat_id ev)
    (MessageEvent.message_id ev) (ext w1) = (Ret true, e2) ->
  GroupModeration.send_logs_to self = Some p ->
  GroupModerationAction.peer_truthy (Some p) = true ->
  GroupModerationAction.media_label ev = Ret label ->
  send_message (MessageEvent.client ev) p
    (GroupModerationAction.log_text format_2f ev result label) (Some "html"%string) e2
  = (Ret sent, e3) ->
  GroupModeration.send_warnings self = true ->
  calls (snd (GroupModerationAction.handle format_2f self (EMessage ev) w))
  = calls w1 ++ [GroupModerationAction.delete_call ev;
                 GroupModerationAction.log_call format_2f ev p result label;
                 GroupModerationAction.warning_call ev result].
Proof.
  intros Hmod Hdelete Hdel Hlogs Htruthy Hlabel Hsend Hwarn.
  unfold GroupModerationAction.handle.
  unfold bind at 1. rewrite Hmod, Hdelete.
  unfold bind at 1. rewrite ext_do_run, Hdel. cbn [fst snd].
  rewrite Hlogs, Htruthy, Hwarn.
  unfold bind at 1. unfold bind at 1. unfold pure at 1. rewrite Hlabel.
  unfold bind at 1. rewrite ext_do_run. cbn [ext calls]. rewrite Hsend. cbn [fst snd].
  unfold ret at 1, pure at 1. unfold bind. rewrite ext_do_run. cbn [fst snd calls ext].
  unfold GroupModerationAction.log_call, GroupModerationAction.warning_call,
    GroupModerationAction.delete_call.
  destruct (fst _); cbn [snd calls]; rewrite <- !app_assoc; reflexivity.
Qed.

End GroupActionFacts.

(** Witness of X13: the client cannot delete; the deletion is the only
    call on it. *)
Lemma group_handle_sends_only_after_delete_witness :
  calls (snd (DemoGroup.run DemoGroup.read_only_client))
  = [ModerateText "buy now"; DeleteMessage 0%nat (-42) 11].
Proof.
  pose proof (group_handle_sends_only_after_delete
                (BaseTelegramClient0 := DemoGroup.read_only_client)
                (BaseModerationModel0 := Demo.strict_model)
                (LocalMachine0 := Demo.no_files)
                DemoRouter.format_2f DemoGroup.handler DemoGroup.event Demo.flagged
                Demo.w0 (mkWorld tt [ModerateText "buy now"] ∅ false) eq_refl) as H.
  assert (Hdel : fst (delete_message (BaseTelegramClient := DemoGroup.read_only_client)
                        0%nat (-42) 11 tt) <> Ret true) by discriminate.
  specialize (H (or_intror Hdel)).
  vm_compute in H. vm_compute. exact H.
Defined.

(** Witness of X14. *)
Lemma group_handle_logs_then_warns_witness :
  map (fun c => match c with
                | SendMessage _ p _ _ => Some p
                | _ => None
                end) (calls (snd (DemoGroup.run Demo.reliable_client)))
  = [None; None; Some (PeerId 555); Some (PeerId (-42))].
Proof.
  pose proof (group_handle_logs_then_warns
                (BaseTelegramClient0 := Demo.reliable_client)
                (BaseModerationModel0 := Demo.strict_model)
                (LocalMachine0 := Demo.no_files)
                DemoRouter.format_2f DemoGroup.handler DemoGroup.event Demo.flagged
                Demo.w0 (mkWorld tt [ModerateText "buy now"] ∅ false)
                (PeerId 555) "text" tt tt (JDict [])
                eq_refl eq_refl eq_refl eq_refl eq_refl eq_refl eq_refl eq_refl) as H.
  unfold DemoGroup.run. rewrite H. vm_compute. reflexivity.
Defined.

(* ===================================================================== *)
(** * Further properties of the chat agent *)
(* ===================================================================== *)

(** X15.  With [max_history] at least 1, no run of calls lets a history
    grow past [max_history * 2] entries, whichever users call, whether the
    calls return, escalate or raise. *)
Theorem history_stays_bounded {Env : Type} `{!BaseChatModel Env}
    (self : Agent.ChatAgent) (inputs : list (string * Z)) (w : World Env) :
  1 <= Agent.max_history self ->
  (forall u, Z.of_nat (length (Agent.history_of w u)) <= Agent.max_history self * 2) ->
  forall u,
    Z.of_nat (length (Agent.history_of (Agent.run_calls self inputs w) u))
    <= Agent.max_history self * 2.
Proof.
  intros Hpos. revert w.
  induction inputs as [| [user_message user_id] rest IH]; intros w Hinv; [exact Hinv |].
  cbn [Agent.run_calls]. apply IH. now apply generate_response_bounded.
Qed.

(** Witness of X15: with [max_history=3], five answered questions leave
    at most six entries. *)
Lemma history_stays_bounded_witness :
  Z.of_nat (length (Agent.history_of
                      (Agent.run_calls (BaseChatModel0 := Demo.chat_model Demo.plain_answer)
                         DemoAgent3.agent DemoAgent3.five_questions Demo.w0) 7))
  <= 3 * 2.
Proof.
  apply (history_stays_bounded (BaseChatModel0 := Demo.chat_model Demo.plain_answer)
           DemoAgent3.agent DemoAgent3.five_questions Demo.w0).
  - simpl. lia.
  - intros u. unfold Agent.history_of. simpl. rewrite lookup_empty. simpl. lia.
Defined.

Section AgentMore.
Context {Env : Type} `{!BaseChatModel Env}.

(** X16.  A call touches the history of its own user only: whatever the
    flag and the outcome, every other user's history is as before. *)
Theorem generate_response_frame (self : Agent.ChatAgent) (user_message : string)
    (user_id other : Z) (clear_history : bool) (w : World Env) :
  other <> user_id ->
  _conversations (snd (Agent.generate_response self user_message user_id
                         clear_history w)) !! other
  = _conversations w !! other.
Proof.
  intros Hne.
  pose proof (generate_response_conversations self user_message user_id clear_history w)
    as H. cbv zeta in H.
  assert (Hbase : (if clear_history then <[user_id := []]> (_conversations w)
                   else _conversations w) !! other = _conversations w !! other).
  { destruct clear_history; [| reflexivity]. now rewrite lookup_insert_ne. }
  destruct (fst (Agent.generate_response self user_message user_id clear_history w))
    as [response | e]; rewrite H; [| exact Hbase].
  destruct (ChatResponse.should_escalate response); [exact Hbase |].
  now rewrite lookup_insert_ne.
Qed.





End AgentMore.

Lemma generate_response_frame_witness :
  _conversations
    (snd (Agent.generate_response (BaseChatModel0 := Demo.chat_model Demo.plain_answer)
            DemoAgent3.agent "hi" 8 true DemoAgent.w1)) !! 7
  = Some DemoAgent.one_exchange.
Proof.
  rewrite (generate_response_frame (BaseChatModel0 := Demo.chat_model Demo.plain_answer)
             DemoAgent3.agent "hi" 8 7 true DemoAgent.w1) by discriminate.
  reflexivity.
Defined.



(* ===================================================================== *)
(** * Further properties of the moderation service *)
(* ===================================================================== *)

Section OutcomeRaises.

Lemma oroe_ret {A} (a : A) : raises_Exception_only (Ret a).
Proof. intros e H. discriminate. Qed.

Lemma oroe_obind {A B} (o : outcome A) (k : A -> outcome B) :
  raises_Exception_only o -> (forall a, raises_Exception_only (k a)) ->
  raises_Exception_only (obind o k).
Proof.
  intros Ho Hk e H. destruct o as [a | e0]; simpl in H.
  - exact (Hk a e H).
  - injection H as <-. now apply Ho.
Qed.

Lemma oroe_py_get (d : json) (k : string) (dflt : json) :
  raises_Exception_only (py_get d k dflt).
Proof. intros e H. destruct d; inversion H; reflexivity. Qed.

Lemma oroe_py_getitem (d : json) (k : string) : raises_Exception_only (py_getitem d k).
Proof.
  intros e H. destruct d; try (inversion H; reflexivity).
  simpl in H. destruct (lookup_key k kvs); inversion H. reflexivity.
Qed.

Lemma oroe_as_str (j : json) : raises_Exception_only (as_str j).
Proof. intros e H. destruct j; inversion H; reflexivity. Qed.

Lemma oroe_str_receiver (j : json) : raises_Exception_only (str_receiver j).
Proof. intros e H. destruct j; inversion H; reflexivity. Qed.

Lemma oroe_get2 (d : json) (k1 k2 : string) (dflt : json) :
  raises_Exception_only (Router.get2 d k1 k2 dflt).
Proof.
  unfold Router.get2. apply oroe_obind; [apply oroe_py_get |].
  intros a. apply oroe_py_get.
Qed.

End OutcomeRaises.

Section ModerationMore.
Context {Env : Type} `{!BaseTelegramClient Env} `{!BaseModerationModel Env}
        `{!LocalMachine Env}.
Import RouterSpec.

Lemma read_local_raises_only (local_path : json) :
  Behaviour.machine_ok _ ->
  raises_only_Exception (Moderation.read_local local_path).
Proof.
  intros (Hexists & Hread & _). unfold Moderation.read_local.
  destruct (truthy local_path); [| apply roe_ret].
  apply roe_bind; [apply roe_pure, oroe_as_str |]. intros path.
  apply roe_bind; [apply roe_ext_do, Hexists |]. intros [|]; [| apply roe_ret].
  apply roe_bind; [apply roe_ext_do, Hread | intros b; apply roe_ret].
Qed.

(** The body of [_download_file] raises nothing but instances of
    [Exception]. *)
Ltac download_body Hcall Hmachine :=
  apply roe_bind; [apply roe_ext_do, Hcall |]; intros file_result;
  destruct (AsyncResult.error file_result); [apply roe_ret |];
  apply roe_bind; [apply roe_pure, oroe_get2 |]; intros local_path;
  apply roe_bind; [apply roe_pure, oroe_get2 |]; intros is_downloaded;
  destruct (negb (truthy local_path) || negb (truthy is_downloaded))%bool;
    [| now apply read_local_raises_only];
  apply roe_bind; [apply roe_ext_do, Hcall |]; intros download_result;
  destruct (AsyncResult.error download_result); [apply roe_ret |];
  apply roe_bind; [apply roe_pure, oroe_get2 |]; intros p;
  now apply read_local_raises_only.

(** X19.  With a client and a machine that raise nothing but instances of
    [Exception], [_download_file] always returns: every failure on the way
    comes out as [None]. *)
Theorem download_file_never_raises (client : client_ref) (file_id : json)
    (w : World Env) :
  Behaviour.client_ok _ ->
  Behaviour.machine_ok _ ->
  exists data, fst (Moderation._download_file client file_id w) = Ret data.
Proof.
  intros (_ & _ & _ & Hcall) Hmachine. unfold Moderation._download_file.
  apply try_except_returns. download_body Hcall Hmachine.
Qed.

(** X20.  A file TDLib reports as fetched is not downloaded again: after
    [getFile] the service goes straight to the local path, and returns the
    bytes it reads there. *)
Theorem download_file_uses_fetched_copy (client : client_ref) (file_id : json)
    (w : World Env) (info : AsyncResult.t) (path : string) (done : json)
    (bytes : list Byte.byte) (e1 e2 e3 : Env) :
  let get_file := CallMethod client "getFile" (JDict [("file_id"%string, file_id)]) in
  call_method client "getFile" (JDict [("file_id"%string, file_id)]) (ext w)
  = (Ret info, e1) ->
  AsyncResult.error info = false ->
  Router.get2 (AsyncResult.update info) "local" "path" (JStr "") = Ret (JStr path) ->
  str_truthy path = true ->
  Router.get2 (AsyncResult.update info) "local" "is_downloading_completed" (JBool false)
  = Ret done ->
  truthy done = true ->
  path_exists path e1 = (Ret true, e2) ->
  read_file path e2 = (Ret bytes, e3) ->
  Moderation._download_file client file_id w
  = (Ret (Some bytes),
     mkWorld e3 (calls w ++ [get_file; PathExists path; ReadFile path])
       (_conversations w) (_whisper_model w)).
Proof.
  intros get_file Hget Herr Hpath Htruthy Hdone Hdone' Hexists Hread.
  unfold Moderation._download_file, try_except.
  unfold bind at 1. rewrite ext_do_run, Hget. cbn [fst snd]. rewrite Herr.
  unfold bind at 1. unfold pure at 1. rewrite Hpath.
  unfold bind at 1. unfold pure at 1. rewrite Hdone.
  cbn [truthy]. rewrite Htruthy, Hdone'. cbn [negb orb].
  unfold Moderation.read_local. cbn [truthy]. rewrite Htruthy.
  unfold bind at 1. cbn [as_str pure].
  unfold bind at 1. rewrite ext_do_run. cbn [ext calls]. rewrite Hexists. cbn [fst snd].
  unfold bind at 1. rewrite ext_do_run. cbn [ext calls]. rewrite Hread. cbn [fst snd].
  unfold ret, pure. unfold get_file. now rewrite <- !app_assoc.
Qed.

Lemma transcribe_voice_raises_only (audio : list Byte.byte) :
  Behaviour.machine_ok _ ->
  raises_only_Exception (Moderation._transcribe_voice audio).
Proof.
  intros (_ & _ & Hload & Htrans). unfold Moderation._transcribe_voice.
  apply roe_try_except; [| intros e; apply roe_ret].
  apply roe_bind; [apply roe_get |]. intros w0.
  apply roe_bind.
  - destruct (negb (_whisper_model w0)); [| apply roe_ret].
    apply roe_bind; [apply roe_ext_do, Hload | intros _; apply roe_modify].
  - intros _. apply roe_bind; [apply roe_ext_do, Htrans |]. intros result.
    apply roe_bind.
    + apply roe_pure, oroe_obind; [apply oroe_py_getitem | intros a; apply oroe_str_receiver].
    + intros text. apply roe_bind; [apply roe_pure, oroe_py_get | intros _; apply roe_ret].
Qed.

Lemma download_file_raises_only (client : client_ref) (file_id : json) :
  Behaviour.client_ok _ ->
  Behaviour.machine_ok _ ->
  raises_only_Exception (Moderation._download_file client file_id).
Proof.
  intros (_ & _ & _ & Hcall) Hmachine. unfold Moderation._download_file.
  apply roe_try_except; [| intros e; apply roe_ret].
  download_body Hcall Hmachine.
Qed.

(** X21.  On a photo or a voice message [moderate_message] always
    returns, provided its collaborators raise nothing but instances of
    [Exception]: whatever fails on the way ends in a result. *)
Theorem media_moderation_never_raises (ev : MessageEvent.t) (m : MediaInfo.t)
    (w : World Env) :
  Behaviour.client_ok _ ->
  Behaviour.moderation_model_ok _ ->
  Behaviour.machine_ok _ ->
  MessageEvent.has_media ev = true ->
  MessageEvent.media ev = Some m ->
  MediaInfo.media_type m = "photo"%string
  \/ MediaInfo.media_type m = "voicenote"%string
  \/ MediaInfo.media_type m = "voice"%string ->
  exists result, fst (Moderation.moderate_message ev w) = Ret result.
Proof.
  intros Hclient (Htext & Himage & Hvoice) Hmachine Hhas Hmedia Htype.
  unfold Moderation.moderate_message. rewrite Hhas, Hmedia. cbn [negb andb].
  assert (Hphoto : exists result, fst (Moderation._moderate_photo ev w) = Ret result).
  { unfold Moderation._moderate_photo. apply try_except_returns.
    apply roe_bind; [unfold Moderation.media_of; rewrite Hmedia; apply roe_ret |].
    intros media. apply roe_bind; [now apply download_file_raises_only |].
    intros data. destruct (negb (Moderation.bytes_truthy data)).
    - destruct (Moderation.opt_str_truthy (MediaInfo.caption media)); [| apply roe_ret].
      apply roe_bind; [now apply roe_raise | intros _; apply roe_ext_do, Htext].
    - apply roe_ext_do, Himage. }
  assert (Hv : exists result, fst (Moderation._moderate_voice ev w) = Ret result).
  { unfold Moderation._moderate_voice. apply try_except_returns.
    apply roe_bind; [unfold Moderation.media_of; rewrite Hmedia; apply roe_ret |].
    intros media. apply roe_bind; [now apply download_file_raises_only |].
    intros data. destruct (negb (Moderation.bytes_truthy data)).
    - destruct (Moderation.opt_str_truthy (MediaInfo.caption media)); [| apply roe_ret].
      apply roe_ext_do, Htext.
    - apply roe_bind; [now apply transcribe_voice_raises_only |].
      intros t. destruct (negb (Moderation.opt_str_truthy t)); [apply roe_ret |].
      apply roe_ext_do, Hvoice. }
  destruct Htype as [-> | [-> | ->]]; cbn; assumption.
Qed.

(** X22.  A voice message that cannot be downloaded but has a caption is
    judged by its caption: the one call after the download is
    [moderate_text] on the caption -- Whisper is neither loaded nor
    asked -- and its verdict is the result. *)
Theorem voice_falls_back_to_caption (ev : MessageEvent.t) (m : MediaInfo.t)
    (data : option (list Byte.byte)) (c : string) (w w1 : World Env)
    (verdict : ModerationResult.t) (e2 : Env) :
  MessageEvent.has_media ev = true ->
  MessageEvent.media ev = Some m ->
  MediaInfo.media_type m = "voicenote"%string \/ MediaInfo.media_type m = "voice"%string ->
  Moderation._download_file (MessageEvent.client ev) (MediaInfo.file_id m) w = (Ret data, w1) ->
  Moderation.bytes_truthy data = false ->
  MediaInfo.caption m = Some c -> str_truthy c = true ->
  moderate_text c (ext w1) = (Ret verdict, e2) ->
  Moderation.moderate_message ev w
  = (Ret verdict,
     mkWorld e2 (calls w1 ++ [ModerateText c]) (_conversations w1) (_whisper_model w1)).
Proof.
  intros Hhas Hmedia Htype Hdl Hdata Hcap Hc Hverdict.
  unfold Moderation.moderate_message. rewrite Hhas, Hmedia. cbn [negb andb].
  assert (Hvoice : Moderation._moderate_voice ev w
                   = (Ret verdict,
                      mkWorld e2 (calls w1 ++ [ModerateText c]) (_conversations w1)
                        (_whisper_model w1))).
  { unfold Moderation._moderate_voice, try_except, bind, Moderation.media_of.
    rewrite Hmedia. simpl. rewrite Hdl, Hdata, Hcap. simpl. rewrite Hc.
    rewrite ext_do_run. simpl. rewrite Hverdict. reflexivity. }
  destruct Htype as [-> | ->]; cbn; exact Hvoice.
Qed.

(** X23.  The Whisper model is loaded on first use only: once
    [_whisper_model] is set a transcription calls Whisper without loading
    it, and a load that returned leaves [_whisper_model] set, also when the
    transcription after it fails. *)
Theorem whisper_loaded_once (audio : list Byte.byte) (w : World Env) :
  (_whisper_model w = true ->
   calls (snd (Moderation._transcribe_voice audio w)) = calls w ++ [Transcribe audio]
   /\ _whisper_model (snd (Moderation._transcribe_voice audio w)) = true)
  /\ (_whisper_model w = false ->
      forall e1, load_whisper (ext w) = (Ret tt, e1) ->
      calls (snd (Moderation._transcribe_voice audio w))
      = calls w ++ [LoadWhisper; Transcribe audio]
      /\ _whisper_model (snd (Moderation._transcribe_voice audio w)) = true).
Proof.
  unfold Moderation._transcribe_voice. rewrite try_except_store.
  split.
  - intros Hloaded.
    match goal with |- context [snd (?body w)] =>
      assert (H : exists e1, snd (body w)
                             = mkWorld e1 (calls w ++ [Transcribe audio]) (_conversations w) true)
    end.
    { unfold bind at 1. cbn [get]. rewrite Hloaded. cbn [negb].
      unfold bind at 1. cbn [ret pure]. unfold bind at 1. rewrite ext_do_run.
      destruct (transcribe audio (ext w)) as [[result | e] e1]; cbn [fst snd];
        [| exists e1; now rewrite Hloaded].
      unfold bind, pure, ret.
      destruct (let+ t := py_getitem result "text" in str_receiver t) as [t | e];
        [destruct (py_get result "language" (JStr "unknown")) |];
        cbn [snd]; exists e1; now rewrite Hloaded. }
    destruct H as [e1 ->]. split; reflexivity.
  - intros Hnot e1 Hload.
    match goal with |- context [snd (?body w)] =>
      assert (H : exists e2, snd (body w)
                             = mkWorld e2 (calls w ++ [LoadWhisper; Transcribe audio])
                                 (_conversations w) true)
    end.
    { unfold bind at 1. cbn [get]. rewrite Hnot. cbn [negb].
      unfold bind at 1. unfold bind at 1. rewrite ext_do_run, Hload. cbn [fst snd].
      unfold Moderation.set_whisper_model, modify. cbn [ext calls _conversations].
      unfold bind at 1. rewrite ext_do_run. cbn [ext calls _conversations _whisper_model].
      rewrite <- app_assoc. cbn [app].
      destruct (transcribe audio e1) as [[result | e] e2]; cbn [fst snd];
        [| exists e2; reflexivity].
      unfold bind, pure, ret.
      destruct (let+ t := py_getitem result "text" in str_receiver t) as [t | e];
        [destruct (py_get result "language" (JStr "unknown")) |];
        cbn [snd]; exists e2; reflexivity. }
    destruct H as [e2 ->]. split; reflexivity.
Qed.

(** X24.  Where there is nothing to check the service asks nobody: a
    message without media and without text, a video whatever its caption,
    and any media other than photo and voice that has no caption get
    "No content to moderate" with the store untouched. *)
Theorem moderate_message_nothing_to_check (ev : MessageEvent.t) (w : World Env) :
  (MessageEvent.has_media ev = false /\ MessageEvent.text ev = ""%string)
  \/ (MessageEvent.has_media ev = true /\
      exists m, MessageEvent.media ev = Some m /\
                (MediaInfo.media_type m = "video"%string
                 \/ (MediaInfo.media_type m <> "photo"%string
                     /\ MediaInfo.media_type m <> "voicenote"%string
                     /\ MediaInfo.media_type m <> "voice"%string
                     /\ Moderation.opt_str_truthy (MediaInfo.caption m) = false))) ->
  Moderation.moderate_message ev w
  = (Ret (ModerationResult.neutral "No content to moderate"), w).
Proof.
  unfold Moderation.moderate_message.
  intros [[Hhas Htext] | (Hhas & m & Hmedia & Hkind)]; rewrite Hhas.
  - rewrite Htext. reflexivity.
  - rewrite Hmedia. cbn [negb andb].
    destruct Hkind as [-> | (Hp & Hvn & Hv & Hcap)]; [reflexivity |].
    apply String.eqb_neq in Hp, Hvn, Hv. rewrite Hp, Hvn, Hv, Hcap.
    destruct (String.eqb _ "video"); reflexivity.
Qed.

End ModerationMore.

Lemma no_files_ok : Behaviour.machine_ok Demo.no_files.
Proof. repeat split; intros; intros w e w' H; inversion H; reflexivity. Qed.

Lemma disk_ok : Behaviour.machine_ok DemoFiles.disk.
Proof. repeat split; intros; intros w e w' H; discriminate. Qed.

Lemma strict_model_ok : Behaviour.moderation_model_ok Demo.strict_model.
Proof. repeat split; intros; intros w e w' H; discriminate. Qed.

Lemma file_client_ok : Behaviour.client_ok DemoFiles.file_client.
Proof. repeat split; intros; intros w e w' H; discriminate. Qed.

(** Witness of X19: TDLib answers [getFile] with an error and the machine
    has no files; the download returns. *)
Lemma download_file_never_raises_witness :
  exists data,
    fst (Moderation._download_file (BaseTelegramClient0 := Demo.reliable_client)
           (LocalMachine0 := Demo.no_files) 0%nat (JInt 1234) Demo.w0) = Ret data.
Proof.
  exact (download_file_never_raises (BaseTelegramClient0 := Demo.reliable_client)
           (LocalMachine0 := Demo.no_files) 0%nat (JInt 1234) Demo.w0
           (demo_client_ok _) no_files_ok).
Defined.

(** Witness of X20: the file is on disk already; three calls, none of them
    [downloadFile]. *)
Lemma download_file_uses_fetched_copy_witness :
  Moderation._download_file (BaseTelegramClient0 := DemoFiles.file_client)
    (LocalMachine0 := DemoFiles.disk) 0%nat (JInt 77) Demo.w0
  = (Ret (Some DemoFiles.jpeg),
     mkWorld tt
       [CallMethod 0%nat "getFile" (JDict [("file_id"%string, JInt 77)]);
        PathExists "/tmp/a.jpg"; ReadFile "/tmp/a.jpg"] ∅ false).
Proof.
  exact (download_file_uses_fetched_copy (BaseTelegramClient0 := DemoFiles.file_client)
           (LocalMachine0 := DemoFiles.disk) 0%nat (JInt 77) Demo.w0
           (AsyncResult.mk false JNull DemoFiles.fetched_file) "/tmp/a.jpg" (JBool true)
           DemoFiles.jpeg tt tt tt
           eq_refl eq_refl eq_refl eq_refl eq_refl eq_refl eq_refl eq_refl).
Defined.

(** Witness of X21: a voice note whose file is read and whose
    transcription is flagged. *)
Lemma media_moderation_never_raises_witness :
  exists result,
    fst (Moderation.moderate_message (BaseTelegramClient0 := DemoFiles.file_client)
           (BaseModerationModel0 := Demo.strict_model) (LocalMachine0 := DemoFiles.disk)
           (DemoFiles.voice_event "listen") Demo.w0) = Ret result.
Proof.
  exact (media_moderation_never_raises (BaseTelegramClient0 := DemoFiles.file_client)
           (BaseModerationModel0 := Demo.strict_model) (LocalMachine0 := DemoFiles.disk)
           (DemoFiles.voice_event "listen") (DemoFiles.voice "listen") Demo.w0
           file_client_ok strict_model_ok disk_ok eq_refl eq_refl
           (or_intror (or_introl eq_refl))).
Defined.

(** Witness of X22: the download of a voice note fails, its caption
    "buy now" is flagged. *)
Lemma voice_falls_back_to_caption_witness :
  Moderation.moderate_message (BaseTelegramClient0 := Demo.reliable_client)
    (BaseModerationModel0 := Demo.strict_model) (LocalMachine0 := Demo.no_files)
    (DemoFiles.voice_event "buy now") Demo.w0
  = (Ret Demo.flagged,
     mkWorld tt
       [CallMethod 0%nat "getFile" (JDict [("file_id"%string, JInt 77)]);
        ModerateText "buy now"] ∅ false).
Proof.
  exact (voice_falls_back_to_caption (BaseTelegramClient0 := Demo.reliable_client)
           (BaseModerationModel0 := Demo.strict_model) (LocalMachine0 := Demo.no_files)
           (DemoFiles.voice_event "buy now") (DemoFiles.voice "buy now") None "buy now"
           Demo.w0
           (mkWorld tt [CallMethod 0%nat "getFile" (JDict [("file_id"%string, JInt 77)])]
              ∅ false)
           Demo.flagged tt
           eq_refl eq_refl (or_introl eq_refl) eq_refl eq_refl eq_refl eq_refl eq_refl).
Defined.

(** Witness of X23: the first transcription loads Whisper, then asks it. *)
Lemma whisper_loaded_once_witness :
  calls (snd (Moderation._transcribe_voice (LocalMachine0 := DemoFiles.disk)
                DemoFiles.jpeg Demo.w0))
  = [LoadWhisper; Transcribe DemoFiles.jpeg]
  /\ _whisper_model (snd (Moderation._transcribe_voice (LocalMachine0 := DemoFiles.disk)
                            DemoFiles.jpeg Demo.w0)) = true.
Proof.
  exact (proj2 (whisper_loaded_once (LocalMachine0 := DemoFiles.disk) DemoFiles.jpeg Demo.w0)
           eq_refl tt eq_refl).
Defined.

(** Witness of X24: a video with a caption is not looked at. *)
Lemma moderate_message_nothing_to_check_witness :
  Moderation.moderate_message (BaseTelegramClient0 := Demo.reliable_client)
    (BaseModerationModel0 := Demo.strict_model) (LocalMachine0 := Demo.no_files)
    DemoFiles.video_event Demo.w0
  = (Ret (ModerationResult.neutral "No content to moderate"), Demo.w0).
Proof.
  apply (moderate_message_nothing_to_check (BaseTelegramClient0 := Demo.reliable_client)
           (BaseModerationModel0 := Demo.strict_model) (LocalMachine0 := Demo.no_files)
           DemoFiles.video_event Demo.w0).
  right. split; [reflexivity |].
  exists (MediaInfo.init "video" "watch this"). split; [reflexivity | left; reflexivity].
Defined.

(* ===================================================================== *)
(** * Further properties of the knowledge base *)
(* ===================================================================== *)

Section KBMore.
Context {Char : Type} {Env : Type} `{!KB.VectorStore (Char := Char) Env}
        `{!KB.TextSource (Char := Char) Env}.

(** X25.  [build_index] indexes nothing: whatever the flag, the store and
    the source, it asks the store at most whether it exists, for its count
    and to clear itself -- it never reads the source and never calls
    [add] -- and it returns only by skipping the build, with the count of
    a store that has documents; every other call raises. *)
Theorem build_index_never_adds (fuel : nat) (self : KB.KnowledgeBase)
    (force_rebuild : bool) (tw : Traced KB.kb_call Env) :
  let run := KB.build_index fuel self force_rebuild tw in
  (exists cs, trace (snd run) = trace tw ++ cs
              /\ forall c, c ∈ cs ->
                   c = KB.StoreExists \/ c = KB.StoreCount \/ c = KB.StoreClear)
  /\ (forall r, fst run = Ret r ->
        force_rebuild = false
        /\ KB.store_exists (inner tw) = true
        /\ r = Some (KB.store_count (inner tw))
        /\ inner (snd run) = inner tw).
Proof.
  destruct force_rebuild; cbv zeta.
  - unfold KB.build_index. cbn [negb]. unfold bind, ret, pure, raise.
    rewrite call_run. cbn [inner trace].
    destruct (KB.store_clear (inner tw)) as [[[] | e] env']; cbn [fst snd trace].
    + split; [| intros r Hr; discriminate].
      exists [KB.StoreClear]. split; [reflexivity |].
      intros c Hc. apply list_elem_of_singleton in Hc. auto.
    + split; [| intros r Hr; discriminate].
      exists [KB.StoreClear]. split; [reflexivity |].
      intros c Hc. apply list_elem_of_singleton in Hc. auto.
  - rewrite build_index_without_force.
    destruct (KB.store_exists (inner tw)); cbn [fst snd trace inner].
    + split.
      * exists [KB.StoreExists; KB.StoreCount]. split; [reflexivity |].
        intros c Hc. apply elem_of_cons in Hc as [-> | Hc]; [auto |].
        apply list_elem_of_singleton in Hc. auto.
      * intros r Hr. injection Hr as <-. auto.
    + split; [| intros r Hr; discriminate].
      exists [KB.StoreExists]. split; [reflexivity |].
      intros c Hc. apply list_elem_of_singleton in Hc. auto.
Qed.

(** With an overlap that is not smaller than the window, the loop of
    [_chunk_texts] that has a window before the end of the text in front
    of it never gets past it. *)
Lemma chunk_loop_never_ends (fuel : nat) (self : KB.KnowledgeBase) (idx : Z)
    (txt : list Char) (start chunk_idx : Z) :
  KB.chunk_size self <= KB.chunk_overlap self ->
  start < Z.of_nat (length txt) ->
  start + KB.chunk_size self < Z.of_nat (length txt) ->
  KB.chunk_loop fuel self idx txt start chunk_idx = None.
Proof.
  intros Hstride. revert start chunk_idx.
  induction fuel as [| fuel IH]; intros start chunk_idx Hstart Hwindow; [reflexivity |].
  cbn [KB.chunk_loop].
  destruct (Z.ltb_spec start (Z.of_nat (length txt))) as [_ | Hge]; [| lia].
  rewrite Z.min_l by lia.
  destruct (Z.eqb_spec (start + KB.chunk_size self) (Z.of_nat (length txt))) as [Heq | _];
    [lia |].
  rewrite IH by lia. reflexivity.
Qed.

(** X26.  With [chunk_overlap >= chunk_size], [_chunk_texts] does not
    terminate as soon as one of the texts is longer than [chunk_size]: the
    loop is still running after any number of iterations. *)
Theorem chunk_texts_never_ends (fuel : nat) (self : KB.KnowledgeBase)
    (texts : list (list Char)) (txt : list Char) :
  KB.chunk_size self <= KB.chunk_overlap self ->
  txt ∈ texts ->
  txt <> [] ->
  KB.chunk_size self < Z.of_nat (length txt) ->
  KB._chunk_texts fuel self texts = None.
Proof.
  intros Hstride Hin Hne Hlong. unfold KB._chunk_texts. generalize 0 as idx.
  induction texts as [| t rest IH]; intros idx; [now apply elem_of_nil in Hin |].
  cbn [KB.chunk_texts_from].
  apply elem_of_cons in Hin as [<- | Hin].
  - rewrite chunk_loop_never_ends; [reflexivity | exact Hstride | | lia].
    destruct txt; [congruence | cbn [length]; lia].
  - destruct (KB.chunk_loop fuel self idx t 0 0); [| reflexivity].
    now rewrite (IH Hin).
Qed.

End KBMore.

(** Witness of X26: windows of 4 with an overlap of 4 on a text of 8
    characters. *)
Lemma chunk_texts_never_ends_witness :
  KB._chunk_texts 1000 DemoChunks.stalled [DemoChunks.alphabet] = None.
Proof.
  apply (chunk_texts_never_ends 1000 DemoChunks.stalled [DemoChunks.alphabet]
           DemoChunks.alphabet).
  - simpl. lia.
  - apply list_elem_of_here.
  - discriminate.
  - simpl. lia.
Defined.

(* ===================================================================== *)
(** * Properties of the TDLib client *)
(* ===================================================================== *)

Lemma fromkeys_from (l acc : list Z) :
  let add_key := fun (keys : list Z) (k : Z) =>
                   if bool_decide (k ∈ keys) then keys else keys ++ [k] in
  NoDup acc ->
  NoDup (fold_left add_key l acc)
  /\ (length (fold_left add_key l acc) <= length acc + length l)%nat
  /\ (exists more, fold_left add_key l acc = acc ++ more)
  /\ (forall x, x ∈ fold_left add_key l acc <-> x ∈ acc \/ x ∈ l).
Proof.
  intros add_key. revert acc. induction l as [| k l IH]; intros acc Hacc; cbn [fold_left].
  - split; [exact Hacc |]. split; [lia |]. split; [exists []; now rewrite app_nil_r |].
    intros x. rewrite elem_of_nil. tauto.
  - assert (Hcase : add_key acc k = acc /\ k ∈ acc
                    \/ add_key acc k = acc ++ [k] /\ k ∉ acc).
    { unfold add_key. case_bool_decide; auto. }
    destruct Hcase as [[-> Hk] | [-> Hk]].
    + destruct (IH acc Hacc) as (Hnd & Hlen & Hmore & Hin).
      split; [exact Hnd |]. split; [cbn [length]; lia |]. split; [exact Hmore |].
      intros x. rewrite Hin, elem_of_cons.
      split; [tauto |]. intros [Hx | [-> | Hx]]; tauto.
    + assert (Hnext : NoDup (acc ++ [k])).
      { apply NoDup_app. split; [exact Hacc |]. split; [| apply NoDup_singleton].
        intros x Hx Hx'. apply list_elem_of_singleton in Hx'. now subst. }
      destruct (IH _ Hnext) as (Hnd & Hlen & [more Hmore] & Hin).
      split; [exact Hnd |]. split; [| split].
      * rewrite length_app in Hlen. cbn [length] in *. lia.
      * exists ([k] ++ more). rewrite Hmore. now rewrite <- app_assoc.
      * intros x. rewrite Hin, elem_of_cons, elem_of_app, list_elem_of_singleton. tauto.
Qed.

Lemma fromkeys_spec (k : Z) (l : list Z) :
  NoDup (TDLib.fromkeys (k :: l))
  /\ (length (TDLib.fromkeys (k :: l)) <= S (length l))%nat
  /\ head (TDLib.fromkeys (k :: l)) = Some k
  /\ (forall x, x ∈ TDLib.fromkeys (k :: l) <-> x ∈ k :: l).
Proof.
  unfold TDLib.fromkeys. cbn [fold_left]. rewrite bool_decide_eq_false_2 by apply not_elem_of_nil.
  cbn [app].
  destruct (fromkeys_from l [k]) as (Hnd & Hlen & [more Hmore] & Hin);
    [apply NoDup_singleton |].
  split; [exact Hnd |]. split; [exact Hlen |]. split.
  - now rewrite Hmore.
  - intros x. rewrite Hin, list_elem_of_singleton, elem_of_cons. tauto.
Qed.

(** [int] reads the supergroup form of every id. *)
Lemma py_int_supergroup_form (n : Z) :
  0 <= n ->
  exists u, TDLib.py_int ("-100" ++ str_of_int n) = Ret (Z.of_int (Decimal.Neg (Decimal.D1 (Decimal.D0 (Decimal.D0 u)))))
            /\ str_of_int n = NilEmpty.string_of_uint u.
Proof.
  intros Hn. unfold str_of_int, TDLib.py_int.
  assert (Hu : exists u, Z.to_int n = Decimal.Pos u /\ u <> Decimal.Nil).
  { destruct n as [| q | q]; [| | lia].
    - exists (Decimal.D0 Decimal.Nil). split; [reflexivity | discriminate].
    - exists (Pos.to_uint q). split; [reflexivity |].
      apply DecimalPos.Unsigned.to_uint_nonnil. }
  destruct Hu as (u & -> & Hnil). exists u.
  assert (Hs : NilZero.string_of_int (Decimal.Pos u) = NilEmpty.string_of_uint u).
  { destruct u; [congruence | reflexivity ..]. }
  rewrite Hs. split; [| reflexivity].
  change (String.append "-100" (NilEmpty.string_of_uint u))
    with (String "-" (String "1" (String "0" (String "0" (NilEmpty.string_of_uint u))))).
  simpl. rewrite NilEmpty.usu. reflexivity.
Qed.

Lemma id_variants_returns (peer_id : Z) :
  exists ids, TDLib.id_variants peer_id = Ret ids
              /\ head ids = Some peer_id
              /\ NoDup ids
              /\ (length ids <= 4)%nat.
Proof.
  unfold TDLib.id_variants.
  destruct (negb (startswith (str_of_int (Z.abs peer_id)) "100")).
  - destruct (py_int_supergroup_form (Z.abs peer_id)) as (u & -> & _); [lia |].
    cbn [obind].
    match goal with |- context [TDLib.fromkeys (?k :: ?l)] =>
      destruct (fromkeys_spec k l) as (Hnd & Hlen & Hhead & _) end.
    eexists. split; [reflexivity |]. auto.
  - cbn [obind].
    match goal with |- context [TDLib.fromkeys (?k :: ?l)] =>
      destruct (fromkeys_spec k l) as (Hnd & Hlen & Hhead & _) end.
    eexists. split; [reflexivity |]. auto.
Qed.

Section TDLibFacts.
Context {Env : Type} {Telegram0 : TDLib.Telegram Env}.
Import RouterSpec.

Lemma lib_do_run {A} (c : TDLib.lib_call) (m : M Env A) (s : TDLib.State Env) :
  TDLib.lib_do c m s
  = (fst (m (TDLib.lib s)),
     TDLib.mkState (snd (m (TDLib.lib s))) (TDLib.client s) (TDLib.lib_calls s ++ [c])).
Proof. unfold TDLib.lib_do. destruct (m (TDLib.lib s)). reflexivity. Qed.

Lemma client_call_method_run (method : string) (params : json) (s : TDLib.State Env) :
  TDLib.client s = true ->
  TDLib.client_call_method method params s
  = (fst (TDLib.lib_call_method method params (TDLib.lib s)),
     TDLib.mkState (snd (TDLib.lib_call_method method params (TDLib.lib s))) true
       (TDLib.lib_calls s ++ [TDLib.LibCall method params])).
Proof.
  intros Hc. unfold TDLib.client_call_method, bind, get. rewrite Hc, lib_do_run.
  now rewrite Hc.
Qed.

(** The loop over the variants asks until the first known id. *)
Lemma try_variants_run (known : Z -> bool) (ids : list Z) (s : TDLib.State Env) :
  TDLibSpec.answers_by_id known ->
  TDLib.client s = true ->
  exists e',
    TDLib.try_variants ids s
    = (Ret (from_option JInt JNull (List.find known ids)),
       TDLib.mkState e' true
         (TDLib.lib_calls s ++ map TDLibSpec.get_chat_call (TDLibSpec.asked known ids))).
Proof.
  intros Hknown. revert s. induction ids as [| chat_id rest IH]; intros s Hc.
  - exists (TDLib.lib s). cbn. rewrite app_nil_r. destruct s; cbn in *. now subst.
  - cbn [TDLib.try_variants List.find TDLibSpec.asked map]. unfold bind at 1.
    rewrite client_call_method_run by exact Hc.
    destruct (Hknown chat_id (TDLib.lib s)) as (r & e1 & Hcall & Herr).
    rewrite Hcall. cbn [fst snd]. rewrite Herr, negb_involutive.
    destruct (known chat_id).
    + exists e1. reflexivity.
    + destruct (IH (TDLib.mkState e1 true
                      (TDLib.lib_calls s ++ [TDLib.LibCall "getChat" (TDLib.get_chat_params chat_id)])))
        as [e' He']; [reflexivity |].
      exists e'. rewrite He'. cbn [TDLib.lib_calls]. now rewrite <- app_assoc.
Qed.

Lemma resolve_numeric_run (known : Z -> bool) (peer_id : Z) (s : TDLib.State Env) :
  TDLibSpec.answers_by_id known ->
  TDLib.client s = true ->
  exists ids e',
    TDLib.id_variants peer_id = Ret ids
    /\ TDLib._resolve_peer (PeerId peer_id) s
       = (Ret (from_option JInt JNull (List.find known ids)),
          TDLib.mkState e' true
            (TDLib.lib_calls s ++ map TDLibSpec.get_chat_call (TDLibSpec.asked known ids))).
Proof.
  intros Hknown Hc.
  destruct (id_variants_returns peer_id) as (ids & Hids & _).
  destruct (try_variants_run known ids s Hknown Hc) as [e' Hrun].
  exists ids, e'. split; [exact Hids |].
  unfold TDLib._resolve_peer, bind at 1, get. rewrite Hc. cbn [negb].
  unfold TDLib._resolve_numeric, bind, pure. rewrite Hids. exact Hrun.
Qed.

(** X27.  A numeric peer is resolved to the first of its formats TDLib
    knows: the id itself first, then at most three others, none of them
    asked twice, and no question after the first answer without error;
    [None] when TDLib knows none. *)
Theorem resolve_peer_first_known (known : Z -> bool) (peer_id : Z)
    (s : TDLib.State Env) :
  TDLibSpec.answers_by_id known ->
  TDLib.client s = true ->
  exists ids,
    TDLib.id_variants peer_id = Ret ids
    /\ head ids = Some peer_id
    /\ NoDup ids
    /\ (length ids <= 4)%nat
    /\ fst (TDLib._resolve_peer (PeerId peer_id) s)
       = Ret (from_option JInt JNull (List.find known ids))
    /\ TDLib.lib_calls (snd (TDLib._resolve_peer (PeerId peer_id) s))
       = TDLib.lib_calls s ++ map TDLibSpec.get_chat_call (TDLibSpec.asked known ids).
Proof.
  intros Hknown Hc.
  destruct (resolve_numeric_run known peer_id s Hknown Hc) as (ids & e' & Hids & Hrun).
  destruct (id_variants_returns peer_id) as (ids' & Hids' & Hhead & Hnd & Hlen).
  rewrite Hids in Hids'. injection Hids' as <-.
  exists ids. rewrite Hrun. auto 10.
Qed.

End TDLibFacts.

Section TDLibSend.
Context {Env : Type} {Telegram0 : TDLib.Telegram Env}.
Import RouterSpec.




Lemma find_known_none (known : Z -> bool) (ids : list Z) :
  (forall chat_id, known chat_id = false) -> List.find known ids = None.
Proof.
  intros Hnone. induction ids as [| chat_id rest IH]; [reflexivity |].
  cbn [List.find]. now rewrite Hnone.
Qed.


Lemma roe_lib_do {A} (c : TDLib.lib_call) (m : M Env A) :
  raises_only_Exception m -> raises_only_Exception (TDLib.lib_do c m).
Proof.
  intros Hm s e s' Hraise. rewrite lib_do_run in Hraise.
  destruct (m (TDLib.lib s)) as [o e1] eqn:Hrun. cbn [fst snd] in Hraise.
  injection Hraise as -> _. exact (Hm _ _ _ Hrun).
Qed.

Lemma roe_client_call_method (method : string) (params : json) :
  TDLibSpec.lib_ok -> raises_only_Exception (TDLib.client_call_method method params).
Proof.
  intros (_ & _ & _ & Hcall). unfold TDLib.client_call_method.
  apply roe_bind; [apply roe_get |]. intros self.
  destruct (TDLib.client self); [apply roe_lib_do, Hcall | now apply roe_raise].
Qed.

Lemma roe_try_variants (ids : list Z) :
  TDLibSpec.lib_ok -> raises_only_Exception (TDLib.try_variants ids).
Proof.
  intros Hlib. induction ids as [| chat_id rest IH]; cbn [TDLib.try_variants];
    [apply roe_ret |].
  apply roe_bind; [now apply roe_client_call_method |]. intros result.
  destruct (negb (AsyncResult.error result)); [apply roe_ret | exact IH].
Qed.

Lemma roe_resolve_peer (p : peer) :
  TDLibSpec.lib_ok -> raises_only_Exception (TDLib._resolve_peer p).
Proof.
  intros Hlib. unfold TDLib._resolve_peer.
  apply roe_bind; [apply roe_get |]. intros self.
  destruct (negb (TDLib.client self)); [apply roe_ret |].
  assert (Hnum : forall z, raises_only_Exception (TDLib._resolve_numeric (Ret z))).
  { intros z. cbn [TDLib._resolve_numeric].
    apply roe_bind; [| intros ids; now apply roe_try_variants].
    intros s0 e s' Hraise. apply pure_inv in Hraise as [Hraise _].
    destruct (id_variants_returns z) as (ids & Hids & _). congruence. }
  destruct p as [peer_id | name]; [apply Hnum |].
  destruct (negb (TDLib.isdigit (TDLib.lstrip_char "-" name))).
  - apply roe_bind; [now apply roe_client_call_method |]. intros result.
    destruct (negb (AsyncResult.error result)); [| apply roe_ret].
    apply roe_pure, oroe_py_get.
  - unfold TDLib.py_int. destruct (NilZero.int_of_string name); [apply Hnum |].
    cbn [TDLib._resolve_numeric]. apply roe_ret.
Qed.

(** X29.  With a library that raises nothing but instances of
    [Exception], [start], [_send], [delete_message] and [get_user] always
    return: what fails inside them comes out as [False] or [None]. *)
Theorem client_methods_never_raise (s : TDLib.State Env) :
  TDLibSpec.lib_ok ->
  (exists started, fst (TDLib.start s) = Ret started)
  /\ (forall chat_id text parse_mode message_thread_id,
        exists sent, fst (TDLib._send chat_id text parse_mode message_thread_id s) = Ret sent)
  /\ (forall chat_id message_id revoke,
        exists deleted, fst (TDLib.delete_message chat_id message_id revoke s) = Ret deleted)
  /\ (forall user_peer, exists user, fst (TDLib.get_user user_peer s) = Ret user).
Proof.
  intros Hlib. pose proof Hlib as (Hnew & Hlogin & _ & _).
  split; [| split; [| split]].
  - unfold TDLib.start. apply try_except_returns.
    apply roe_bind; [now apply roe_lib_do |]. intros _.
    apply roe_bind; [apply roe_modify |]. intros _.
    apply roe_bind; [now apply roe_lib_do | intros _; apply roe_ret].
  - intros chat_id text parse_mode message_thread_id.
    unfold TDLib._send. apply try_except_returns.
    apply roe_bind.
    + unfold TDLib._parse_text. destruct parse_mode as [mode |]; [| apply roe_ret].
      destruct (str_truthy mode); [| apply roe_ret].
      apply roe_bind; [now apply roe_client_call_method |]. intros r.
      destruct (negb (AsyncResult.error r)); apply roe_ret.
    + intros content. apply roe_bind; [now apply roe_client_call_method |].
      intros r. destruct (AsyncResult.error r); apply roe_ret.
  - intros chat_id message_id revoke. unfold TDLib.delete_message, bind at 1, get.
    destruct (negb (TDLib.client s)); [eexists; reflexivity |].
    apply try_except_returns.
    apply roe_bind; [now apply roe_client_call_method |].
    intros r. destruct (AsyncResult.error r); apply roe_ret.
  - intros user_peer. unfold TDLib.get_user, bind at 1, get.
    destruct (negb (TDLib.client s)); [eexists; reflexivity |].
    apply try_except_returns.
    apply roe_bind; [now apply roe_resolve_peer |]. intros user_id.
    assert (Hcall : raises_only_Exception
                      (let* result :=
                         TDLib.client_call_method "getUser"
                           (JDict [("user_id"%string, user_id)]) in
                       if AsyncResult.error result then ret JNull
                       else ret (AsyncResult.update result))).
    { apply roe_bind; [now apply roe_client_call_method |].
      intros r. destruct (AsyncResult.error r); apply roe_ret. }
    destruct user_id; first [apply roe_ret | exact Hcall].
Qed.

End TDLibSend.

(** Witness of X27: of the formats of 42 only the basic group -42 is
    known; it is found at the second question. *)
Lemma resolve_peer_first_known_witness :
  exists ids,
    TDLib.id_variants 42 = Ret ids
    /\ head ids = Some 42
    /\ NoDup ids
    /\ (length ids <= 4)%nat
    /\ fst (TDLib._resolve_peer (Telegram0 := DemoTDLib.library DemoTDLib.group_only false)
              (PeerId 42) DemoTDLib.started)
       = Ret (from_option JInt JNull (List.find DemoTDLib.group_only ids))
    /\ TDLib.lib_calls
         (snd (TDLib._resolve_peer (Telegram0 := DemoTDLib.library DemoTDLib.group_only false)
                 (PeerId 42) DemoTDLib.started))
       = TDLib.lib_calls DemoTDLib.started
         ++ map TDLibSpec.get_chat_call (TDLibSpec.asked DemoTDLib.group_only ids).
Proof.
  apply (resolve_peer_first_known (Telegram0 := DemoTDLib.library DemoTDLib.group_only false)
           DemoTDLib.group_only 42 DemoTDLib.started).
  - intros chat_id e. eexists _, _. split; reflexivity.
  - reflexivity.
Defined.


Lemma demo_library_ok (known : Z -> bool) (login_fails : bool) :
  TDLibSpec.lib_ok (Telegram0 := DemoTDLib.library known login_fails).
Proof.
  split; [| split; [| split]].
  - intros s e s' Hraise. discriminate.
  - intros s e s' Hraise. cbn in Hraise. destruct login_fails; [| discriminate].
    inversion Hraise. reflexivity.
  - intros s e s' Hraise. discriminate.
  - intros method params s e s' Hraise. cbn in Hraise.
    destruct (String.eqb method "getChat"); [| discriminate].
    destruct params as [| | | | | [| [k [| | c | | |]] [|]]]; discriminate.
Qed.

(** Witness of X29: the login fails, [start] returns. *)
Lemma client_methods_never_raise_witness :
  exists started,
    fst (TDLib.start (Telegram0 := DemoTDLib.library DemoTDLib.group_only true)
           DemoTDLib.fresh) = Ret started.
Proof.
  exact (proj1 (client_methods_never_raise
                  (Telegram0 := DemoTDLib.library DemoTDLib.group_only true)
                  DemoTDLib.fresh (demo_library_ok _ _))).
Defined.

(* ===================================================================== *)
(** * Properties of the client manager *)
(* ===================================================================== *)

Section ManagerFacts.
Context {Env Client : Type} {ManagedClients0 : ClientManager.ManagedClients Env Client}.

Lemma get_client_app (name : string) (l1 l2 : list (string * Client)) :
  ClientManager.get_client name (l1 ++ l2)
  = match ClientManager.get_client name l1 with
    | Some c => Some c
    | None => ClientManager.get_client name l2
    end.
Proof.
  unfold ClientManager.get_client.
  induction l1 as [| [n c] l1 IH]; cbn [app List.find fst]; [reflexivity |].
  destruct (String.eqb n name); [reflexivity | exact IH].
Qed.

Lemma contains_spec (name : string) (l : list (string * Client)) :
  (ClientManager.contains name l = true ->
   name ∈ map fst l /\ exists c, ClientManager.get_client name l = Some c)
  /\ (ClientManager.contains name l = false -> name ∉ map fst l).
Proof.
  unfold ClientManager.contains, ClientManager.get_client.
  induction l as [| [n c] l [IHt IHf]]; cbn [existsb List.find map fst].
  - split; [discriminate | intros _; apply not_elem_of_nil].
  - destruct (String.eqb_spec n name) as [-> | Hne]; cbn [orb].
    + split; [| discriminate]. intros _. split; [apply list_elem_of_here | eauto].
    + split.
      * intros Hc. destruct (IHt Hc) as [Hin Hget].
        split; [now apply list_elem_of_further | exact Hget].
      * intros Hc. rewrite not_elem_of_cons. split; [congruence | now apply IHf].
Qed.

Lemma add_all_from (adds acc : list (string * Client)) :
  NoDup (map fst acc) ->
  let self :=
    fold_left (fun self item => ClientManager.add_client (fst item) (snd item) self)
      adds acc in
  NoDup (map fst self)
  /\ forall name, ClientManager.get_client name self
                  = ClientManager.get_client name (acc ++ adds).
Proof.
  revert acc. induction adds as [| [n c] adds IH]; intros acc Hacc; cbn [fold_left fst snd].
  - rewrite app_nil_r. auto.
  - unfold ClientManager.add_client at 2 4.
    destruct (contains_spec n acc) as [Hthere Hfresh].
    destruct (ClientManager.contains n acc).
    + destruct (Hthere eq_refl) as [_ [c0 Hc0]].
      destruct (IH acc Hacc) as [Hnd Hget]. split; [exact Hnd |].
      intros name. cbv zeta in Hget. rewrite Hget, !get_client_app.
      destruct (ClientManager.get_client name acc) eqn:Hname; [reflexivity |].
      unfold ClientManager.get_client at 2. cbn [List.find fst].
      destruct (String.eqb_spec n name) as [-> | _]; [congruence | reflexivity].
    + assert (Hnext : NoDup (map fst (acc ++ [(n, c)]))).
      { rewrite map_app. apply NoDup_app. split; [exact Hacc |].
        split; [| apply NoDup_singleton].
        intros x Hx Hx'. apply list_elem_of_singleton in Hx'. subst.
        now apply (Hfresh eq_refl). }
      destruct (IH _ Hnext) as [Hnd Hget]. split; [exact Hnd |].
      intros name. cbv zeta in Hget. rewrite Hget. now rewrite <- app_assoc.
Qed.

Lemma start_all_run (self : list (string * Client)) (tw : Traced ClientManager.manager_call Env) :
  ClientManagerSpec.start_returns ->
  fst (ClientManager.start_all self tw) = Ret tt
  /\ trace (snd (ClientManager.start_all self tw))
     = trace tw ++ map (fun item => ClientManager.Start (fst item)) self.
Proof.
  intros Hstart. revert tw. induction self as [| [n c] self IH]; intros tw.
  - cbn. now rewrite app_nil_r.
  - cbn [ClientManager.start_all map fst]. unfold bind. rewrite call_run.
    destruct (Hstart c (inner tw)) as (b & e' & ->). cbn [fst snd].
    destruct (IH (mkTraced e' (trace tw ++ [ClientManager.Start n]))) as [Hret Htrace].
    split; [exact Hret |]. rewrite Htrace. cbn [trace]. now rewrite <- app_assoc.
Qed.

(** X30.  A manager never holds two clients under one name and keeps,
    for each name, the client added first; with clients whose [start]
    returns, [start_all] starts each of them once, in the order of their
    addition, whether the starts before it succeeded or not. *)
Theorem manager_starts_each_client_once (adds : list (string * Client))
    (tw : Traced ClientManager.manager_call Env) :
  ClientManagerSpec.start_returns ->
  let self := ClientManagerSpec.add_all adds in
  NoDup (map fst self)
  /\ (forall name, ClientManager.get_client name self = ClientManager.get_client name adds)
  /\ fst (ClientManager.start_all self tw) = Ret tt
  /\ trace (snd (ClientManager.start_all self tw))
     = trace tw ++ map (fun item => ClientManager.Start (fst item)) self.
Proof.
  intros Hstart self.
  destruct (add_all_from adds []) as [Hnd Hget]; [apply NoDup_nil_2 |].
  destruct (start_all_run self tw Hstart) as [Hret Htrace].
  auto.
Qed.

End ManagerFacts.

(** Witness of X30: "main" is added twice, the backup fails to start. *)
Lemma manager_starts_each_client_once_witness :
  trace (snd (ClientManager.start_all (ManagedClients0 := DemoTDLib.accounts)
                (ClientManagerSpec.add_all DemoTDLib.adds) (untraced tt)))
  = [ClientManager.Start "main"; ClientManager.Start "backup"].
Proof.
  exact (proj2 (proj2 (proj2 (manager_starts_each_client_once
                                (ManagedClients0 := DemoTDLib.accounts)
                                DemoTDLib.adds (untraced tt)
                                (fun c e => ex_intro _ c (ex_intro _ e eq_refl)))))).
Defined.
